(** * JSON-RPC wrappers of the MCP servers: a shallow embedding

    The repository holds near-identical Cloudflare Worker front-ends.
    Four of them carry a static tool table and are embedded here: the
    memory wrapper, the sequential-thinking wrapper, the Discord HTTP
    wrapper and the filesystem wrapper.  Each one is a module object
    with a [fetch] method, a method dispatcher ([handle...Request]) and
    a tool dispatcher ([handle...ToolCall]).  The "everything" proxy
    hands its requests to a compiled server outside the repository,
    which is a parameter of its embedding.  The FastMCP registration of
    the Discord tools runs inside a library outside the repository and
    is not embedded.

    The embedding follows the JavaScript text function by function:
    - JSON data is the inductive type [value] (an object is the list of
      its own properties, in enumeration order);
    - an exception is the [Throw] outcome of [Res];
    - the key-value namespaces, the clock and the Discord REST endpoint
      are the [World] threaded through the monad [M];
    - built-ins whose output text no property depends on (the wording of
      engine errors, ISO dates, JSON text) are the fields of [Runtime].

    Module [Observe] holds the vocabulary of the statements, and the
    part after it the properties, one section per concern. *)

From Stdlib Require Import ZArith Lia Ascii String List.
From stdpp Require Import base strings list gmap pretty.

Set Warnings "-register-all".

Open Scope Z_scope.
Open Scope string_scope.
Open Scope list_scope.

(** ** JavaScript values and outcomes *)

Module JS.

(** Values that can flow through the wrappers: what [JSON.parse] yields,
    plus [undefined] (a missing property).  Numbers are the integers,
    which is all the wrappers compute with (lengths, ids, HTTP status
    codes); the conversions below are those of JavaScript for integers
    under 2^53 in absolute value, which it prints with all their
    digits.  A string is a sequence of characters with codes under 256,
    one unit of length and one turn of an iteration each.  An object is
    the list of its own properties. *)
Inductive value : Type :=
| VUndef
| VNull
| VBool (b : bool)
| VNum (n : Z)
| VStr (s : string)
| VArr (elems : list value)
| VObj (props : list (string * value)).

(** Errors raised by the engine or the platform rather than by a
    [throw] statement of the wrappers. *)
Inductive engine_error : Type :=
| NotDefined (ident : string)               (* ReferenceError *)
| DestructureNullish (base : value) (prop : string)
| ReadOfNullish (base : value) (prop : string)
| SetOnNullish (base : value)
| SetOnPrimitive (base : value) (prop : string)
| InvalidArrayLength                        (* RangeError *)
| NotIterable (v : value)
| NotCallable (expr : string)
| NoPrimitive                               (* ToPrimitive found no primitive *)
| JsonSyntax                                (* body is not JSON *)
| FetchFailed                               (* outbound fetch rejected *)
| ImportFailed (specifier : string).        (* dynamic import rejected *)

Inductive exn : Type :=
| EngineError (e : engine_error)
| UserError (message : string).             (* throw new Error(message) *)

Inductive Res (A : Type) : Type :=
| Ok (a : A)
| Throw (e : exn).
Arguments Ok {A} a.
Arguments Throw {A} e.

Definition res_bind {A B} (r : Res A) (k : A -> Res B) : Res B :=
  match r with
  | Ok a => k a
  | Throw e => Throw e
  end.

(** Built-ins of the runtime that are used as black boxes. *)
Class Runtime : Type := {
  engine_message : engine_error -> string;   (* error.message of an engine error *)
  toISOString : Z -> string;                 (* new Date(ms).toISOString() *)
  JSON_stringify : value -> string;          (* JSON.stringify(v) *)
  JSON_stringify_indented : value -> string  (* JSON.stringify(v, null, 2) *)
}.

Definition message `{Runtime} (e : exn) : string :=
  match e with
  | EngineError x => engine_message x
  | UserError m => m
  end.

(** ToBoolean. *)
Definition truthy (v : value) : bool :=
  match v with
  | VUndef | VNull => false
  | VBool b => b
  | VNum n => negb (Z.eqb n 0)
  | VStr s => negb (String.eqb s "")
  | VArr _ | VObj _ => true
  end.

(** [a || b]. *)
Definition or_else (a b : value) : value := if truthy a then a else b.

(** [v === 'lit'] for a string literal. *)
Definition is_str (v : value) (lit : string) : bool :=
  match v with
  | VStr s => String.eqb s lit
  | _ => false
  end.

Definition nullish (v : value) : bool :=
  match v with
  | VUndef | VNull => true
  | _ => false
  end.

(** Own property lookup. *)
Fixpoint own (o : list (string * value)) (k : string) : option value :=
  match o with
  | [] => None
  | (k', v) :: rest => if String.eqb k' k then Some v else own rest k
  end.

Definition has_own (o : list (string * value)) (k : string) : bool :=
  match own o k with Some _ => true | None => false end.

Definition keys (o : list (string * value)) : list string := map fst o.

(** [v.k] for the property names the wrappers read.  None of these
    names is inherited from a built-in prototype, so on an object the
    read is an own-property lookup; arrays and strings answer [length]. *)
Definition get (v : value) (k : string) : Res value :=
  match v with
  | VUndef | VNull => Throw (EngineError (ReadOfNullish v k))
  | VObj o => Ok (default VUndef (own o k))
  | VArr l => Ok (if String.eqb k "length" then VNum (Z.of_nat (length l)) else VUndef)
  | VStr s => Ok (if String.eqb k "length" then VNum (Z.of_nat (String.length s)) else VUndef)
  | VBool _ | VNum _ => Ok VUndef
  end.

(** [const { k, ... } = v]: the first property of the pattern. *)
Definition destructure (v : value) (k : string) : Res value :=
  match v with
  | VUndef | VNull => Throw (EngineError (DestructureNullish v k))
  | _ => get v k
  end.

Fixpoint join_res (sep : string) (l : list (Res string)) : Res string :=
  match l with
  | [] => Ok ""
  | [r] => r
  | r :: rest =>
      res_bind r (fun s => res_bind (join_res sep rest) (fun t => Ok (s +:+ sep +:+ t)))
  end.

(** ToString, as performed by a template literal [`${v}`] and by a
    computed property key.  A parsed object has no callable own
    property: an own [toString] hides [Object.prototype.toString] and
    the conversion finds no primitive. *)
Fixpoint to_string (v : value) : Res string :=
  match v with
  | VUndef => Ok "undefined"
  | VNull => Ok "null"
  | VBool true => Ok "true"
  | VBool false => Ok "false"
  | VNum n => Ok (pretty n)
  | VStr s => Ok s
  | VArr l =>
      join_res ","
        (map (fun x => match x with
                       | VUndef | VNull => Ok ""
                       | _ => to_string x
                       end) l)
  | VObj o =>
      if has_own o "toString" then Throw (EngineError NoPrimitive)
      else Ok "[object Object]"
  end.

(** The JSON document that [JSON.stringify(v)] denotes, which is also
    what [JSON.parse] gives back: properties holding [undefined] are
    dropped, [undefined] array elements become [null]. *)
Fixpoint JSON_document (v : value) : value :=
  match v with
  | VArr l =>
      VArr (map (fun x => match x with
                          | VUndef => VNull
                          | _ => JSON_document x
                          end) l)
  | VObj o =>
      VObj (flat_map (fun p => match p with
                               | (k, x) =>
                                   match x with
                                   | VUndef => []
                                   | _ => [(k, JSON_document x)]
                                   end
                               end) o)
  | _ => v
  end.

(** *** Property assignment *)

Definition digit (c : ascii) : option N :=
  let n := N_of_ascii c in
  if (N.leb 48 n && N.leb n 57)%bool then Some (n - 48)%N else None.

Fixpoint digits (s : string) (acc : N) : option N :=
  match s with
  | EmptyString => Some acc
  | String c rest =>
      match digit c with
      | Some d => digits rest (10 * acc + d)%N
      | None => None
      end
  end.

(** Array index keys: canonical decimal strings below 2^32 - 1.  Own
    properties with such keys are enumerated first, in ascending order. *)
Definition array_index (k : string) : option N :=
  match k with
  | EmptyString => None
  | String c rest =>
      if (Ascii.eqb c "0" && negb (String.eqb rest ""))%bool then None
      else match digits k 0 with
           | Some n => if N.ltb n 4294967295 then Some n else None
           | None => None
           end
  end.

Fixpoint replace (k : string) (v : value) (o : list (string * value))
  : list (string * value) :=
  match o with
  | [] => []
  | (k', v') :: rest =>
      if String.eqb k' k then (k', v) :: rest else (k', v') :: replace k v rest
  end.

Fixpoint insert_index (i : N) (k : string) (v : value) (o : list (string * value))
  : list (string * value) :=
  match o with
  | [] => [(k, v)]
  | (k', v') :: rest =>
      match array_index k' with
      | Some j => if N.ltb j i then (k', v') :: insert_index i k v rest
                  else (k, v) :: o
      | None => (k, v) :: o
      end
  end.

(** [o[k] = v] on an ordinary object, [v] an object or a string.  An
    existing own property keeps its place.  A new key [__proto__] goes
    to the inherited setter, which creates no own property. *)
Definition define (k : string) (v : value) (o : list (string * value))
  : list (string * value) :=
  if has_own o k then replace k v o
  else if String.eqb k "__proto__" then o
  else match array_index k with
       | Some i => insert_index i k v o
       | None => o ++ [(k, v)]
       end.

(** [a[i] = v] on an array: holes read as [undefined]. *)
Definition array_put (i : nat) (v : value) (l : list value) : list value :=
  if decide (i < length l)%nat then <[i := v]> l
  else l ++ replicate (i - length l) VUndef ++ [v].

(** [base[key] = v] in strict code, for an assigned value [v] that is
    an object literal.  The base is checked first, then the key is
    converted.  On an array a non-index key makes a named property,
    which JSON ignores; [length] cannot be set to an object. *)
Definition assign (base key v : value) : Res value :=
  match base with
  | VUndef | VNull => Throw (EngineError (SetOnNullish base))
  | _ =>
      res_bind (to_string key) (fun k =>
        match base with
        | VObj o => Ok (VObj (define k v o))
        | VArr l =>
            match array_index k with
            | Some i => Ok (VArr (array_put (N.to_nat i) v l))
            | None =>
                if String.eqb k "length" then Throw (EngineError InvalidArrayLength)
                else Ok (VArr l)
            end
        | _ => Throw (EngineError (SetOnPrimitive base k))
        end)
  end.

(** [target.push(x)]; [expr] is the callee as written. *)
Definition push (target : value) (expr : string) (x : value) : Res value :=
  match target with
  | VArr l => Ok (VArr (l ++ [x]))
  | VUndef | VNull => Throw (EngineError (ReadOfNullish target "push"))
  | _ => Throw (EngineError (NotCallable expr))
  end.

(** ToString of [v + 1]. *)
Definition plus_one (v : value) : Res string :=
  match v with
  | VNum n => Ok (pretty (n + 1))
  | VUndef => Ok "NaN"
  | VNull => Ok "1"
  | VBool true => Ok "2"
  | VBool false => Ok "1"
  | VStr s => Ok (s +:+ "1")
  | VArr _ | VObj _ => res_bind (to_string v) (fun s => Ok (s +:+ "1"))
  end.

(** The values a [for ... of] loop visits. *)
Definition iterate (v : value) : Res (list value) :=
  match v with
  | VArr l => Ok l
  | VStr s => Ok (map (fun c => VStr (String c "")) (list_ascii_of_string s))
  | _ => Throw (EngineError (NotIterable v))
  end.

(** [s.replace(pat, rep)] with a string pattern: the first occurrence. *)
Fixpoint drop_chars (n : nat) (s : string) : string :=
  match n, s with
  | S n', String _ rest => drop_chars n' rest
  | _, _ => s
  end.

Fixpoint replace_first (pat rep s : string) : string :=
  if String.prefix pat s then rep +:+ drop_chars (String.length pat) s
  else match s with
       | EmptyString => EmptyString
       | String c rest => String c (replace_first pat rep rest)
       end.

End JS.

(** ** The platform: bindings, clock, outbound HTTP, and the monad *)

Module Platform.
Import JS.

(** A request the Discord wrapper sends to the REST API, and its answer. *)
Record UpRequest : Type := {
  up_url : string;
  up_method : string;
  up_authorization : string;
  up_body : option string
}.

Record UpResponse : Type := {
  up_status : Z;
  up_statusText : string;
  up_text : string;            (* response.text() *)
  up_json : option value       (* response.json(); None: not JSON *)
}.

(** [response.ok]: the status is in the range 200-299. *)
Definition up_ok (r : UpResponse) : bool :=
  (Z.leb 200 (up_status r) && Z.leb (up_status r) 299)%bool.

(** What the wrappers can observe or change outside themselves.  A KV
    namespace holds, per key, the JSON document last written; [None] is
    a binding that is not configured.  Every reading of the clock takes
    the next value of [clock]. *)
Record World : Type := {
  MEMORY_KV : option (gmap string value);
  THINKING_KV : option (gmap string value);
  clock : nat -> Z;
  reads : nat;
  discord : UpRequest -> Res UpResponse;
  sent : list UpRequest
}.

Inductive namespace : Type := MEMORY | THINKING.

Definition kv (ns : namespace) (w : World) : option (gmap string value) :=
  match ns with
  | MEMORY => MEMORY_KV w
  | THINKING => THINKING_KV w
  end.

Definition set_kv (ns : namespace) (s : gmap string value) (w : World) : World :=
  match ns with
  | MEMORY =>
      {| MEMORY_KV := Some s; THINKING_KV := THINKING_KV w; clock := clock w;
         reads := reads w; discord := discord w; sent := sent w |}
  | THINKING =>
      {| MEMORY_KV := MEMORY_KV w; THINKING_KV := Some s; clock := clock w;
         reads := reads w; discord := discord w; sent := sent w |}
  end.

(** Computations of the wrappers.  Effects that happened before a throw
    stay in the world. *)
Definition M (A : Type) : Type := World -> Res A * World.

Definition ret {A} (a : A) : M A := fun w => (Ok a, w).

Definition throw {A} (e : exn) : M A := fun w => (Throw e, w).

Definition bind {A B} (m : M A) (k : A -> M B) : M B :=
  fun w =>
    match m w with
    | (Ok a, w') => k a w'
    | (Throw e, w') => (Throw e, w')
    end.

Definition lift {A} (r : Res A) : M A := fun w => (r, w).

(** [try { m } catch (error) { handler }]. *)
Definition try_catch {A} (m : M A) (handler : exn -> M A) : M A :=
  fun w =>
    match m w with
    | (Ok a, w') => (Ok a, w')
    | (Throw e, w') => handler e w'
    end.

Declare Scope js_scope.
Delimit Scope js_scope with js.
Notation "x <- m ;; k" := (bind m (fun x => k))
  (at level 100, m at next level, right associativity) : js_scope.
Notation "m ;;; k" := (bind m (fun _ => k))
  (at level 100, right associativity) : js_scope.
Open Scope js_scope.

(** [Date.now()], and the instant of a [new Date()]. *)
Definition now : M Z :=
  fun w =>
    (Ok (clock w (reads w)),
     {| MEMORY_KV := MEMORY_KV w; THINKING_KV := THINKING_KV w; clock := clock w;
        reads := S (reads w); discord := discord w; sent := sent w |}).

(** [env.NS.get(key, 'json')]: the stored document, or [null]. *)
Definition KV_get (ns : namespace) (key : string) : M value :=
  fun w =>
    match kv ns w with
    | None => (Throw (EngineError (ReadOfNullish VUndef "get")), w)
    | Some s => (Ok (default VNull (s !! key)), w)
    end.

(** [env.NS?.get(key, 'json')]. *)
Definition KV_get_optional (ns : namespace) (key : string) : M value :=
  fun w =>
    match kv ns w with
    | None => (Ok VUndef, w)
    | Some s => (Ok (default VNull (s !! key)), w)
    end.

(** [env.NS.put(key, JSON.stringify(v))]. *)
Definition KV_put (ns : namespace) (key : string) (v : value) : M unit :=
  fun w =>
    match kv ns w with
    | None => (Throw (EngineError (ReadOfNullish VUndef "put")), w)
    | Some s => (Ok tt, set_kv ns (<[key := JSON_document v]> s) w)
    end.

(** [env.NS?.put(key, JSON.stringify(v))]. *)
Definition KV_put_optional (ns : namespace) (key : string) (v : value) : M unit :=
  fun w =>
    match kv ns w with
    | None => (Ok tt, w)
    | Some s => (Ok tt, set_kv ns (<[key := JSON_document v]> s) w)
    end.

(** The global [fetch], towards the Discord REST API. *)
Definition upstream_fetch (r : UpRequest) : M UpResponse :=
  fun w =>
    (discord w r,
     {| MEMORY_KV := MEMORY_KV w; THINKING_KV := THINKING_KV w; clock := clock w;
        reads := reads w; discord := discord w; sent := sent w ++ [r] |}).

(** An identifier that is bound neither in the enclosing function, nor
    at the top level of the module, nor on the global object of the
    Workers runtime: evaluating it raises a ReferenceError. *)
Definition unbound (ident : string) : M value :=
  throw (EngineError (NotDefined ident)).

(** [target.method(...)] where [target] is data and [method] is not a
    method of a built-in prototype: there is nothing to call. *)
Definition call_data_method (target : value) (method expr : string) : Res value :=
  res_bind (get target method) (fun _ => Throw (EngineError (NotCallable expr))).

(** *** HTTP *)

Record Request : Type := {
  req_method : string;
  req_pathname : string;                 (* new URL(request.url).pathname *)
  req_authorization : option string;     (* headers.get('Authorization') *)
  req_user_id : option string;           (* headers.get('X-User-Id') *)
  req_json : option value                (* request.json(); None: rejected *)
}.

(** The secrets and switches of [env]; the KV bindings of [env] are in
    the [World].  [dist_importable] says whether the dynamic import of
    the compiled server ('../dist/index.js', not part of the sources)
    succeeds. *)
Record Env : Type := {
  JWT_SECRET : option string;
  API_KEY : option string;
  SERVICE_KEY : option string;
  DISCORD_TOKEN : option string;
  dist_importable : bool
}.

Inductive Body : Type :=
| NoBody
| Text (s : string)
| Json (doc : value).       (* the document JSON.stringify wrote *)

Record Response : Type := {
  status : Z;
  headers : list (string * string);
  body : Body
}.

Definition corsHeaders : list (string * string) :=
  [("Access-Control-Allow-Origin", "*");
   ("Access-Control-Allow-Methods", "GET, POST, OPTIONS");
   ("Access-Control-Allow-Headers", "Content-Type, Authorization");
   ("Content-Type", "application/json")].

(** [new Response(JSON.stringify(v), { status, headers: corsHeaders })]. *)
Definition json_response (st : Z) (v : value) : Response :=
  {| status := st; headers := corsHeaders; body := Json (JSON_document v) |}.

(** [new Response(text, { status })]: a string body without headers of
    its own gets the default content type of text. *)
Definition text_response (st : Z) (text : string) : Response :=
  {| status := st; headers := [("content-type", "text/plain;charset=UTF-8")];
     body := Text text |}.

(** Truth value of an [env] secret: set and not empty. *)
Definition configured (secret : option string) : bool :=
  match secret with
  | Some s => negb (String.eqb s "")
  | None => false
  end.

(** [await request.json()]. *)
Definition request_json (request : Request) : M value :=
  match req_json request with
  | Some v => ret v
  | None => throw (EngineError JsonSyntax)
  end.

(** The two shapes of a JSON-RPC answer. *)
Definition rpc_error (code : Z) (msg : string) (data : value) (id : value) : value :=
  VObj [("jsonrpc", VStr "2.0");
        ("error", VObj [("code", VNum code); ("message", VStr msg); ("data", data)]);
        ("id", id)].

Definition rpc_result (result : value) (id : value) : value :=
  VObj [("jsonrpc", VStr "2.0"); ("result", result); ("id", id)].

(** A tool-call result with one text item. *)
Definition text_result (text : string) : value :=
  VObj [("content", VArr [VObj [("type", VStr "text"); ("text", VStr text)]])].

Definition error_result (text : string) : value :=
  VObj [("content", VArr [VObj [("type", VStr "text"); ("text", VStr text)]]);
        ("isError", VBool true)].

Definition strings (l : list string) : value := VArr (map VStr l).

Definition nl : string := String (ascii_of_nat 10) EmptyString.

End Platform.

(** ** The memory server (src/memory/fastmcp-wrapper/index.js) *)

Module Memory.
Import JS Platform.

Definition initialize : value :=
  VObj [("protocolVersion", VStr "2024-11-05");
        ("capabilities", VObj [("tools", VObj [])]);
        ("serverInfo", VObj [("name", VStr "memory-server"); ("version", VStr "0.6.3")])].

Definition string_type : value := VObj [("type", VStr "string")].

Definition string_array : value :=
  VObj [("type", VStr "array"); ("items", string_type)].

(** The answer to [tools/list]. *)
Definition tools_list : value :=
  VObj [("tools", VArr [
    VObj [("name", VStr "create_entities");
          ("description", VStr "Create one or more entities in the knowledge graph");
          ("inputSchema", VObj [
             ("type", VStr "object");
             ("properties", VObj [
                ("entities", VObj [
                   ("type", VStr "array");
                   ("items", VObj [
                      ("type", VStr "object");
                      ("properties", VObj [
                         ("name", string_type);
                         ("entityType", string_type);
                         ("observations", string_array)]);
                      ("required", strings ["name"; "entityType"])])])]);
             ("required", strings ["entities"])])];
    VObj [("name", VStr "create_relations");
          ("description", VStr "Create one or more relations between entities");
          ("inputSchema", VObj [
             ("type", VStr "object");
             ("properties", VObj [
                ("relations", VObj [
                   ("type", VStr "array");
                   ("items", VObj [
                      ("type", VStr "object");
                      ("properties", VObj [
                         ("from", string_type);
                         ("to", string_type);
                         ("relationType", string_type)]);
                      ("required", strings ["from"; "to"; "relationType"])])])]);
             ("required", strings ["relations"])])];
    VObj [("name", VStr "add_observations");
          ("description", VStr "Add observations to existing entities");
          ("inputSchema", VObj [
             ("type", VStr "object");
             ("properties", VObj [
                ("observations", VObj [
                   ("type", VStr "array");
                   ("items", VObj [
                      ("type", VStr "object");
                      ("properties", VObj [
                         ("entityName", string_type);
                         ("contents", string_array)]);
                      ("required", strings ["entityName"; "contents"])])])]);
             ("required", strings ["observations"])])];
    VObj [("name", VStr "search_entities");
          ("description", VStr "Search for entities in the knowledge graph");
          ("inputSchema", VObj [
             ("type", VStr "object");
             ("properties", VObj [("query", string_type)]);
             ("required", strings ["query"])])];
    VObj [("name", VStr "read_graph");
          ("description", VStr "Read the entire knowledge graph");
          ("inputSchema", VObj [
             ("type", VStr "object");
             ("properties", VObj [])])]])].

(** The names in the static tool table. *)
Definition tool_names : list string :=
  ["create_entities"; "create_relations"; "add_observations";
   "search_entities"; "read_graph"].

Definition empty_graph : value :=
  VObj [("entities", VObj []); ("relations", VArr [])].

(** [graph.entities] now refers to the updated mapping. *)
Definition with_entities (graph entities : value) : value :=
  match graph with
  | VObj o => VObj (replace "entities" entities o)
  | _ => graph
  end.

(** One turn of the loop of lines 260-266:
    [graph.entities[entity.name] = { name, entityType, observations }]. *)
Definition store_entity (graph entity : value) : Res value :=
  res_bind (get graph "entities") (fun entities =>
  res_bind (get entity "name") (fun name =>
  res_bind (get entity "entityType") (fun entityType =>
  res_bind (get entity "observations") (fun observations =>
  let record :=
    VObj [("name", name); ("entityType", entityType);
          ("observations", or_else observations (VArr []))] in
  res_bind (assign entities name record) (fun entities' =>
  Ok (with_entities graph entities')))))).

Fixpoint store_entities (graph : value) (items : list value) : Res value :=
  match items with
  | [] => Ok graph
  | entity :: rest =>
      res_bind (store_entity graph entity) (fun graph' => store_entities graph' rest)
  end.

(** Lines 232-254, the [read_graph] branch. *)
Definition read_graph `{Runtime} (userMemoryKey : string) : M value :=
  try_catch
    (stored <- KV_get MEMORY userMemoryKey ;;
     let graph := or_else stored empty_graph in
     ret (text_result (JSON_stringify_indented graph)))
    (fun error => ret (error_result ("Error reading memory graph: " +:+ message error))).

(** Lines 256-289, the [create_entities] branch. *)
Definition create_entities `{Runtime} (userMemoryKey : string) (args : value) : M value :=
  try_catch
    (stored <- KV_get MEMORY userMemoryKey ;;
     let graph := or_else stored empty_graph in
     entities <- lift (get args "entities") ;;
     items <- lift (iterate entities) ;;
     graph' <- lift (store_entities graph items) ;;
     (KV_put MEMORY userMemoryKey graph' ;;;
      count <- lift (res_bind (get entities "length") to_string) ;;
      ret (text_result ("Created " +:+ count +:+ " entities"))))
    (fun error => ret (error_result ("Error creating entities: " +:+ message error))).

(** Lines 232-299: the branches on [name], once the storage key is known. *)
Definition tool_branches `{Runtime} (name args : value) (userMemoryKey : string)
  : M value :=
  if is_str name "read_graph" then read_graph userMemoryKey
  else if is_str name "create_entities" then create_entities userMemoryKey args
  else
    shown <- lift (to_string name) ;;
    ret (text_result ("Tool " +:+ shown +:+ " is being implemented")).

(** [handleMemoryToolCall(params, env)].  Line 230 reads [request],
    which is a parameter of [fetch] and of [handleMemoryRequest] but is
    not bound in this function. *)
Definition handleMemoryToolCall `{Runtime} (params : value) (env : Env) : M value :=
  name <- lift (destructure params "name") ;;
  args <- lift (get params "arguments") ;;
  request <- unbound "request" ;;
  headers <- lift (get request "headers") ;;
  user <- lift (call_data_method headers "get" "request.headers.get") ;;
  owner <- lift (to_string (or_else user (VStr "default"))) ;;
  let userMemoryKey := "memory:" +:+ owner in
  tool_branches name args userMemoryKey.

(** [handleMemoryRequest(request, env)]. *)
Definition handleMemoryRequest `{Runtime} (request : value) (env : Env) : M value :=
  method <- lift (destructure request "method") ;;
  params <- lift (get request "params") ;;
  if is_str method "initialize" then ret initialize
  else if is_str method "tools/list" then ret tools_list
  else if is_str method "tools/call" then handleMemoryToolCall params env
  else
    shown <- lift (to_string method) ;;
    throw (UserError ("Unknown method: " +:+ shown)).

(** Lines 24-41: the bearer check. *)
Definition unauthorized (request : Request) (env : Env) : bool :=
  if configured (JWT_SECRET env) then
    match req_authorization request with
    | None => true
    | Some authHeader =>
        let token := replace_first "Bearer " "" authHeader in
        (String.eqb token "" || negb (String.prefix "mcp_jwt_" token))%bool
    end
  else false.

(** Lines 56-99: the body of the [try] and its [catch]. *)
Definition serve `{Runtime} (request : Request) (env : Env) : M Response :=
  try_catch
    (body <- request_json request ;;
     marker <- lift (get body "jsonrpc") ;;
     if (negb (truthy marker) || negb (is_str marker "2.0"))%bool then
       id <- lift (get body "id") ;;
       ret (json_response 400
              (rpc_error (-32600) "Invalid Request" VUndef (or_else id VNull)))
     else
       result <- handleMemoryRequest body env ;;
       id <- lift (get body "id") ;;
       ret (json_response 200 (rpc_result result id)))
    (fun error =>
       ret (json_response 500
              (rpc_error (-32603) "Internal error" (VStr (message error)) VNull))).

(** The [fetch] handler of the worker. *)
Definition fetch `{Runtime} (request : Request) (env : Env) : M Response :=
  if String.eqb (req_method request) "OPTIONS" then
    ret {| status := 200; headers := corsHeaders; body := NoBody |}
  else if unauthorized request env then
    ret (json_response 401
           (rpc_error (-32001) "Unauthorized - Invalid or missing JWT token" VUndef VNull))
  else if String.eqb (req_pathname request) "/health" then
    ret (json_response 200
           (VObj [("status", VStr "ok"); ("service", VStr "mcp-memory-server");
                  ("version", VStr "1.0.0")]))
  else if (String.eqb (req_method request) "POST" && String.eqb (req_pathname request) "/")%bool
  then serve request env
  else ret (text_response 404 "Not Found").

End Memory.

(** ** The sequential-thinking server *)

Module Thinking.
Import JS Platform.

Definition initialize : value :=
  VObj [("protocolVersion", VStr "2024-11-05");
        ("capabilities", VObj [("tools", VObj [])]);
        ("serverInfo", VObj [("name", VStr "sequentialthinking-server");
                             ("version", VStr "0.6.3")])].

Definition described (description : string) : value :=
  VObj [("type", VStr "string"); ("description", VStr description)].

Definition tools_list : value :=
  VObj [("tools", VArr [
    VObj [("name", VStr "sequential_thinking");
          ("description",
           VStr "Engage in structured, step-by-step thinking to solve complex problems");
          ("inputSchema", VObj [
             ("type", VStr "object");
             ("properties", VObj [
                ("query", described "The problem or question to think through");
                ("session_id",
                 described "Optional session ID to continue a previous thinking session")]);
             ("required", strings ["query"])])];
    VObj [("name", VStr "get_thinking_session");
          ("description", VStr "Retrieve a complete thinking session");
          ("inputSchema", VObj [
             ("type", VStr "object");
             ("properties", VObj [
                ("session_id", described "The session ID to retrieve")]);
             ("required", strings ["session_id"])])];
    VObj [("name", VStr "list_sessions");
          ("description", VStr "List all thinking sessions");
          ("inputSchema", VObj [
             ("type", VStr "object");
             ("properties", VObj [])])];
    VObj [("name", VStr "clear_session");
          ("description", VStr "Clear a specific thinking session");
          ("inputSchema", VObj [
             ("type", VStr "object");
             ("properties", VObj [
                ("session_id", described "The session ID to clear")]);
             ("required", strings ["session_id"])])]])].

Definition tool_names : list string :=
  ["sequential_thinking"; "get_thinking_session"; "list_sessions"; "clear_session"].

Definition conclusion : string :=
  "This requires further analysis through structured thinking.".

(** [session.steps.push(step); session.updated = stamp]: the array in
    [steps] has grown in place, [updated] is set or added. *)
Definition with_step (session steps' : value) (stamp : string) : value :=
  match session with
  | VObj o => VObj (define "updated" (VStr stamp) (replace "steps" steps' o))
  | _ => session
  end.

(** Lines 194-240, the [sequential_thinking] branch. *)
Definition sequential_thinking `{Runtime} (userId args : value) : M value :=
  try_catch
    (given <- lift (get args "session_id") ;;
     sessionId <- (if truthy given then ret given
                   else t <- now ;; ret (VStr ("session_" +:+ pretty t))) ;;
     user <- lift (to_string userId) ;;
     sid <- lift (to_string sessionId) ;;
     let sessionKey := "thinking:" +:+ user +:+ ":" +:+ sid in
     stored <- KV_get_optional THINKING sessionKey ;;
     session <- (if truthy stored then ret stored
                 else t <- now ;;
                      ret (VObj [("id", sessionId);
                                 ("created", VStr (toISOString t));
                                 ("steps", VArr [])])) ;;
     steps <- lift (get session "steps") ;;
     len <- lift (get steps "length") ;;
     number <- lift (plus_one len) ;;
     let step_id := "step_" +:+ number in
     query <- lift (get args "query") ;;
     t <- now ;;
     q <- lift (to_string query) ;;
     let thinking := "Analyzing: " +:+ q in
     let step :=
       VObj [("id", VStr step_id); ("query", query);
             ("timestamp", VStr (toISOString t));
             ("thinking", VStr thinking);
             ("conclusion", VStr conclusion)] in
     steps' <- lift (push steps "session.steps.push" step) ;;
     t' <- now ;;
     let session' := with_step session steps' (toISOString t') in
     (KV_put_optional THINKING sessionKey session' ;;;
      ret (text_result
             ("**Sequential Thinking - Step " +:+ step_id +:+ "**" +:+ nl +:+ nl +:+
              "**Query:** " +:+ q +:+ nl +:+ nl +:+
              "**Analysis:** " +:+ thinking +:+ nl +:+ nl +:+
              "**Conclusion:** " +:+ conclusion +:+ nl +:+ nl +:+
              "**Session ID:** " +:+ sid))))
    (fun error => ret (error_result ("Error in sequential thinking: " +:+ message error))).

(** Lines 242-264, the [list_sessions] branch; nothing in its [try] can throw. *)
Definition list_sessions : M value :=
  ret (text_result "Session listing functionality available - requires KV storage setup").

(** Lines 194-273: the branches on [name], once the caller is known. *)
Definition tool_branches `{Runtime} (name args userId : value) : M value :=
  if is_str name "sequential_thinking" then sequential_thinking userId args
  else if is_str name "list_sessions" then list_sessions
  else
    shown <- lift (to_string name) ;;
    ret (text_result ("Tool " +:+ shown +:+ " is being implemented")).

(** [handleThinkingToolCall(params, env)].  Line 192 reads [request],
    which is not bound in this function. *)
Definition handleThinkingToolCall `{Runtime} (params : value) (env : Env) : M value :=
  name <- lift (destructure params "name") ;;
  args <- lift (get params "arguments") ;;
  request <- unbound "request" ;;
  headers <- lift (get request "headers") ;;
  user <- lift (if nullish headers then Ok VUndef
                else call_data_method headers "get" "request.headers?.get") ;;
  let userId := or_else user (VStr "default") in
  tool_branches name args userId.

(** [handleThinkingRequest(request, env)]. *)
Definition handleThinkingRequest `{Runtime} (request : value) (env : Env) : M value :=
  method <- lift (destructure request "method") ;;
  params <- lift (get request "params") ;;
  if is_str method "initialize" then ret initialize
  else if is_str method "tools/list" then ret tools_list
  else if is_str method "tools/call" then handleThinkingToolCall params env
  else
    shown <- lift (to_string method) ;;
    throw (UserError ("Unknown method: " +:+ shown)).

Definition serve `{Runtime} (request : Request) (env : Env) : M Response :=
  try_catch
    (body <- request_json request ;;
     marker <- lift (get body "jsonrpc") ;;
     if (negb (truthy marker) || negb (is_str marker "2.0"))%bool then
       id <- lift (get body "id") ;;
       ret (json_response 400
              (rpc_error (-32600) "Invalid Request" VUndef (or_else id VNull)))
     else
       result <- handleThinkingRequest body env ;;
       id <- lift (get body "id") ;;
       ret (json_response 200 (rpc_result result id)))
    (fun error =>
       ret (json_response 500
              (rpc_error (-32603) "Internal error" (VStr (message error)) VNull))).

Definition fetch `{Runtime} (request : Request) (env : Env) : M Response :=
  if String.eqb (req_method request) "OPTIONS" then
    ret {| status := 200; headers := corsHeaders; body := NoBody |}
  else if Memory.unauthorized request env then
    ret (json_response 401
           (rpc_error (-32001) "Unauthorized - Invalid or missing JWT token" VUndef VNull))
  else if String.eqb (req_pathname request) "/health" then
    ret (json_response 200
           (VObj [("status", VStr "ok"); ("service", VStr "mcp-sequentialthinking-server");
                  ("version", VStr "1.0.0")]))
  else if (String.eqb (req_method request) "POST" && String.eqb (req_pathname request) "/")%bool
  then serve request env
  else ret (text_response 404 "Not Found").

End Thinking.

(** ** The Discord server (HTTP wrapper) *)

Module Discord.
Import JS Platform.

Definition initialize : value :=
  VObj [("protocolVersion", VStr "2024-11-05");
        ("capabilities", VObj [("tools", VObj [])]);
        ("serverInfo", VObj [("name", VStr "discord-server"); ("version", VStr "1.0.0")])].

Definition described (description : string) : value :=
  VObj [("type", VStr "string"); ("description", VStr description)].

Definition tools_list : value :=
  VObj [("tools", VArr [
    VObj [("name", VStr "send_message");
          ("description",
           VStr "Send a message to a Discord channel (requires bot permissions and real-time connection).");
          ("inputSchema", VObj [
             ("type", VStr "object");
             ("properties", VObj [
                ("channel_id", described "Discord channel ID");
                ("message", described "Message content to send")]);
             ("required", strings ["channel_id"; "message"])])];
    VObj [("name", VStr "get_channel_info");
          ("description", VStr "Get information about a Discord channel via REST API.");
          ("inputSchema", VObj [
             ("type", VStr "object");
             ("properties", VObj [("channel_id", described "Discord channel ID")]);
             ("required", strings ["channel_id"])])];
    VObj [("name", VStr "get_guild_info");
          ("description", VStr "Get information about a Discord server/guild via REST API.");
          ("inputSchema", VObj [
             ("type", VStr "object");
             ("properties", VObj [("guild_id", described "Discord guild/server ID")]);
             ("required", strings ["guild_id"])])]])].

Definition tool_names : list string :=
  ["send_message"; "get_channel_info"; "get_guild_info"].

(** [makeDiscordRequest(endpoint, options, token)], with the two fields
    of [options] the callers set. *)
Definition makeDiscordRequest (endpoint : string) (method : string)
    (payload : option string) (token : string) : M value :=
  response <- upstream_fetch
                {| up_url := "https://discord.com/api/v10/" +:+ endpoint;
                   up_method := method;
                   up_authorization := "Bot " +:+ token;
                   up_body := payload |} ;;
  if negb (up_ok response) then
    let errorText := up_text response in
    throw (UserError ("Discord API error: " +:+ pretty (up_status response) +:+ " " +:+
                      up_statusText response +:+ " - " +:+ errorText))
  else
    match up_json response with
    | Some data => ret data
    | None => throw (EngineError JsonSyntax)
    end.

(** The object literal [{ k1: data.k1, ... }], fields read in order. *)
Fixpoint pick (data : value) (fields : list (string * string)) : Res (list (string * value)) :=
  match fields with
  | [] => Ok []
  | (label, field) :: rest =>
      res_bind (get data field) (fun v =>
      res_bind (pick data rest) (fun more => Ok ((label, v) :: more)))
  end.

Definition same (l : list string) : list (string * string) := map (fun k => (k, k)) l.

Definition sendMessage `{Runtime} (args : value) (token : string) : M value :=
  try_catch
    (channel_id <- lift (destructure args "channel_id") ;;
     message <- lift (get args "message") ;;
     channel <- lift (to_string channel_id) ;;
     data <- makeDiscordRequest ("channels/" +:+ channel +:+ "/messages") "POST"
               (Some (JSON_stringify (VObj [("content", message)]))) token ;;
     sent_fields <- lift (pick data [("message_id", "id"); ("channel_id", "channel_id");
                                     ("content", "content"); ("timestamp", "timestamp")]) ;;
     ret (text_result
            (JSON_stringify_indented (VObj (("message_sent", VBool true) :: sent_fields)))))
    (fun error => ret (error_result ("Error sending message: " +:+ message error))).

Definition getChannelInfo `{Runtime} (args : value) (token : string) : M value :=
  try_catch
    (channel_id <- lift (destructure args "channel_id") ;;
     channel <- lift (to_string channel_id) ;;
     data <- makeDiscordRequest ("channels/" +:+ channel) "GET" None token ;;
     fields <- lift (pick data (same ["id"; "name"; "type"; "guild_id"; "position";
                                      "topic"; "nsfw"; "last_message_id"; "bitrate";
                                      "user_limit"; "rate_limit_per_user"])) ;;
     ret (text_result (JSON_stringify_indented (VObj [("channel", VObj fields)]))))
    (fun error => ret (error_result ("Error getting channel info: " +:+ message error))).

Definition getGuildInfo `{Runtime} (args : value) (token : string) : M value :=
  try_catch
    (guild_id <- lift (destructure args "guild_id") ;;
     guild <- lift (to_string guild_id) ;;
     data <- makeDiscordRequest ("guilds/" +:+ guild) "GET" None token ;;
     fields <- lift (pick data [("id", "id"); ("name", "name"); ("icon", "icon");
                                ("owner_id", "owner_id"); ("permissions", "permissions");
                                ("region", "region");
                                ("member_count", "approximate_member_count");
                                ("presence_count", "approximate_presence_count");
                                ("features", "features"); ("premium_tier", "premium_tier");
                                ("premium_subscription_count", "premium_subscription_count");
                                ("preferred_locale", "preferred_locale");
                                ("nsfw_level", "nsfw_level");
                                ("verification_level", "verification_level")]) ;;
     ret (text_result (JSON_stringify_indented (VObj [("guild", VObj fields)]))))
    (fun error => ret (error_result ("Error getting guild info: " +:+ message error))).

(** [handleToolCall(params, env)]. *)
Definition handleToolCall `{Runtime} (params : value) (env : Env) : M value :=
  name <- lift (destructure params "name") ;;
  args <- lift (get params "arguments") ;;
  let discordToken := if configured (DISCORD_TOKEN env)
                      then default "" (DISCORD_TOKEN env) else "" in
  if String.eqb discordToken "" then throw (UserError "DISCORD_TOKEN is required")
  else if is_str name "send_message" then sendMessage args discordToken
  else if is_str name "get_channel_info" then getChannelInfo args discordToken
  else if is_str name "get_guild_info" then getGuildInfo args discordToken
  else
    shown <- lift (to_string name) ;;
    throw (UserError ("Unknown tool: " +:+ shown)).

(** [handleMCPRequest(request, env)]. *)
Definition handleMCPRequest `{Runtime} (request : value) (env : Env) : M value :=
  method <- lift (destructure request "method") ;;
  params <- lift (get request "params") ;;
  if is_str method "initialize" then ret initialize
  else if is_str method "tools/list" then ret tools_list
  else if is_str method "tools/call" then handleToolCall params env
  else
    shown <- lift (to_string method) ;;
    throw (UserError ("Unknown method: " +:+ shown)).

(** The key check: the bearer must be one of the configured keys. *)
Definition unauthorized (request : Request) (env : Env) : bool :=
  if (configured (API_KEY env) || configured (SERVICE_KEY env))%bool then
    let validKeys :=
      (if configured (API_KEY env) then [default "" (API_KEY env)] else []) ++
      (if configured (SERVICE_KEY env) then [default "" (SERVICE_KEY env)] else []) in
    match req_authorization request with
    | None => true
    | Some authHeader =>
        let providedKey := replace_first "Bearer " "" authHeader in
        (String.eqb providedKey "" || negb (existsb (String.eqb providedKey) validKeys))%bool
    end
  else false.

Definition serve `{Runtime} (request : Request) (env : Env) : M Response :=
  try_catch
    (body <- request_json request ;;
     marker <- lift (get body "jsonrpc") ;;
     if (negb (truthy marker) || negb (is_str marker "2.0"))%bool then
       id <- lift (get body "id") ;;
       ret (json_response 400
              (rpc_error (-32600) "Invalid Request" VUndef (or_else id VNull)))
     else
       result <- handleMCPRequest body env ;;
       id <- lift (get body "id") ;;
       ret (json_response 200 (rpc_result result id)))
    (fun error =>
       ret (json_response 500
              (rpc_error (-32603) "Internal error" (VStr (message error)) VNull))).

Definition fetch `{Runtime} (request : Request) (env : Env) : M Response :=
  if String.eqb (req_method request) "OPTIONS" then
    ret {| status := 200; headers := corsHeaders; body := NoBody |}
  else if unauthorized request env then
    ret (json_response 401 (rpc_error (-32001) "Unauthorized" VUndef VNull))
  else if (String.eqb (req_method request) "POST" && String.eqb (req_pathname request) "/")%bool
  then serve request env
  else if String.eqb (req_pathname request) "/health" then
    ret (json_response 200
           (VObj [("status", VStr "ok"); ("service", VStr "mcp-discord-server");
                  ("version", VStr "1.0.0")]))
  else ret (text_response 404 "Not Found").

End Discord.

(** ** The filesystem server *)

Module Filesystem.
Import JS Platform.

Definition initialize : value :=
  VObj [("protocolVersion", VStr "2024-11-05");
        ("capabilities", VObj [("tools", VObj []); ("resources", VObj [])]);
        ("serverInfo", VObj [("name", VStr "filesystem-server"); ("version", VStr "0.6.3")])].

Definition described (description : string) : value :=
  VObj [("type", VStr "string"); ("description", VStr description)].

Definition tools_list : value :=
  VObj [("tools", VArr [
    VObj [("name", VStr "read_file");
          ("description", VStr "Read the complete contents of a file from the file system");
          ("inputSchema", VObj [
             ("type", VStr "object");
             ("properties", VObj [("path", described "The path of the file to read")]);
             ("required", strings ["path"])])];
    VObj [("name", VStr "write_file");
          ("description",
           VStr "Create a new file or completely overwrite an existing file with new content");
          ("inputSchema", VObj [
             ("type", VStr "object");
             ("properties", VObj [
                ("path", described "The path of the file to write");
                ("content", described "The content to write to the file")]);
             ("required", strings ["path"; "content"])])]])].

Definition tool_names : list string := ["read_file"; "write_file"].

(** [handleFilesystemToolCall(params, env)]. *)
Definition handleFilesystemToolCall (params : value) (env : Env) : M value :=
  name <- lift (destructure params "name") ;;
  args <- lift (get params "arguments") ;;
  if is_str name "read_file" then
    ret (text_result "File operations in Workers require adaptation to cloud storage APIs")
  else if is_str name "write_file" then
    ret (text_result "File write operations in Workers require adaptation to cloud storage APIs")
  else
    shown <- lift (to_string name) ;;
    throw (UserError ("Unknown tool: " +:+ shown)).

(** [handleFilesystemRequest(request, env)]. *)
Definition handleFilesystemRequest (request : value) (env : Env) : M value :=
  method <- lift (destructure request "method") ;;
  params <- lift (get request "params") ;;
  if is_str method "initialize" then ret initialize
  else if is_str method "tools/list" then ret tools_list
  else if is_str method "tools/call" then handleFilesystemToolCall params env
  else
    shown <- lift (to_string method) ;;
    throw (UserError ("Unknown method: " +:+ shown)).

(** [await import('../dist/index.js')]. *)
Definition import_dist (env : Env) : M unit :=
  if dist_importable env then ret tt
  else throw (EngineError (ImportFailed "../dist/index.js")).

(** The outer [try] with the inner one nested in it. *)
Definition serve `{Runtime} (request : Request) (env : Env) : M Response :=
  try_catch
    (body <- request_json request ;;
     marker <- lift (get body "jsonrpc") ;;
     if (negb (truthy marker) || negb (is_str marker "2.0"))%bool then
       id <- lift (get body "id") ;;
       ret (json_response 400
              (rpc_error (-32600) "Invalid Request" VUndef (or_else id VNull)))
     else
       try_catch
         (import_dist env ;;;
          result <- handleFilesystemRequest body env ;;
          id <- lift (get body "id") ;;
          ret (json_response 200 (rpc_result result id)))
         (fun error =>
            id <- lift (get body "id") ;;
            ret (json_response 500
                   (rpc_error (-32603) "Server integration in progress"
                      (VStr "Original TypeScript server needs adaptation for Workers")
                      (or_else id VNull)))))
    (fun error =>
       ret (json_response 500
              (rpc_error (-32603) "Internal error" (VStr (message error)) VNull))).

Definition fetch `{Runtime} (request : Request) (env : Env) : M Response :=
  if String.eqb (req_method request) "OPTIONS" then
    ret {| status := 200; headers := corsHeaders; body := NoBody |}
  else if Memory.unauthorized request env then
    ret (json_response 401
           (rpc_error (-32001) "Unauthorized - Invalid or missing JWT token" VUndef VNull))
  else if String.eqb (req_pathname request) "/health" then
    ret (json_response 200
           (VObj [("status", VStr "ok"); ("service", VStr "mcp-filesystem-server");
                  ("version", VStr "1.0.0")]))
  else if (String.eqb (req_method request) "POST" && String.eqb (req_pathname request) "/")%bool
  then serve request env
  else ret (text_response 404 "Not Found").

End Filesystem.

(** ** The "everything" proxy (src/everything/fastmcp-wrapper/index.js) *)

Module Everything.
Import JS Platform.

(** What [await import('../dist/index.js')] gives.  The compiled server
    is not part of the sources: the import is rejected, or the module
    has no callable [handleRequest] export, or it has one.  A call of
    [handleRequest] runs in the world and may throw; it returns a
    [Response] whose body has not been read, or ([None]) null or
    undefined.  The status text of a response is not modelled. *)
Inductive Dist : Type :=
| NotFound
| WithoutHandler
| WithHandler (handleRequest : Request -> Env -> M (option Response)).

(** Why the [try] block of lines 76-93 was left; the [catch] does not
    look at it. *)
Inductive Problem : Type :=
| ImportRejected
| NotAFunction
| Raised (e : exn)
| NoResponse                    (* [response.headers] of null or undefined *)
| RefusedInit.                  (* the [Response] constructor refused its arguments *)

(** Header names are compared without regard to case. *)
Definition lower_ascii (c : ascii) : ascii :=
  let n := nat_of_ascii c in
  if (Nat.leb 65 n && Nat.leb n 90)%bool then ascii_of_nat (n + 32) else c.

Fixpoint lower (s : string) : string :=
  match s with
  | EmptyString => EmptyString
  | String c rest => String (lower_ascii c) (lower rest)
  end.

Definition same_name (a b : string) : bool := String.eqb (lower a) (lower b).

(** [headers.set(name, value)]: the entries of that name go, one entry
    with the value comes.  A [Headers] object is read by name or in the
    order of the names, so the place and the case of the entry are not
    observable. *)
Definition header_set (name value : string) (hs : list (string * string))
  : list (string * string) :=
  List.filter (fun p => negb (same_name (fst p) name)) hs ++ [(name, value)].

(** Lines 84-87: a copy of the headers with every CORS header set. *)
Definition with_cors (hs : list (string * string)) : list (string * string) :=
  fold_left (fun acc p => header_set (fst p) (snd p) acc) corsHeaders hs.

(** The [Response] constructor takes a status from 200 to 599, and no
    body with a null-body status. *)
Definition accepted (r : Response) : bool :=
  (Z.leb 200 (status r) && Z.leb (status r) 599 &&
   match body r with
   | NoBody => true
   | _ => negb (Z.eqb (status r) 204 || Z.eqb (status r) 205 || Z.eqb (status r) 304)
   end)%bool.

(** Lines 76-93, the [try] block. *)
Definition proxy (original : Dist) (request : Request) (env : Env)
  : World -> (Problem + Response) * World :=
  fun w =>
    match original with
    | NotFound => (inl ImportRejected, w)
    | WithoutHandler => (inl NotAFunction, w)
    | WithHandler handleRequest =>
        match handleRequest request env w with
        | (Throw e, w') => (inl (Raised e), w')
        | (Ok None, w') => (inl NoResponse, w')
        | (Ok (Some response), w') =>
            if accepted response then
              (inr {| status := status response;
                      headers := with_cors (headers response);
                      body := body response |}, w')
            else (inl RefusedInit, w')
        end
    end.

(** Lines 99-110, the answer of the [catch]. *)
Definition fallback : Response :=
  json_response 500
    (rpc_error (-32603) "Internal server error"
       (VStr "Original server integration pending proper build setup") VNull).

(** The bearer check is the one of the memory wrapper; the [try] of
    lines 44-60 around it holds one string replacement, which cannot
    throw. *)
Definition fetch (original : Dist) (request : Request) (env : Env) : M Response :=
  if String.eqb (req_method request) "OPTIONS" then
    ret {| status := 200; headers := corsHeaders; body := NoBody |}
  else if Memory.unauthorized request env then
    ret (json_response 401
           (rpc_error (-32001) "Unauthorized - Invalid or missing JWT token" VUndef VNull))
  else if String.eqb (req_pathname request) "/health" then
    ret (json_response 200
           (VObj [("status", VStr "ok"); ("service", VStr "mcp-everything-server");
                  ("version", VStr "1.0.0")]))
  else
    fun w =>
      match proxy original request env w with
      | (inr response, w') => (Ok response, w')
      | (inl _, w') => (Ok fallback, w')
      end.

End Everything.

(** ** Observations on requests, responses and stores *)

Module Observe.
Import JS Platform.

(** The four wrappers with a static tool table. *)
Inductive server : Type := MemoryServer | ThinkingServer | DiscordServer | FilesystemServer.

Definition fetch_of `{Runtime} (s : server) : Request -> Env -> M Response :=
  match s with
  | MemoryServer => Memory.fetch
  | ThinkingServer => Thinking.fetch
  | DiscordServer => Discord.fetch
  | FilesystemServer => Filesystem.fetch
  end.

(** The method dispatcher of each wrapper. *)
Definition dispatcher_of `{Runtime} (s : server) : value -> Env -> M value :=
  match s with
  | MemoryServer => Memory.handleMemoryRequest
  | ThinkingServer => Thinking.handleThinkingRequest
  | DiscordServer => Discord.handleMCPRequest
  | FilesystemServer => Filesystem.handleFilesystemRequest
  end.

Definition tools_list_of (s : server) : value :=
  match s with
  | MemoryServer => Memory.tools_list
  | ThinkingServer => Thinking.tools_list
  | DiscordServer => Discord.tools_list
  | FilesystemServer => Filesystem.tools_list
  end.

Definition tool_names_of (s : server) : list string :=
  match s with
  | MemoryServer => Memory.tool_names
  | ThinkingServer => Thinking.tool_names
  | DiscordServer => Discord.tool_names
  | FilesystemServer => Filesystem.tool_names
  end.

Definition unauthorized_of (s : server) : Request -> Env -> bool :=
  match s with
  | DiscordServer => Discord.unauthorized
  | _ => Memory.unauthorized
  end.

(** The names of the descriptors in a [tools/list] answer. *)
Definition descriptor_names (listing : value) : list value :=
  match listing with
  | VObj o =>
      match own o "tools" with
      | Some (VArr l) =>
          map (fun d => match d with
                        | VObj p => default VUndef (own p "name")
                        | _ => VUndef
                        end) l
      | _ => []
      end
  | _ => []
  end.

(** [v.k], with [undefined] where the read would throw. *)
Definition field (v : value) (k : string) : value :=
  match get v k with
  | Ok x => x
  | Throw _ => VUndef
  end.


(** [params.name] is one of the names of the tool table. *)
Definition known_tool (s : server) (name : value) : bool :=
  existsb (is_str name) (tool_names_of s).


(** A [POST /] request whose body parses to [body]. *)
Definition post (authorization user : option string) (body : value) : Request :=
  {| req_method := "POST"; req_pathname := "/";
     req_authorization := authorization; req_user_id := user;
     req_json := Some body |}.

(** A [POST /] request whose body is not JSON. *)
Definition post_garbage : Request :=
  {| req_method := "POST"; req_pathname := "/";
     req_authorization := None; req_user_id := None; req_json := None |}.

Definition member (r : Response) (k : string) : option value :=
  match body r with
  | Json (VObj o) => own o k
  | _ => None
  end.

Definition response_id (r : Response) : option value := member r "id".

Definition response_result (r : Response) : option value := member r "result".

(** The code, message and data of an error envelope (no [result]). *)
Definition error_member (r : Response) (k : string) : option value :=
  match member r "result", member r "error" with
  | None, Some (VObj e) => own e k
  | _, _ => None
  end.

Definition contains (needle hay : string) : Prop :=
  exists before after, hay = before +:+ needle +:+ after.

(** The entity names under which a stored graph files its entities. *)
Definition entity_keys (graph : value) : option (list string) :=
  match graph with
  | VObj o =>
      match own o "entities" with
      | Some (VObj entities) => Some (keys entities)
      | _ => None
      end
  | _ => None
  end.

Definition stored (ns : namespace) (key : string) (w : World) : option value :=
  match kv ns w with
  | Some s => s !! key
  | None => None
  end.

Definition stored_entity_keys (key : string) (w : World) : option (list string) :=
  match stored MEMORY key w with
  | Some graph => entity_keys graph
  | None => None
  end.

(** The steps of a stored thinking session. *)
Definition stored_steps (key : string) (w : World) : option (list value) :=
  match stored THINKING key w with
  | Some (VObj o) =>
      match own o "steps" with
      | Some (VArr l) => Some l
      | _ => None
      end
  | _ => None
  end.

(** Serving a sequence of requests, one after the other. *)
Fixpoint serve_all `{Runtime} (s : server) (calls : list (Request * Env)) (w : World)
  : World :=
  match calls with
  | [] => w
  | (request, env) :: rest => serve_all s rest (snd (fetch_of s request env w))
  end.

(** Where identifiers are bound in the memory and thinking wrappers:
    the parameters of the three functions of a wrapper, and the names
    declared at the top level of its module. *)
Definition parameters_of_fetch : list string := ["request"; "env"].
Definition parameters_of_dispatcher : list string := ["request"; "env"].
Definition parameters_of_tool_handler : list string := ["params"; "env"].
Definition locals_of_memory_tool_handler : list string :=
  ["name"; "args"; "userMemoryKey"; "graph"; "entity"; "error"].
Definition locals_of_thinking_tool_handler : list string :=
  ["name"; "args"; "userId"; "sessionId"; "sessionKey"; "session"; "step"; "error"].
Definition top_level_of_memory : list string :=
  ["handleMemoryRequest"; "handleMemoryToolCall"].
Definition top_level_of_thinking : list string :=
  ["handleThinkingRequest"; "handleThinkingToolCall"].

Definition visible (x : string) (scopes : list (list string)) : bool :=
  existsb (existsb (String.eqb x)) scopes.

(** The shape shared by the [try]/[catch] of the memory, thinking and
    Discord wrappers, over the dispatcher it calls. *)
Definition boundary `{Runtime} (dispatch : value -> Env -> M value)
    (request : Request) (env : Env) : M Response :=
  try_catch
    (body <- request_json request ;;
     marker <- lift (get body "jsonrpc") ;;
     if (negb (truthy marker) || negb (is_str marker "2.0"))%bool then
       id <- lift (get body "id") ;;
       ret (json_response 400
              (rpc_error (-32600) "Invalid Request" VUndef (or_else id VNull)))
     else
       result <- dispatch body env ;;
       id <- lift (get body "id") ;;
       ret (json_response 200 (rpc_result result id)))
    (fun error =>
       ret (json_response 500
              (rpc_error (-32603) "Internal error" (VStr (message error)) VNull))).

(** The answer of the single boundary to an exception. *)
Definition internal_error `{Runtime} (e : exn) : Response :=
  json_response 500 (rpc_error (-32603) "Internal error" (VStr (message e)) VNull).

Definition serve_of `{Runtime} (s : server) : Request -> Env -> M Response :=
  match s with
  | MemoryServer => Memory.serve
  | ThinkingServer => Thinking.serve
  | DiscordServer => Discord.serve
  | FilesystemServer => Filesystem.serve
  end.

(** The answer of the inner boundary of the filesystem wrapper. *)
Definition integration_pending (id : value) : Response :=
  json_response 500
    (rpc_error (-32603) "Server integration in progress"
       (VStr "Original TypeScript server needs adaptation for Workers") id).

(** The name of a descriptor, when it is a string. *)
Definition entity_name (entity : value) : option string :=
  match get entity "name" with
  | Ok (VStr n) => Some n
  | _ => None
  end.

(** The record the loop of [create_entities] files for a descriptor. *)
Definition record_of (entity : value) : value :=
  VObj [("name", field entity "name");
        ("entityType", field entity "entityType");
        ("observations", or_else (field entity "observations") (VArr []))].

(** A graph with the given entity mapping and no relation. *)
Definition graph_with (entities : list (string * value)) : value :=
  VObj [("entities", VObj entities); ("relations", VArr [])].

(** The entity mapping after filing the named descriptors in turn. *)
Definition file_pairs (entities : list (string * value)) (named : list (value * string))
  : list (string * value) :=
  fold_left (fun acc p => define (snd p) (record_of (fst p)) acc) named entities.

Definition file_all (entities : list (string * value)) (items : list value)
    (names : list string) : list (string * value) :=
  file_pairs entities (combine items names).

(** The own properties of the document of an object. *)
Definition document_props (o : list (string * value)) : list (string * value) :=
  match JSON_document (VObj o) with
  | VObj o' => o'
  | _ => []
  end.

(** The world after the [create_entities] branch ran once more. *)
Definition filed `{Runtime} (key : string) (args : value) (w : World) : World :=
  snd (Memory.create_entities key args w).

(** No own property holds [undefined]. *)
Definition defined (o : list (string * value)) : Prop :=
  Forall (fun p => snd p <> VUndef) o.

(** The world after the given calls went through the
    [sequential_thinking] branch for one caller, in order. *)
Fixpoint think_all `{Runtime} (userId : value) (calls : list value) (w : World) : World :=
  match calls with
  | [] => w
  | args :: rest => think_all userId rest (snd (Thinking.sequential_thinking userId args w))
  end.

(** A call that continues the session [sid] with a printable query. *)
Definition continues (sid : string) (args : value) : Prop :=
  get args "session_id" = Ok (VStr sid) /\
  exists q, to_string (field args "query") = Ok q.

(** What a call for the session is about, as the step records it. *)
Definition analysis (args : value) : value :=
  match to_string (field args "query") with
  | Ok q => VStr ("Analyzing: " +:+ q)
  | Throw _ => VUndef
  end.

(** A property with the document of its value. *)
Definition document_pair (p : string * value) : string * value :=
  (fst p, JSON_document (snd p)).

(** *** Sample data *)

(** A runtime with V8-style wording for the errors met in the examples. *)
Definition plain_runtime : Runtime :=
  {| engine_message := fun e =>
       match e with
       | NotDefined x => x +:+ " is not defined"
       | JsonSyntax => "Unexpected token in JSON"
       | _ => "TypeError"
       end;
     toISOString := fun t => pretty t;
     JSON_stringify := fun _ => "{}";
     JSON_stringify_indented := fun _ => "{}" |}.

(** No secret is configured: every request is let through. *)
Definition open_env : Env :=
  {| JWT_SECRET := None; API_KEY := None; SERVICE_KEY := None;
     DISCORD_TOKEN := None; dist_importable := false |}.

Definition discord_env : Env :=
  {| JWT_SECRET := None; API_KEY := None; SERVICE_KEY := None;
     DISCORD_TOKEN := Some "bot-token"; dist_importable := false |}.

(** A world whose Discord endpoint answers every request with [answer]. *)
Definition world (memory thinking : option (gmap string value))
    (answer : Res UpResponse) : World :=
  {| MEMORY_KV := memory; THINKING_KV := thinking; clock := fun n => Z.of_nat n;
     reads := 0; discord := fun _ => answer; sent := [] |}.

Definition offline : Res UpResponse := Throw (EngineError FetchFailed).

Definition forbidden : UpResponse :=
  {| up_status := 403; up_statusText := "Forbidden";
     up_text := "Missing Access"; up_json := None |}.

Definition rpc (method : string) (params id : value) : value :=
  VObj [("jsonrpc", VStr "2.0"); ("method", VStr method); ("params", params); ("id", id)].

Definition tool_call (name : string) (args : value) : value :=
  VObj [("name", VStr name); ("arguments", args)].

Definition entity (name type : string) : value :=
  VObj [("name", VStr name); ("entityType", VStr type)].

End Observe.

(** ** Vocabulary for the behaviour of whole functions *)

Module Cover.
Import JS Platform Observe.

(** Every value the computation returns satisfies [P]. *)
Definition returns {A} (P : A -> Prop) (m : M A) : Prop :=
  forall w a w', m w = (Ok a, w') -> P a.

(** The computation never throws. *)
Definition total {A} (m : M A) : Prop :=
  forall w, exists a w', m w = (Ok a, w').

(** A tool-call result: one text item, flagged as an error or not. *)
Definition tool_result (v : value) : Prop :=
  exists text, v = text_result text \/ v = error_result text.

(** The HTTP status the wrappers send with each JSON-RPC error code. *)
Definition http_status (code : Z) : Z :=
  if Z.eqb code (-32600) then 400
  else if Z.eqb code (-32001) then 401
  else 500.

(** The answers of a wrapper. *)
Definition envelope (r : Response) : Prop :=
  member r "jsonrpc" = Some (VStr "2.0") /\ headers r = corsHeaders.

Definition success (r : Response) : Prop :=
  envelope r /\ status r = 200 /\
  (exists v, response_result r = Some v) /\ member r "error" = None.

Definition failure (code : Z) (r : Response) : Prop :=
  envelope r /\ status r = http_status code /\
  response_result r = None /\
  error_member r "code" = Some (VNum code) /\
  exists text, error_member r "message" = Some (VStr text).

Definition plain (r : Response) : Prop :=
  member r "jsonrpc" = None /\ (status r = 200 \/ status r = 404).

Definition answer (r : Response) : Prop :=
  plain r \/ success r \/
  failure (-32600) r \/ failure (-32001) r \/ failure (-32603) r.

(** An answer of the JSON-RPC layer proper. *)
Definition rpc_answer (r : Response) : Prop :=
  success r \/ failure (-32600) r \/ failure (-32603) r.


(** The world once the clock was read [n] more times. *)
Definition after_reading (n : nat) (w : World) : World :=
  {| MEMORY_KV := MEMORY_KV w; THINKING_KV := THINKING_KV w; clock := clock w;
     reads := (reads w + n)%nat; discord := discord w; sent := sent w |}.



(** The world differs from [w] at most in the number of readings of the
    clock and in what the thinking namespace holds under [key]. *)
Definition only_session (key : string) (w w' : World) : Prop :=
  MEMORY_KV w' = MEMORY_KV w /\ clock w' = clock w /\ discord w' = discord w /\
  sent w' = sent w /\ (reads w <= reads w')%nat /\
  match THINKING_KV w, THINKING_KV w' with
  | None, None => True
  | Some s, Some s' => forall k, k <> key -> s' !! k = s !! k
  | _, _ => False
  end.

(** The world differs from [w] at most in what the memory namespace
    holds under [key]. *)
Definition only_graph (key : string) (w w' : World) : Prop :=
  THINKING_KV w' = THINKING_KV w /\ clock w' = clock w /\ reads w' = reads w /\
  discord w' = discord w /\ sent w' = sent w /\
  match MEMORY_KV w, MEMORY_KV w' with
  | None, None => True
  | Some s, Some s' => forall k, k <> key -> s' !! k = s !! k
  | _, _ => False
  end.



(** The text of a [sequential_thinking] answer (line 225). *)
Definition report (step_id query sid : string) : string :=
  "**Sequential Thinking - Step " +:+ step_id +:+ "**" +:+ nl +:+ nl +:+
  "**Query:** " +:+ query +:+ nl +:+ nl +:+
  "**Analysis:** " +:+ ("Analyzing: " +:+ query) +:+ nl +:+ nl +:+
  "**Conclusion:** " +:+ Thinking.conclusion +:+ nl +:+ nl +:+
  "**Session ID:** " +:+ sid.

(** The entries of a header list under a name, and the entries under
    none of the CORS names. *)
Definition named (name : string) (hs : list (string * string)) : list (string * string) :=
  List.filter (fun p => Everything.same_name (fst p) name) hs.

Definition is_cors (name : string) : bool :=
  existsb (fun p => Everything.same_name name (fst p)) corsHeaders.

Definition other_headers (hs : list (string * string)) : list (string * string) :=
  List.filter (fun p => negb (is_cors (fst p))) hs.

End Cover.

(** * Properties *)

Import JS Platform Observe.

Ltac run :=
  unfold boundary, try_catch, bind, lift, ret, throw, unbound, request_json in *;
  simpl in *.

(** ** The model at work *)

Example to_string_samples :
  to_string (VArr [VNum 1; VNull; VStr "a"; VArr [VBool true; VUndef]]) = Ok "1,,a,true," /\
  to_string (VObj [("a", VNum 1)]) = Ok "[object Object]" /\
  to_string (VObj [("toString", VNum 1)]) = Throw (EngineError NoPrimitive) /\
  to_string (VNum (-32603)) = Ok "-32603".
Proof. repeat split. Qed.

Example array_index_samples :
  array_index "7" = Some 7%N /\ array_index "0" = Some 0%N /\
  array_index "07" = None /\ array_index "4294967294" = Some 4294967294%N /\
  array_index "4294967295" = None /\ array_index "ada" = None /\ array_index "" = None.
Proof. repeat split. Qed.

Example property_order :
  keys (file_all [] (map (fun n => entity n "t") ["b"; "1"; "b"; "0"; "__proto__"; "01"])
          ["b"; "1"; "b"; "0"; "__proto__"; "01"])
  = ["0"; "1"; "b"; "01"].
Proof. reflexivity. Qed.

Example document_drops_undefined :
  JSON_document (VObj [("a", VUndef); ("b", VArr [VUndef; VNum 1]); ("c", VNull)])
  = VObj [("b", VArr [VNull; VNum 1]); ("c", VNull)].
Proof. reflexivity. Qed.

Example bearer_check :
  let env := {| JWT_SECRET := Some "secret"; API_KEY := None; SERVICE_KEY := None;
                DISCORD_TOKEN := None; dist_importable := false |} in
  Memory.unauthorized (post (Some "Bearer mcp_jwt_abc") None VNull) env = false /\
  Memory.unauthorized (post (Some "Bearer abc") None VNull) env = true /\
  Memory.unauthorized (post (Some "Bearer ") None VNull) env = true /\
  Memory.unauthorized (post None None VNull) env = true /\
  Memory.unauthorized (post None None VNull) open_env = false.
Proof. repeat split. Qed.

Example health_and_not_found `{Runtime} (w : World) :
  let get path := {| req_method := "GET"; req_pathname := path; req_authorization := None;
                     req_user_id := None; req_json := None |} in
  fst (Memory.fetch (get "/health") open_env w) =
    Ok (json_response 200
          (VObj [("status", VStr "ok"); ("service", VStr "mcp-memory-server");
                 ("version", VStr "1.0.0")])) /\
  fst (Memory.fetch (get "/nowhere") open_env w) =
    Ok (text_response 404 "Not Found").
Proof. split; reflexivity. Qed.

(** Two calls through the [sequential_thinking] branch, for a caller
    and a session with nothing stored yet. *)
Example two_steps :
  let call q := VObj [("session_id", VStr "s1"); ("query", VStr q)] in
  let w := world None (Some ∅) offline in
  map (fun step => field step "id")
    (default [] (stored_steps "thinking:default:s1"
                   (@think_all plain_runtime (VStr "default") [call "why"; call "how"] w)))
  = [VStr "step_1"; VStr "step_2"].
Proof. reflexivity. Qed.

(** ** Reading properties *)

Lemma is_str_eq (v : value) (lit : string) : is_str v lit = true -> v = VStr lit.
Proof.
  destruct v; simpl; try discriminate.
  intros E. apply String.eqb_eq in E. now subst.
Qed.

Lemma field_get (v : value) (k lit : string) :
  is_str (field v k) lit = true -> get v k = Ok (VStr lit).
Proof.
  unfold field. destruct (get v k) as [x|e] eqn:E; simpl.
  - intros I. apply is_str_eq in I. now subst.
  - discriminate.
Qed.

Lemma get_field (v x : value) (k : string) : get v k = Ok x -> field v k = x.
Proof. unfold field. now intros ->. Qed.

Lemma get_not_nullish (v x : value) (k : string) : get v k = Ok x -> nullish v = false.
Proof. destruct v; simpl; congruence. Qed.

Lemma get_total (v : value) (k : string) :
  nullish v = false -> get v k = Ok (field v k).
Proof. unfold field. destruct v; simpl; congruence. Qed.

Lemma destructure_get (v : value) (k : string) :
  nullish v = false -> destructure v k = get v k.
Proof. destruct v; simpl; congruence. Qed.

(** Enter a dispatcher whose request [body] is known to be readable:
    the destructuring of [body] becomes two property reads. *)
Ltac enter_dispatcher body N :=
  unfold Memory.handleMemoryRequest, Thinking.handleThinkingRequest,
    Discord.handleMCPRequest, Filesystem.handleFilesystemRequest;
  run;
  rewrite (destructure_get body "method"), (get_total body "method"),
    (get_total body "params") by exact N.

Lemma marker_truthy (m : value) :
  (negb (truthy m) || negb (is_str m "2.0"))%bool = negb (is_str m "2.0").
Proof.
  destruct m as [| |[]|n|s|l|o]; simpl; try reflexivity.
  - now destruct (Z.eqb n 0).
  - now destruct s.
Qed.

(** ** The boundary *)

Section Boundary.
Context `{Runtime}.
Variable dispatch : value -> Env -> M value.
Variables (authorization user : option string) (body : value) (env : Env) (w : World).

Lemma boundary_invalid (m : value) :
  get body "jsonrpc" = Ok m -> is_str m "2.0" = false ->
  boundary dispatch (post authorization user body) env w =
    (Ok (json_response 400
           (rpc_error (-32600) "Invalid Request" VUndef (or_else (field body "id") VNull))),
     w).
Proof.
  intros G I. run. rewrite G. rewrite marker_truthy, I. simpl.
  rewrite (get_total body "id") by (eapply get_not_nullish; eauto).
  reflexivity.
Qed.

Lemma boundary_throws (e : exn) (w' : World) :
  get body "jsonrpc" = Ok (VStr "2.0") -> dispatch body env w = (Throw e, w') ->
  boundary dispatch (post authorization user body) env w = (Ok (internal_error e), w').
Proof. intros G D. run. rewrite G. simpl. now rewrite D. Qed.

Lemma boundary_returns (result : value) (w' : World) :
  get body "jsonrpc" = Ok (VStr "2.0") -> dispatch body env w = (Ok result, w') ->
  boundary dispatch (post authorization user body) env w =
    (Ok (json_response 200 (rpc_result result (field body "id"))), w').
Proof.
  intros G D. run. rewrite G. simpl. rewrite D.
  rewrite (get_total body "id") by (eapply get_not_nullish; eauto).
  reflexivity.
Qed.

Lemma boundary_unreadable (e : exn) :
  get body "jsonrpc" = Throw e ->
  boundary dispatch (post authorization user body) env w = (Ok (internal_error e), w).
Proof. intros G. run. now rewrite G. Qed.

Lemma boundary_unparsed :
  boundary dispatch post_garbage env w = (Ok (internal_error (EngineError JsonSyntax)), w).
Proof. reflexivity. Qed.
End Boundary.

(** ** From [fetch] to the dispatchers *)

Section Dispatch.
Context `{Runtime}.

Lemma memory_serve : Memory.serve = boundary Memory.handleMemoryRequest.
Proof. reflexivity. Qed.

Lemma thinking_serve : Thinking.serve = boundary Thinking.handleThinkingRequest.
Proof. reflexivity. Qed.

Lemma discord_serve : Discord.serve = boundary Discord.handleMCPRequest.
Proof. reflexivity. Qed.

Lemma fetch_post (s : server) (authorization user : option string) (body : value)
    (env : Env) :
  unauthorized_of s (post authorization user body) env = false ->
  fetch_of s (post authorization user body) env =
  serve_of s (post authorization user body) env.
Proof.
  intros U. destruct s; simpl in *;
    unfold Memory.fetch, Thinking.fetch, Discord.fetch, Filesystem.fetch;
    simpl; now rewrite U.
Qed.

(** A dispatcher hands [tools/call] to its tool handler. *)
Lemma memory_dispatch_call (body : value) (env : Env) (w : World) :
  get body "method" = Ok (VStr "tools/call") ->
  Memory.handleMemoryRequest body env w =
  Memory.handleMemoryToolCall (field body "params") env w.
Proof.
  intros G. pose proof (get_not_nullish _ _ _ G) as N. apply get_field in G.
  enter_dispatcher body N. now rewrite G.
Qed.

Lemma thinking_dispatch_call (body : value) (env : Env) (w : World) :
  get body "method" = Ok (VStr "tools/call") ->
  Thinking.handleThinkingRequest body env w =
  Thinking.handleThinkingToolCall (field body "params") env w.
Proof.
  intros G. pose proof (get_not_nullish _ _ _ G) as N. apply get_field in G.
  enter_dispatcher body N. now rewrite G.
Qed.

Lemma discord_dispatch_call (body : value) (env : Env) (w : World) :
  get body "method" = Ok (VStr "tools/call") ->
  Discord.handleMCPRequest body env w =
  Discord.handleToolCall (field body "params") env w.
Proof.
  intros G. pose proof (get_not_nullish _ _ _ G) as N. apply get_field in G.
  enter_dispatcher body N. now rewrite G.
Qed.

Lemma filesystem_dispatch_call (body : value) (env : Env) (w : World) :
  get body "method" = Ok (VStr "tools/call") ->
  Filesystem.handleFilesystemRequest body env w =
  Filesystem.handleFilesystemToolCall (field body "params") env w.
Proof.
  intros G. pose proof (get_not_nullish _ _ _ G) as N. apply get_field in G.
  enter_dispatcher body N. now rewrite G.
Qed.

(** The tool handlers of the memory and thinking wrappers stop at the
    unbound [request], whatever the tool. *)
Lemma memory_tool_call_reference (params : value) (env : Env) (w : World) :
  nullish params = false ->
  Memory.handleMemoryToolCall params env w =
    (Throw (EngineError (NotDefined "request")), w).
Proof. destruct params; simpl; intros; try discriminate; reflexivity. Qed.

Lemma thinking_tool_call_reference (params : value) (env : Env) (w : World) :
  nullish params = false ->
  Thinking.handleThinkingToolCall params env w =
    (Throw (EngineError (NotDefined "request")), w).
Proof. destruct params; simpl; intros; try discriminate; reflexivity. Qed.

Lemma memory_tool_call_nullish (params : value) (env : Env) (w : World) :
  nullish params = true ->
  Memory.handleMemoryToolCall params env w =
    (Throw (EngineError (DestructureNullish params "name")), w).
Proof. destruct params; simpl; intros; try discriminate; reflexivity. Qed.

Lemma thinking_tool_call_nullish (params : value) (env : Env) (w : World) :
  nullish params = true ->
  Thinking.handleThinkingToolCall params env w =
    (Throw (EngineError (DestructureNullish params "name")), w).
Proof. destruct params; simpl; intros; try discriminate; reflexivity. Qed.

Lemma memory_tool_call_throws (params : value) (env : Env) (w : World) :
  exists e, Memory.handleMemoryToolCall params env w = (Throw e, w).
Proof.
  destruct (nullish params) eqn:N.
  - eexists. now apply memory_tool_call_nullish.
  - eexists. now apply memory_tool_call_reference.
Qed.

Lemma thinking_tool_call_throws (params : value) (env : Env) (w : World) :
  exists e, Thinking.handleThinkingToolCall params env w = (Throw e, w).
Proof.
  destruct (nullish params) eqn:N.
  - eexists. now apply thinking_tool_call_nullish.
  - eexists. now apply thinking_tool_call_reference.
Qed.

(** The Discord and filesystem handlers throw on a name outside their table. *)
Lemma discord_unknown_tool_throws (params : value) (env : Env) (w : World) :
  known_tool DiscordServer (field params "name") = false ->
  exists e, Discord.handleToolCall params env w = (Throw e, w).
Proof.
  intros K. unfold Discord.handleToolCall. run.
  destruct (nullish params) eqn:N.
  - destruct params; try discriminate; simpl; eauto.
  - rewrite destructure_get, (get_total params "name"), (get_total params "arguments")
      by assumption.
    destruct (String.eqb _ ""); [eauto|].
    unfold known_tool in K. simpl in K.
    destruct (is_str (field params "name") "send_message"); [discriminate|].
    destruct (is_str (field params "name") "get_channel_info"); [discriminate|].
    destruct (is_str (field params "name") "get_guild_info"); [discriminate|].
    destruct (to_string (field params "name")); eauto.
Qed.

Lemma filesystem_unknown_tool_throws (params : value) (env : Env) (w : World) :
  known_tool FilesystemServer (field params "name") = false ->
  exists e, Filesystem.handleFilesystemToolCall params env w = (Throw e, w).
Proof.
  intros K. unfold Filesystem.handleFilesystemToolCall. run.
  destruct (nullish params) eqn:N.
  - destruct params; try discriminate; simpl; eauto.
  - rewrite destructure_get, (get_total params "name"), (get_total params "arguments")
      by assumption.
    unfold known_tool in K. simpl in K.
    destruct (is_str (field params "name") "read_file"); [discriminate|].
    destruct (is_str (field params "name") "write_file"); [discriminate|].
    destruct (to_string (field params "name")); eauto.
Qed.

(** In the filesystem wrapper an exception of the dispatcher, or a
    failed import, is answered by the inner boundary. *)
Lemma filesystem_inner_boundary (authorization user : option string) (body : value)
    (env : Env) (w : World) :
  get body "jsonrpc" = Ok (VStr "2.0") ->
  (exists e, Filesystem.handleFilesystemRequest body env w = (Throw e, w)) ->
  Filesystem.serve (post authorization user body) env w =
    (Ok (integration_pending (or_else (field body "id") VNull)), w).
Proof.
  intros G [e D]. unfold Filesystem.serve, Filesystem.import_dist. run.
  rewrite G. simpl.
  rewrite (get_total body "id") by (eapply get_not_nullish; eauto).
  destruct (dist_importable env); simpl; [now rewrite D|reflexivity].
Qed.
End Dispatch.

(** ** Unknown tools *)

Lemma internal_error_shape `{Runtime} (e : exn) :
  status (internal_error e) = 500 /\
  error_member (internal_error e) "code" = Some (VNum (-32603)) /\
  error_member (internal_error e) "message" = Some (VStr "Internal error") /\
  error_member (internal_error e) "data" = Some (VStr (message e)) /\
  response_result (internal_error e) = None /\
  response_id (internal_error e) = Some VNull.
Proof. repeat split. Qed.

Lemma integration_pending_shape (id : value) :
  status (integration_pending id) = 500 /\
  error_member (integration_pending id) "code" = Some (VNum (-32603)) /\
  response_result (integration_pending id) = None.
Proof. destruct id; repeat split. Qed.

(** C1.  A [tools/call] request that reaches one of the four wrappers
    and names a tool outside that wrapper's static table is answered
    with an error envelope (status 500, code -32603, no [result]
    member), never with a success.  For the memory and thinking wrappers
    this holds for every [tools/call], because their handlers throw at
    the unbound [request] before any tool branch. *)
Theorem unknown_tool_answered_with_error `{Runtime} (s : server)
    (authorization user : option string) (body : value) (env : Env) (w : World) :
  unauthorized_of s (post authorization user body) env = false ->
  is_str (field body "jsonrpc") "2.0" = true ->
  is_str (field body "method") "tools/call" = true ->
  known_tool s (field (field body "params") "name") = false ->
  exists response w',
    fetch_of s (post authorization user body) env w = (Ok response, w') /\
    status response = 500 /\
    error_member response "code" = Some (VNum (-32603)) /\
    response_result response = None.
Proof.
  intros U J C K. rewrite (fetch_post s) by assumption.
  apply field_get in J. apply field_get in C.
  destruct s; simpl serve_of.
  - destruct (memory_tool_call_throws (field body "params") env w) as [e E].
    exists (internal_error e), w. rewrite memory_serve.
    split; [|repeat split].
    apply boundary_throws; [assumption|]. now rewrite memory_dispatch_call.
  - destruct (thinking_tool_call_throws (field body "params") env w) as [e E].
    exists (internal_error e), w. rewrite thinking_serve.
    split; [|repeat split].
    apply boundary_throws; [assumption|]. now rewrite thinking_dispatch_call.
  - destruct (discord_unknown_tool_throws (field body "params") env w K) as [e E].
    exists (internal_error e), w. rewrite discord_serve.
    split; [|repeat split].
    apply boundary_throws; [assumption|]. now rewrite discord_dispatch_call.
  - destruct (filesystem_unknown_tool_throws (field body "params") env w K) as [e E].
    exists (integration_pending (or_else (field body "id") VNull)), w.
    split; [|apply integration_pending_shape].
    apply filesystem_inner_boundary; [assumption|].
    exists e. now rewrite filesystem_dispatch_call.
Qed.

Lemma unknown_tool_answered_with_error_witness :
  let body := rpc "tools/call" (tool_call "delete_everything" VUndef) (VNum 7) in
  let w := world None None offline in
  unauthorized_of DiscordServer (post None None body) discord_env = false /\
  is_str (field body "jsonrpc") "2.0" = true /\
  is_str (field body "method") "tools/call" = true /\
  known_tool DiscordServer (field (field body "params") "name") = false /\
  exists response w',
    @fetch_of plain_runtime DiscordServer (post None None body) discord_env w
      = (Ok response, w') /\
    status response = 500 /\
    error_member response "code" = Some (VNum (-32603)) /\
    response_result response = None.
Proof.
  split; [reflexivity|]. split; [reflexivity|]. split; [reflexivity|].
  split; [reflexivity|].
  apply (@unknown_tool_answered_with_error plain_runtime DiscordServer); reflexivity.
Defined.

(** If the tool branches of the memory wrapper were entered with a name
    other than the two they implement, they would answer with an
    ordinary text result, not flagged as an error. *)
Lemma memory_placeholder_branch `{Runtime} (name args : value) (key shown : string)
    (w : World) :
  is_str name "read_graph" = false -> is_str name "create_entities" = false ->
  to_string name = Ok shown ->
  Memory.tool_branches name args key w =
    (Ok (text_result ("Tool " +:+ shown +:+ " is being implemented")), w).
Proof. intros R C T. unfold Memory.tool_branches. rewrite R, C. run. now rewrite T. Qed.

(** ** The protocol marker *)

(** Every wrapper answers a body with a missing or different marker by
    400 / -32600, and the id it sends is [body.id || null]. *)
Lemma invalid_request_answer `{Runtime} (s : server) (authorization user : option string)
    (body m : value) (env : Env) (w : World) :
  unauthorized_of s (post authorization user body) env = false ->
  get body "jsonrpc" = Ok m -> is_str m "2.0" = false ->
  fetch_of s (post authorization user body) env w =
    (Ok (json_response 400
           (rpc_error (-32600) "Invalid Request" VUndef (or_else (field body "id") VNull))),
     w).
Proof.
  intros U G I. rewrite (fetch_post s) by assumption.
  destruct s; simpl serve_of;
    rewrite ?memory_serve, ?thinking_serve, ?discord_serve;
    try (eapply boundary_invalid; eassumption).
  unfold Filesystem.serve. run. rewrite G, marker_truthy, I. simpl.
  rewrite (get_total body "id") by (eapply get_not_nullish; eauto).
  reflexivity.
Qed.

(** C2.  At the request body [{"jsonrpc": "1.0", "id": 0}], and at the
    same body with the id [""], each wrapper answers 400 with code
    -32600, but the id of the answer is [null], not the id of the
    request: [body.id || null] replaces every falsy id. *)
Theorem invalid_request_drops_falsy_id `{Runtime} (s : server) (w : World) :
  let ask id := post None None (VObj [("jsonrpc", VStr "1.0"); ("id", id)]) in
  (exists response,
     fetch_of s (ask (VNum 0)) open_env w = (Ok response, w) /\
     status response = 400 /\
     error_member response "code" = Some (VNum (-32600)) /\
     response_id response = Some VNull /\
     response_id response <> Some (VNum 0)) /\
  (exists response,
     fetch_of s (ask (VStr "")) open_env w = (Ok response, w) /\
     status response = 400 /\
     error_member response "code" = Some (VNum (-32600)) /\
     response_id response = Some VNull /\
     response_id response <> Some (VStr "")).
Proof.
  split; eexists; (split; [destruct s; reflexivity|]); repeat split; discriminate.
Qed.

(** ** The id of the answer *)

(** C3.  At the request body
    [{"jsonrpc": "2.0", "method": "resources/list", "id": 7}] the body
    parses, the dispatcher throws, and the memory, thinking and Discord
    wrappers answer with id [null] instead of 7; the same wrappers echo
    7 when the method is [initialize], and the inner boundary of the
    filesystem wrapper echoes 7 on its error path. *)
Theorem dispatch_error_drops_id `{Runtime} (w : World) :
  let failing := post None None (rpc "resources/list" VUndef (VNum 7)) in
  let passing := post None None (rpc "initialize" VUndef (VNum 7)) in
  let lost := internal_error (UserError "Unknown method: resources/list") in
  Memory.fetch failing open_env w = (Ok lost, w) /\
  Thinking.fetch failing open_env w = (Ok lost, w) /\
  Discord.fetch failing open_env w = (Ok lost, w) /\
  response_id lost = Some VNull /\
  response_id lost <> Some (VNum 7) /\
  (forall s, exists response,
     fetch_of s passing open_env w = (Ok response, w) /\
     response_id response = Some (VNum 7)) /\
  (exists response,
     Filesystem.fetch failing open_env w = (Ok response, w) /\
     response_id response = Some (VNum 7)).
Proof.
  repeat split; try reflexivity; try discriminate.
  - intros s. destruct s; eexists; split; reflexivity.
  - eexists. split; reflexivity.
Qed.

(** ** The unbound [request] *)

(** [request] is a parameter of [fetch] and of the dispatcher; from the
    tool handler, a separate top-level function, it is not visible. *)
Lemma request_scopes :
  visible "request" [parameters_of_fetch] = true /\
  visible "request" [parameters_of_dispatcher] = true /\
  visible "request"
    [locals_of_memory_tool_handler; parameters_of_tool_handler; top_level_of_memory]
    = false /\
  visible "request"
    [locals_of_thinking_tool_handler; parameters_of_tool_handler; top_level_of_thinking]
    = false.
Proof. repeat split. Qed.

(** C4, as stated, fails at the request body
    [{"jsonrpc": "2.0", "method": "tools/call", "id": 1}]: without a
    [params] member the tool handlers fail at the destructuring of
    [params], one statement before the reference to [request]. *)
Lemma tool_call_without_params_fails_earlier :
  let body := VObj [("jsonrpc", VStr "2.0"); ("method", VStr "tools/call"); ("id", VNum 1)] in
  let w := world (Some ∅) (Some ∅) offline in
  let at_request : Res value := Throw (EngineError (NotDefined "request")) in
  fst (@Memory.handleMemoryRequest plain_runtime body open_env w)
    = Throw (EngineError (DestructureNullish VUndef "name")) /\
  fst (@Memory.handleMemoryRequest plain_runtime body open_env w) <> at_request /\
  fst (@Thinking.handleThinkingRequest plain_runtime body open_env w)
    = Throw (EngineError (DestructureNullish VUndef "name")) /\
  fst (@Thinking.handleThinkingRequest plain_runtime body open_env w) <> at_request.
Proof. repeat split; discriminate. Qed.

(** C4, amended.  For every [tools/call] request that reaches the
    memory or the thinking wrapper, the tool handler throws before any
    tool branch and leaves the world as it was, and the boundary answers
    with the -32603 envelope carrying the message of that exception.
    When [params] is present and not null the exception is the
    ReferenceError for [request]; otherwise it is the TypeError of the
    destructuring of [params]. *)
Theorem tool_call_stops_before_branches `{Runtime}
    (authorization user : option string) (body : value) (env : Env) (w : World) :
  Memory.unauthorized (post authorization user body) env = false ->
  is_str (field body "jsonrpc") "2.0" = true ->
  is_str (field body "method") "tools/call" = true ->
  let params := field body "params" in
  let e := if nullish params then EngineError (DestructureNullish params "name")
           else EngineError (NotDefined "request") in
  Memory.handleMemoryToolCall params env w = (Throw e, w) /\
  Thinking.handleThinkingToolCall params env w = (Throw e, w) /\
  Memory.fetch (post authorization user body) env w = (Ok (internal_error e), w) /\
  Thinking.fetch (post authorization user body) env w = (Ok (internal_error e), w).
Proof.
  intros U J C params e. apply field_get in J. apply field_get in C.
  assert (Em : Memory.handleMemoryToolCall params env w = (Throw e, w)).
  { subst e. destruct (nullish params) eqn:N.
    - now apply memory_tool_call_nullish.
    - now apply memory_tool_call_reference. }
  assert (Et : Thinking.handleThinkingToolCall params env w = (Throw e, w)).
  { subst e. destruct (nullish params) eqn:N.
    - now apply thinking_tool_call_nullish.
    - now apply thinking_tool_call_reference. }
  repeat split; try assumption.
  - pose proof (fetch_post MemoryServer authorization user body env U) as F.
    simpl in F. rewrite F, memory_serve. apply boundary_throws; [assumption|].
    now rewrite memory_dispatch_call.
  - pose proof (fetch_post ThinkingServer authorization user body env U) as F.
    simpl in F. rewrite F, thinking_serve. apply boundary_throws; [assumption|].
    now rewrite thinking_dispatch_call.
Qed.

Lemma tool_call_stops_before_branches_witness :
  let body :=
    rpc "tools/call"
      (tool_call "create_entities" (VObj [("entities", VArr [entity "ada" "person"])]))
      (VNum 1) in
  let w := world (Some ∅) (Some ∅) offline in
  let e := EngineError (NotDefined "request") in
  Memory.unauthorized (post None None body) open_env = false /\
  is_str (field body "jsonrpc") "2.0" = true /\
  is_str (field body "method") "tools/call" = true /\
  @Memory.handleMemoryToolCall plain_runtime (field body "params") open_env w = (Throw e, w) /\
  @Thinking.handleThinkingToolCall plain_runtime (field body "params") open_env w
    = (Throw e, w) /\
  @Memory.fetch plain_runtime (post None None body) open_env w
    = (Ok (@internal_error plain_runtime e), w) /\
  @Thinking.fetch plain_runtime (post None None body) open_env w
    = (Ok (@internal_error plain_runtime e), w).
Proof.
  split; [reflexivity|]. split; [reflexivity|]. split; [reflexivity|].
  apply (@tool_call_stops_before_branches plain_runtime None None); reflexivity.
Defined.

(** ** Listing the tools *)

(** The names of the listed descriptors are the tool table. *)
Lemma tool_table_names (s : server) :
  descriptor_names (tools_list_of s) = map VStr (tool_names_of s).
Proof. destruct s; reflexivity. Qed.

Lemma dispatch_tools_list `{Runtime} (s : server) (body : value) (env : Env) (w : World) :
  is_str (field body "method") "tools/list" = true ->
  dispatcher_of s body env w = (Ok (tools_list_of s), w).
Proof.
  intros L. apply field_get in L.
  assert (N : nullish body = false) by (eapply get_not_nullish; eauto).
  destruct s; simpl;
    unfold Memory.handleMemoryRequest, Thinking.handleThinkingRequest,
      Discord.handleMCPRequest, Filesystem.handleFilesystemRequest;
    run; rewrite destructure_get, L, (get_total body "params") by assumption;
    reflexivity.
Qed.

(** C8.  For each of the four wrappers, the dispatcher answers
    [tools/list] with the static listing of that wrapper and leaves the
    world untouched, whatever the rest of the request, the environment
    and the world are; so any two invocations return the same descriptor
    sequence, also when other requests are served in between. *)
Theorem tools_list_is_pure `{Runtime} (s : server) (body1 body2 : value)
    (env1 env2 : Env) (w1 w2 : World) :
  is_str (field body1 "method") "tools/list" = true ->
  is_str (field body2 "method") "tools/list" = true ->
  dispatcher_of s body1 env1 w1 = (Ok (tools_list_of s), w1) /\
  dispatcher_of s body2 env2 w2 = (Ok (tools_list_of s), w2) /\
  fst (dispatcher_of s body1 env1 w1) = fst (dispatcher_of s body2 env2 w2) /\
  forall calls : list (Request * Env),
    fst (dispatcher_of s body2 env2
           (serve_all s calls (snd (dispatcher_of s body1 env1 w1))))
    = fst (dispatcher_of s body1 env1 w1).
Proof.
  intros L1 L2. repeat split.
  - now apply dispatch_tools_list.
  - now apply dispatch_tools_list.
  - now rewrite !dispatch_tools_list.
  - intros calls. now rewrite !dispatch_tools_list.
Qed.

Lemma tools_list_is_pure_witness :
  let first := rpc "tools/list" VUndef (VNum 1) in
  let second := rpc "tools/list" (VObj [("cursor", VNull)]) (VStr "b") in
  let w1 := world (Some ∅) (Some ∅) offline in
  let w2 := world None None (Ok forbidden) in
  is_str (field first "method") "tools/list" = true /\
  is_str (field second "method") "tools/list" = true /\
  @dispatcher_of plain_runtime DiscordServer first open_env w1
    = (Ok (tools_list_of DiscordServer), w1) /\
  @dispatcher_of plain_runtime DiscordServer second discord_env w2
    = (Ok (tools_list_of DiscordServer), w2) /\
  fst (@dispatcher_of plain_runtime DiscordServer first open_env w1)
    = fst (@dispatcher_of plain_runtime DiscordServer second discord_env w2) /\
  forall calls : list (Request * Env),
    fst (@dispatcher_of plain_runtime DiscordServer second discord_env
           (@serve_all plain_runtime DiscordServer calls
              (snd (@dispatcher_of plain_runtime DiscordServer first open_env w1))))
    = fst (@dispatcher_of plain_runtime DiscordServer first open_env w1).
Proof.
  split; [reflexivity|]. split; [reflexivity|].
  apply (@tools_list_is_pure plain_runtime DiscordServer); reflexivity.
Defined.

(** ** Unknown methods *)








(** ** Discord: a failing upstream call *)

Lemma no_request_sent {A} (l : list A) (x : A) : l = l ++ [x] -> False.
Proof.
  intros E. apply (f_equal (@length A)) in E.
  rewrite length_app in E. simpl in E. lia.
Qed.

Lemma status_in_text (code : Z) (statusText errorText : string) :
  contains (pretty code)
    ("Error sending message: " +:+
     ("Discord API error: " +:+ pretty code +:+ " " +:+ statusText +:+ " - " +:+ errorText)).
Proof.
  exists "Error sending message: Discord API error: ",
         (" " +:+ statusText +:+ " - " +:+ errorText).
  reflexivity.
Qed.

Local Opaque Discord.pick.

(** [sendMessage] sends at most one request; when that request is
    answered outside 200-299, the failure is caught inside the tool. *)
Lemma sendMessage_upstream_failure `{Runtime} (args : value) (token : string)
    (w : World) (req : UpRequest) (r : UpResponse) :
  sent (snd (Discord.sendMessage args token w)) = sent w ++ [req] ->
  discord w req = Ok r ->
  up_ok r = false ->
  fst (Discord.sendMessage args token w) =
    Ok (error_result
          ("Error sending message: " +:+
           ("Discord API error: " +:+ pretty (up_status r) +:+ " " +:+
            up_statusText r +:+ " - " +:+ up_text r))).
Proof.
  unfold Discord.sendMessage, Discord.makeDiscordRequest, upstream_fetch. run.
  destruct (destructure args "channel_id") as [channel_id|e] eqn:D; simpl.
  2:{ intros S. now apply no_request_sent in S. }
  destruct (get args "message") as [msg|e] eqn:G; simpl.
  2:{ intros S. now apply no_request_sent in S. }
  destruct (to_string channel_id) as [channel|e] eqn:T; simpl.
  2:{ intros S. now apply no_request_sent in S. }
  match goal with
  | |- context [discord w ?q] => set (request := q)
  end.
  destruct (discord w request) as [response|e] eqn:U; simpl.
  2:{ intros S. apply app_inv_head in S. injection S as <-. congruence. }
  destruct (up_ok response) eqn:O; simpl.
  - destruct (up_json response); simpl.
    + match goal with
      | |- context [Discord.pick ?d ?f] => destruct (Discord.pick d f)
      end; simpl;
        intros S; apply app_inv_head in S; injection S as <-; congruence.
    + intros S. apply app_inv_head in S. injection S as <-. congruence.
  - intros S R _. apply app_inv_head in S. injection S as <-.
    rewrite U in R. injection R as ->. reflexivity.
Qed.

Local Transparent Discord.pick.

(** Dispatch of a [send_message] call inside [handleToolCall]. *)
Lemma tool_call_send_message `{Runtime} (params : value) (env : Env) (w : World) :
  is_str (field params "name") "send_message" = true ->
  let token := if configured (DISCORD_TOKEN env)
               then default "" (DISCORD_TOKEN env) else "" in
  Discord.handleToolCall params env w =
    if String.eqb token "" then (Throw (UserError "DISCORD_TOKEN is required"), w)
    else Discord.sendMessage (field params "arguments") token w.
Proof.
  intros Name token. apply field_get in Name.
  assert (N : nullish params = false) by (eapply get_not_nullish; eauto).
  unfold Discord.handleToolCall. run.
  rewrite destructure_get, Name, (get_total params "arguments") by assumption.
  fold token. destruct (String.eqb token ""); reflexivity.
Qed.



(** ** Tool calls that never reach their branch *)

(** C5.  A stored session of the default caller with no step, and two
    [tools/call] requests for [sequential_thinking] with its session
    id: each request is answered with the -32603 envelope of the
    ReferenceError, the world is unchanged, and the stored session still
    has no step, where two were to be appended. *)
Theorem sequential_thinking_call_appends_nothing `{Runtime} :
  let key := "thinking:default:s1" in
  let session :=
    VObj [("id", VStr "s1"); ("created", VStr "2024-01-01T00:00:00.000Z");
          ("steps", VArr [])] in
  let w := world None (Some {[ key := session ]}) offline in
  let call :=
    post None None
      (rpc "tools/call"
         (tool_call "sequential_thinking"
            (VObj [("session_id", VStr "s1"); ("query", VStr "why")]))
         (VNum 1)) in
  Thinking.fetch call open_env w
    = (Ok (internal_error (EngineError (NotDefined "request"))), w) /\
  stored_steps key w = Some [] /\
  serve_all ThinkingServer [(call, open_env); (call, open_env)] w = w /\
  stored_steps key (serve_all ThinkingServer [(call, open_env); (call, open_env)] w)
    = Some [].
Proof. repeat split. Qed.

(** C10.  A [tools/call] request for [create_entities] with two
    descriptors of the same name, against an empty namespace: the
    request is answered with the -32603 envelope of the ReferenceError
    and the namespace is still empty, where one entry for the name was
    to be stored. *)
Theorem create_entities_call_stores_nothing `{Runtime} :
  let args := VObj [("entities", VArr [entity "ada" "person"; entity "ada" "pioneer"])] in
  let w := world (Some ∅) None offline in
  let call := post None None (rpc "tools/call" (tool_call "create_entities" args) (VNum 1)) in
  Memory.fetch call open_env w
    = (Ok (internal_error (EngineError (NotDefined "request"))), w) /\
  MEMORY_KV (serve_all MemoryServer [(call, open_env)] w) = Some ∅ /\
  MEMORY_KV (serve_all MemoryServer [(call, open_env); (call, open_env)] w) = Some ∅ /\
  stored_entity_keys "memory:default" (serve_all MemoryServer [(call, open_env)] w) = None.
Proof. repeat split. Qed.

(** ** Creating entities *)

(** C6, as stated, fails at two descriptors with the same name against
    an empty graph: the [create_entities] branch files both under one
    key, and through [tools/call] nothing is stored at all. *)
Lemma duplicate_names_share_one_key :
  let key := "memory:default" in
  let args := VObj [("entities", VArr [entity "ada" "person"; entity "ada" "pioneer"])] in
  let w := world (Some ∅) None offline in
  let after_branch := snd (@Memory.create_entities plain_runtime key args w) in
  let after_call :=
    snd (@Memory.handleMemoryToolCall plain_runtime (tool_call "create_entities" args)
           open_env w) in
  stored_entity_keys key after_branch = Some ["ada"] /\
  stored_entity_keys key after_call = None /\
  ~ (exists ks, stored_entity_keys key after_branch = Some ks /\ length ks = 2%nat) /\
  ~ (exists ks, stored_entity_keys key after_call = Some ks /\ length ks = 2%nat).
Proof.
  repeat split.
  - intros [ks [E L]]. vm_compute in E. injection E as <-. discriminate.
  - intros [ks [E L]]. vm_compute in E. discriminate.
Qed.

(** *** Own keys under assignment *)

Lemma has_own_keys (o : list (string * value)) (k : string) :
  has_own o k = true <-> k ∈ keys o.
Proof.
  rewrite list_elem_of_In.
  unfold has_own. induction o as [|[k' v] o IH]; simpl.
  - split; [discriminate|tauto].
  - destruct (String.eqb k' k) eqn:E.
    + apply String.eqb_eq in E. subst. tauto.
    + apply String.eqb_neq in E. rewrite IH. tauto.
Qed.

Lemma not_own_if_fresh (o : list (string * value)) (n : string) (names : list string) :
  NoDup (keys o ++ n :: names) -> has_own o n = false.
Proof.
  intros D. destruct (has_own o n) eqn:O; [|reflexivity].
  apply has_own_keys in O. apply NoDup_app in D as (_ & D & _).
  exfalso. apply (D n O). now left.
Qed.

Lemma keys_replace (k : string) (v : value) (o : list (string * value)) :
  keys (replace k v o) = keys o.
Proof.
  induction o as [|[k' v'] o IH]; simpl; [reflexivity|].
  destruct (String.eqb k' k); simpl; [reflexivity|]. now rewrite IH.
Qed.

Lemma keys_insert_index (i : N) (k : string) (v : value) (o : list (string * value)) :
  Permutation (keys (insert_index i k v o)) (k :: keys o).
Proof.
  induction o as [|[k' v'] o IH]; simpl; [reflexivity|].
  destruct (array_index k') as [j|]; [|reflexivity].
  destruct (N.ltb j i); [|reflexivity].
  simpl. rewrite IH. apply perm_swap.
Qed.

Lemma keys_define_old (k : string) (v : value) (o : list (string * value)) :
  has_own o k = true -> keys (define k v o) = keys o.
Proof. intros O. unfold define. rewrite O. apply keys_replace. Qed.

Lemma keys_define_new (k : string) (v : value) (o : list (string * value)) :
  has_own o k = false -> k <> "__proto__" ->
  Permutation (keys (define k v o)) (keys o ++ [k]).
Proof.
  intros O P. unfold define. rewrite O.
  apply String.eqb_neq in P. rewrite P.
  destruct (array_index k).
  - rewrite keys_insert_index. apply Permutation_cons_append.
  - unfold keys. now rewrite map_app.
Qed.

Lemma keys_define_appended (k : string) (v : value) (o : list (string * value)) :
  has_own o k = false -> k <> "__proto__" -> array_index k = None ->
  keys (define k v o) = keys o ++ [k].
Proof.
  intros O P A. unfold define. rewrite O, A.
  apply String.eqb_neq in P. rewrite P. unfold keys. now rewrite map_app.
Qed.

Lemma keys_define_proto (v : value) (o : list (string * value)) :
  has_own o "__proto__" = false -> define "__proto__" v o = o.
Proof. intros O. unfold define. now rewrite O. Qed.

(** Filing distinct, new names adds exactly those names. *)
Lemma keys_file_all (items : list value) (names : list string) :
  length items = length names ->
  forall entities : list (string * value),
  NoDup (keys entities ++ names) -> ("__proto__" ∉ names) ->
  Permutation (keys (file_all entities items names)) (keys entities ++ names).
Proof.
  unfold file_all, file_pairs. revert items.
  induction names as [|n names IH]; intros [|e items] L entities D P;
    simpl in *; try discriminate.
  - now rewrite app_nil_r.
  - pose proof (not_own_if_fresh _ _ _ D) as O.
    assert (Q : Permutation (keys (define n (record_of e) entities)) (keys entities ++ [n])).
    { apply keys_define_new; [assumption|]. intros ->. apply P. now left. }
    rewrite IH.
    + rewrite Q, <- app_assoc. reflexivity.
    + now injection L.
    + rewrite Q, <- app_assoc. exact D.
    + intros I. apply P. now right.
Qed.

(** With no array-index name, the keys come in the order of the input. *)
Lemma keys_file_all_in_order (items : list value) (names : list string) :
  length items = length names ->
  forall entities : list (string * value),
  NoDup (keys entities ++ names) -> ("__proto__" ∉ names) ->
  Forall (fun n => array_index n = None) names ->
  keys (file_all entities items names) = keys entities ++ names.
Proof.
  unfold file_all, file_pairs. revert items.
  induction names as [|n names IH]; intros [|e items] L entities D P A;
    simpl in *; try discriminate.
  - now rewrite app_nil_r.
  - pose proof (not_own_if_fresh _ _ _ D) as O.
    assert (Q : keys (define n (record_of e) entities) = keys entities ++ [n]).
    { apply keys_define_appended; [assumption| |].
      - intros ->. apply P. now left.
      - now inversion A. }
    rewrite IH.
    + rewrite Q, <- app_assoc. reflexivity.
    + now injection L.
    + rewrite Q, <- app_assoc. exact D.
    + intros I. apply P. now right.
    + now inversion A.
Qed.

(** *** The loop of [create_entities] *)

Lemma store_entity_named (entities : list (string * value)) (e : value) (n : string) :
  entity_name e = Some n ->
  Memory.store_entity (graph_with entities) e =
    Ok (graph_with (define n (record_of e) entities)).
Proof.
  unfold entity_name, Memory.store_entity. intros E.
  destruct (get e "name") as [[| | | |m| |]|] eqn:G; try discriminate.
  injection E as ->.
  assert (N : nullish e = false) by (eapply get_not_nullish; eauto).
  rewrite (get_total e "entityType"), (get_total e "observations") by assumption.
  unfold record_of. rewrite (get_field _ _ _ G). reflexivity.
Qed.

Lemma store_entities_named (items : list value) (names : list string) :
  map entity_name items = map Some names ->
  forall entities : list (string * value),
  Memory.store_entities (graph_with entities) items =
    Ok (graph_with (file_all entities items names)).
Proof.
  revert names. induction items as [|e items IH]; intros [|n names] E entities;
    simpl in E; try discriminate.
  - reflexivity.
  - injection E as En E. simpl.
    rewrite (store_entity_named _ _ _ En). simpl.
    now rewrite (IH names E).
Qed.

Lemma define_defined (k : string) (v : value) (o : list (string * value)) :
  v <> VUndef -> defined o -> defined (define k v o).
Proof.
  intros V D. unfold define.
  destruct (has_own o k).
  - induction D as [|[k' v'] o Hp D IH]; simpl; [constructor|].
    destruct (String.eqb k' k); constructor; auto.
  - destruct (String.eqb k "__proto__"); [assumption|].
    destruct (array_index k) as [i|].
    + induction D as [|[k' v'] o Hp D IH]; simpl.
      * constructor; [exact V|constructor].
      * destruct (array_index k') as [j|].
        -- destruct (N.ltb j i); constructor; auto; constructor; auto.
        -- constructor; [exact V|]. constructor; auto.
    + apply Forall_app. split; [assumption|]. constructor; [exact V|constructor].
Qed.

Lemma file_all_defined (items : list value) (names : list string)
    (entities : list (string * value)) :
  defined entities -> defined (file_all entities items names).
Proof.
  unfold file_all, file_pairs. revert names entities.
  induction items as [|e items IH]; intros [|n names] entities D; simpl; auto.
  apply IH. apply define_defined; [discriminate|assumption].
Qed.

(** Writing a graph keeps the keys of an entity mapping without holes. *)
Lemma entity_keys_document (entities : list (string * value)) :
  defined entities ->
  entity_keys (JSON_document (graph_with entities)) = Some (keys entities).
Proof.
  intros D. simpl. f_equal.
  induction D as [|[k v] o Hp D IH]; simpl; [reflexivity|].
  simpl in Hp. rewrite <- IH.
  destruct v; simpl; try reflexivity. contradiction.
Qed.

(** C6, amended.  The [create_entities] branch, run for a storage key
    whose graph is empty or absent on N descriptors whose names are
    pairwise distinct strings other than "__proto__", stores a graph
    whose entity mapping has exactly N keys, the names of the
    descriptors (in the order of the input when no name is an array
    index), and reports "Created N entities". *)
Theorem create_entities_files_distinct_names `{Runtime} (key : string) (args : value)
    (items : list value) (names : list string) (w : World) (s : gmap string value) :
  MEMORY_KV w = Some s ->
  s !! key = None \/ s !! key = Some Memory.empty_graph ->
  get args "entities" = Ok (VArr items) ->
  map entity_name items = map Some names ->
  NoDup names ->
  ("__proto__" ∉ names) ->
  exists ks,
    stored_entity_keys key (snd (Memory.create_entities key args w)) = Some ks /\
    Permutation ks names /\
    length ks = length items /\
    (Forall (fun n => array_index n = None) names -> ks = names) /\
    fst (Memory.create_entities key args w) =
      Ok (text_result ("Created " +:+ pretty (Z.of_nat (length items)) +:+ " entities")).
Proof.
  intros K S G E D P.
  assert (L : length items = length names).
  { apply (f_equal (@length _)) in E. now rewrite !length_map in E. }
  assert (Start : or_else (default VNull (s !! key)) Memory.empty_graph = graph_with []).
  { destruct S as [-> | ->]; reflexivity. }
  exists (keys (file_all [] items names)).
  unfold Memory.create_entities, KV_get, KV_put, stored_entity_keys, stored. run.
  rewrite K, Start, G. simpl.
  rewrite (store_entities_named items names E). simpl. rewrite K. simpl.
  rewrite lookup_insert_eq.
  repeat split.
  - apply entity_keys_document. apply file_all_defined. constructor.
  - now apply (keys_file_all items names L []).
  - rewrite (keys_file_all items names L []) by assumption. simpl. now rewrite L.
  - intros A. now apply (keys_file_all_in_order items names L []).
Qed.

Lemma create_entities_files_distinct_names_witness :
  let items := [entity "ada" "person"; entity "7" "number"; entity "babbage" "person"] in
  let names := ["ada"; "7"; "babbage"] in
  let args := VObj [("entities", VArr items)] in
  let w := world (Some ∅) None offline in
  MEMORY_KV w = Some ∅ /\
  ((∅ : gmap string value) !! "memory:default" = None \/
   (∅ : gmap string value) !! "memory:default" = Some Memory.empty_graph) /\
  get args "entities" = Ok (VArr items) /\
  map entity_name items = map Some names /\
  NoDup names /\
  ("__proto__" ∉ names) /\
  exists ks,
    stored_entity_keys "memory:default"
      (snd (@Memory.create_entities plain_runtime "memory:default" args w)) = Some ks /\
    Permutation ks names /\
    length ks = length items /\
    (Forall (fun n => array_index n = None) names -> ks = names) /\
    fst (@Memory.create_entities plain_runtime "memory:default" args w) =
      Ok (text_result ("Created " +:+ pretty (Z.of_nat (length items)) +:+ " entities")).
Proof.
  assert (D : NoDup ["ada"; "7"; "babbage"]) by compute_done.
  assert (P : "__proto__" ∉ ["ada"; "7"; "babbage"]) by compute_done.
  split; [reflexivity|]. split; [left; reflexivity|]. split; [reflexivity|].
  split; [reflexivity|]. split; [exact D|]. split; [exact P|].
  apply (@create_entities_files_distinct_names plain_runtime "memory:default" _ _ _ _ ∅);
    try reflexivity; try assumption.
  left; reflexivity.
Defined.

(** ** JSON documents *)

Lemma value_nested_ind (P : value -> Prop) :
  P VUndef -> P VNull -> (forall b, P (VBool b)) -> (forall n, P (VNum n)) ->
  (forall s, P (VStr s)) ->
  (forall l, Forall P l -> P (VArr l)) ->
  (forall o, Forall (fun p => P (snd p)) o -> P (VObj o)) ->
  forall v, P v.
Proof.
  intros HU HN HB HZ HS HA HO. fix IH 1.
  intros [| |b|n|s|l|o];
    [exact HU|exact HN|apply HB|apply HZ|apply HS| |].
  - apply HA. induction l as [|x l IHl]; constructor; [apply IH|exact IHl].
  - apply HO. induction o as [|[k x] o IHo]; constructor; [apply IH|exact IHo].
Qed.

Lemma JSON_document_defined (v : value) : v <> VUndef -> JSON_document v <> VUndef.
Proof. destruct v; simpl; congruence. Qed.

(** Writing a document and reading it back gives the same document. *)
Lemma JSON_document_idempotent (v : value) :
  JSON_document (JSON_document v) = JSON_document v.
Proof.
  induction v as [| |b|n|s|l IH|o IH] using value_nested_ind; try reflexivity.
  - simpl. f_equal. rewrite map_map.
    induction IH as [|x l Hx IH IHl]; simpl; [reflexivity|].
    f_equal; [|exact IHl].
    destruct x; simpl in *; try reflexivity; exact Hx.
  - simpl. f_equal.
    induction IH as [|[k x] o Hx IH IHo]; simpl; [reflexivity|].
    simpl in Hx.
    destruct x; simpl in *; rewrite ?IHo; try reflexivity.
    + now rewrite Hx.
    + now rewrite Hx.
Qed.

Lemma own_replace (k : string) (v x : value) (o : list (string * value)) :
  own o k = Some x -> own (replace k v o) k = Some v.
Proof.
  induction o as [|[k' v'] o IH]; simpl; [discriminate|].
  destruct (String.eqb k' k) eqn:E; simpl; rewrite E; auto.
Qed.

Lemma own_replace_other (k k' : string) (v : value) (o : list (string * value)) :
  k <> k' -> own (replace k' v o) k = own o k.
Proof.
  intros N. induction o as [|[k0 v0] o IH]; simpl; [reflexivity|].
  destruct (String.eqb k0 k') eqn:E; simpl.
  - apply String.eqb_eq in E. subst.
    assert (F : String.eqb k' k = false) by (apply String.eqb_neq; congruence).
    now rewrite F.
  - destruct (String.eqb k0 k); auto.
Qed.

Lemma own_insert_index_other (i : N) (k k' : string) (v : value)
    (o : list (string * value)) :
  k <> k' -> own (insert_index i k' v o) k = own o k.
Proof.
  intros N.
  assert (F : String.eqb k' k = false) by (apply String.eqb_neq; congruence).
  induction o as [|[k0 v0] o IH]; simpl; [now rewrite F|].
  destruct (array_index k0) as [j|]; [destruct (N.ltb j i)|]; simpl; rewrite ?F;
    try reflexivity.
  destruct (String.eqb k0 k); auto.
Qed.

Lemma own_app_other (k k' : string) (v : value) (o : list (string * value)) :
  k <> k' -> own (o ++ [(k', v)]) k = own o k.
Proof.
  intros N.
  assert (F : String.eqb k' k = false) by (apply String.eqb_neq; congruence).
  induction o as [|[k0 v0] o IH]; simpl; [now rewrite F|].
  destruct (String.eqb k0 k); auto.
Qed.

Lemma own_define_other (k k' : string) (v : value) (o : list (string * value)) :
  k <> k' -> own (define k' v o) k = own o k.
Proof.
  intros N. unfold define.
  destruct (has_own o k'); [now apply own_replace_other|].
  destruct (String.eqb k' "__proto__"); [reflexivity|].
  destruct (array_index k'); [now apply own_insert_index_other|now apply own_app_other].
Qed.

(** A property that is not [undefined] is written with its document. *)
Lemma get_document (o : list (string * value)) (k : string) (v : value) :
  own o k = Some v -> v <> VUndef ->
  get (JSON_document (VObj o)) k = Ok (JSON_document v).
Proof.
  intros O V. simpl. f_equal.
  induction o as [|[k' v'] o IH]; simpl in *; [discriminate|].
  destruct (String.eqb k' k) eqn:E.
  - injection O as ->. destruct v; simpl; rewrite ?E; try reflexivity. contradiction.
  - destruct v'; simpl; rewrite ?E; auto.
Qed.

Lemma document_elements (l : list value) :
  JSON_document (VArr l) = VArr l ->
  forall x, JSON_document (VArr (l ++ [x])) =
            VArr (l ++ [match x with VUndef => VNull | _ => JSON_document x end]).
Proof. simpl. intros E x. injection E as E. now rewrite map_app, E. Qed.

Lemma document_object (o : list (string * value)) :
  exists o', JSON_document (VObj o) = VObj o'.
Proof. simpl. eauto. Qed.

(** ** The [sequential_thinking] branch *)

(** One call for a stored session whose steps are an array appends one
    step, numbered with the new length. *)
Lemma sequential_thinking_step `{Runtime} (userId args : value) (user sid : string)
    (w : World) (s : gmap string value) (session : list (string * value))
    (steps : list value) :
  let key := "thinking:" +:+ user +:+ ":" +:+ sid in
  let w' := snd (Thinking.sequential_thinking userId args w) in
  THINKING_KV w = Some s ->
  to_string userId = Ok user ->
  sid <> "" ->
  continues sid args ->
  s !! key = Some (VObj session) ->
  own session "steps" = Some (VArr steps) ->
  JSON_document (VArr steps) = VArr steps ->
  exists s' session' step,
    THINKING_KV w' = Some s' /\
    s' !! key = Some (VObj session') /\
    own session' "steps" = Some (VArr (steps ++ [step])) /\
    JSON_document (VArr (steps ++ [step])) = VArr (steps ++ [step]) /\
    field step "id" = VStr ("step_" +:+ pretty (Z.of_nat (length steps) + 1)) /\
    field step "thinking" = analysis args.
Proof.
  intros key w' K U S [G [q Q]] L O D.
  assert (N : nullish args = false) by (eapply get_not_nullish; eauto).
  assert (T : truthy (VStr sid) = true).
  { simpl. destruct sid; [contradiction|reflexivity]. }
  subst w'. unfold Thinking.sequential_thinking, KV_get_optional, KV_put_optional, now.
  with_strategy opaque [JSON_document] run.
  rewrite G. with_strategy opaque [JSON_document] simpl.
  rewrite T. with_strategy opaque [JSON_document] simpl.
  rewrite U. with_strategy opaque [JSON_document] simpl.
  fold key. rewrite K, L. with_strategy opaque [JSON_document] simpl.
  rewrite O. with_strategy opaque [JSON_document] simpl.
  rewrite (get_total args "query") by assumption.
  with_strategy opaque [JSON_document] simpl.
  rewrite Q. with_strategy opaque [JSON_document] simpl.
  rewrite K. with_strategy opaque [JSON_document] simpl.
  match goal with
  | |- context [<[key := JSON_document (VObj ?o)]> s] => set (session1 := o)
  end.
  match goal with
  | _ := context [VArr (steps ++ [?x])] |- _ => set (step := x) in *
  end.
  assert (O1 : own session1 "steps" = Some (VArr (steps ++ [step]))).
  { subst session1. rewrite own_define_other by discriminate.
    eapply own_replace; eassumption. }
  pose proof (get_document session1 "steps" _ O1 ltac:(discriminate)) as G1.
  rewrite (document_elements steps D) in G1.
  destruct (document_object session1) as [session' J]. rewrite J in *.
  exists (<[key := VObj session']> s), session', (JSON_document step).
  split; [reflexivity|]. split; [apply lookup_insert_eq|].
  simpl in G1. injection G1 as G1.
  destruct (own session' "steps") as [x|] eqn:X; simpl in G1; [|discriminate].
  subst x. split; [reflexivity|]. split.
  - change (VArr (steps ++ [JSON_document step]))
      with (VArr (steps ++ [match step with VUndef => VNull | _ => JSON_document step end])).
    rewrite <- (document_elements steps D). apply JSON_document_idempotent.
  - split; [reflexivity|].
    unfold analysis. rewrite Q. subst step. clear.
    destruct (field args "query"); reflexivity.
Qed.

(** Calls for one session, taken by the branch one after the other for
    one caller, append one step each, in the order of the calls, each
    numbered with the length of the session once it is appended. *)
Lemma sequential_thinking_appends_in_order `{Runtime} (userId : value)
    (user sid : string) (calls : list value) :
  let key := "thinking:" +:+ user +:+ ":" +:+ sid in
  to_string userId = Ok user ->
  sid <> "" ->
  Forall (continues sid) calls ->
  forall (w : World) (s : gmap string value) (session : list (string * value))
         (steps : list value),
  THINKING_KV w = Some s ->
  s !! key = Some (VObj session) ->
  own session "steps" = Some (VArr steps) ->
  JSON_document (VArr steps) = VArr steps ->
  exists added,
    stored_steps key (think_all userId calls w) = Some (steps ++ added) /\
    length added = length calls /\
    forall (i : nat) (args : value),
      calls !! i = Some args ->
      exists step,
        added !! i = Some step /\
        field step "id" = VStr ("step_" +:+ pretty (Z.of_nat (length steps + i) + 1)) /\
        field step "thinking" = analysis args.
Proof.
  intros key U S C. induction C as [|args calls Ca C IH]; intros w s session steps K L O D.
  - exists []. simpl. unfold stored_steps, stored. simpl. rewrite K, L, O, app_nil_r.
    repeat split. intros i args E. discriminate.
  - destruct (sequential_thinking_step userId args user sid w s session steps
                K U S Ca L O D) as (s' & session' & step & K' & L' & O' & D' & I & A).
    destruct (IH _ _ _ _ K' L' O' D') as (added & E & N & P).
    exists (step :: added). simpl. split; [|split].
    + rewrite E. f_equal. now rewrite <- app_assoc.
    + now rewrite N.
    + intros [|i] a Ei; simpl in Ei.
      * injection Ei as <-. exists step. repeat split; [|assumption].
        now rewrite Nat.add_0_r.
      * destruct (P i a Ei) as (x & X & Ix & Ax). exists x. repeat split; try assumption.
        rewrite Ix. rewrite length_app. simpl.
        now replace (length steps + 1 + i)%nat with (length steps + Datatypes.S i)%nat by lia.
Qed.

(** ** The [create_entities] branch: the last write wins *)

Lemma has_own_none (o : list (string * value)) (k : string) :
  has_own o k = false <-> own o k = None.
Proof. unfold has_own. destruct (own o k); split; congruence. Qed.

Lemma own_insert_index_same (i : N) (k : string) (v : value) (o : list (string * value)) :
  own o k = None -> own (insert_index i k v o) k = Some v.
Proof.
  induction o as [|[k' v'] o IH]; simpl; [now rewrite String.eqb_refl|].
  destruct (String.eqb k' k) eqn:E; [discriminate|]. intros O.
  destruct (array_index k') as [j|]; [destruct (N.ltb j i)|]; simpl;
    rewrite ?E, ?String.eqb_refl; auto.
Qed.

Lemma own_app_same (k : string) (v : value) (o : list (string * value)) :
  own o k = None -> own (o ++ [(k, v)]) k = Some v.
Proof.
  induction o as [|[k' v'] o IH]; simpl; [now rewrite String.eqb_refl|].
  destruct (String.eqb k' k); [discriminate|auto].
Qed.

Lemma own_define_same (k : string) (v : value) (o : list (string * value)) :
  k <> "__proto__" \/ has_own o k = true -> own (define k v o) k = Some v.
Proof.
  unfold define. destruct (has_own o k) eqn:O.
  - intros _. unfold has_own in O. destruct (own o k) eqn:E; [|discriminate].
    eapply own_replace; eassumption.
  - intros [N|N]; [|discriminate]. apply has_own_none in O.
    apply String.eqb_neq in N. rewrite N.
    destruct (array_index k); [now apply own_insert_index_same|now apply own_app_same].
Qed.

Lemma has_own_define_proto (k : string) (v : value) (o : list (string * value)) :
  has_own (define k v o) "__proto__" = has_own o "__proto__".
Proof.
  destruct (String.eqb k "__proto__") eqn:E.
  - apply String.eqb_eq in E. subst. destruct (has_own o "__proto__") eqn:O.
    + unfold has_own. now rewrite own_define_same by now right.
    + now rewrite keys_define_proto.
  - apply String.eqb_neq in E. unfold has_own.
    now rewrite own_define_other by congruence.
Qed.

Lemma has_own_file_proto (named : list (value * string)) :
  forall o, has_own (file_pairs o named) "__proto__" = has_own o "__proto__".
Proof.
  unfold file_pairs. induction named as [|[e n] named IH]; intros o; simpl; [reflexivity|].
  now rewrite IH, has_own_define_proto.
Qed.

(** A key that no descriptor writes keeps its value. *)
Lemma own_file_unwritten (named : list (value * string)) (k : string) :
  forall o,
  k ∉ map snd named \/ (k = "__proto__" /\ has_own o "__proto__" = false) ->
  own (file_pairs o named) k = own o k.
Proof.
  unfold file_pairs. induction named as [|[e n] named IH]; intros o W; simpl;
    [reflexivity|].
  destruct W as [W|[-> W]].
  - simpl in W. apply not_elem_of_cons in W as [Wn W].
    rewrite IH by now left. now apply own_define_other.
  - rewrite IH by (right; split; [reflexivity|now rewrite has_own_define_proto]).
    assert (O : has_own (define n (record_of e) o) "__proto__" = false)
      by now rewrite has_own_define_proto.
    apply has_own_none in O, W. congruence.
Qed.

(** The value under a written key does not depend on the mapping the
    descriptors are filed into. *)
Lemma own_file_written (named : list (value * string)) (k : string) :
  forall o1 o2,
  has_own o1 "__proto__" = has_own o2 "__proto__" ->
  k ∈ map snd named ->
  own (file_pairs o1 named) k = own (file_pairs o2 named) k.
Proof.
  induction named as [|[e n] named IH]; intros o1 o2 P W; simpl in W.
  - now apply elem_of_nil in W.
  - change (own (file_pairs (define n (record_of e) o1) named) k =
            own (file_pairs (define n (record_of e) o2) named) k).
    destruct (decide (k ∈ map snd named)) as [I|I].
    + apply IH; [|assumption]. now rewrite !has_own_define_proto.
    + apply elem_of_cons in W as [->|W]; [|contradiction].
      rewrite !own_file_unwritten by now left.
      destruct (decide (n = "__proto__")) as [->|N].
      * destruct (has_own o1 "__proto__") eqn:O1.
        -- rewrite !own_define_same by (right; congruence). reflexivity.
        -- rewrite !keys_define_proto by congruence.
           symmetry in P. apply has_own_none in O1, P. congruence.
      * rewrite !own_define_same by now left. reflexivity.
Qed.

Lemma own_file_idempotent (named : list (value * string)) (o : list (string * value))
    (k : string) :
  own (file_pairs (file_pairs o named) named) k = own (file_pairs o named) k.
Proof.
  destruct (decide (k ∈ map snd named)) as [I|I].
  - apply own_file_written; [apply has_own_file_proto|assumption].
  - apply own_file_unwritten. now left.
Qed.

Lemma elem_keys_define (k' k : string) (v : value) (o : list (string * value)) :
  k' ∈ keys (define k v o) <-> k' ∈ keys o \/ (k' = k /\ k <> "__proto__").
Proof.
  destruct (has_own o k) eqn:O.
  - rewrite keys_define_old by assumption. apply has_own_keys in O.
    split; [now left|]. intros [I|[-> _]]; assumption.
  - destruct (decide (k = "__proto__")) as [->|N].
    + rewrite keys_define_proto by assumption. tauto.
    + rewrite (keys_define_new k v o O N), elem_of_app, list_elem_of_singleton. tauto.
Qed.

Lemma elem_keys_file (named : list (value * string)) (k : string) :
  forall o,
  k ∈ keys (file_pairs o named) <->
  k ∈ keys o \/ (k ∈ map snd named /\ k <> "__proto__").
Proof.
  unfold file_pairs. induction named as [|[e n] named IH]; intros o; simpl.
  - rewrite elem_of_nil. tauto.
  - rewrite IH, elem_keys_define, elem_of_cons. split.
    + intros [[I|[-> N]]|[I N]]; tauto.
    + intros [I|[[->|I] N]]; tauto.
Qed.

Lemma NoDup_keys_define (k : string) (v : value) (o : list (string * value)) :
  NoDup (keys o) -> NoDup (keys (define k v o)).
Proof.
  intros D. destruct (has_own o k) eqn:O.
  - now rewrite keys_define_old.
  - destruct (decide (k = "__proto__")) as [->|N].
    + now rewrite keys_define_proto.
    + rewrite (keys_define_new k v o O N). apply NoDup_app. repeat split.
      * assumption.
      * intros x I J. apply list_elem_of_singleton in J. subst.
        apply has_own_keys in I. congruence.
      * apply NoDup_singleton.
Qed.

Lemma NoDup_keys_file (named : list (value * string)) :
  forall o, NoDup (keys o) -> NoDup (keys (file_pairs o named)).
Proof.
  unfold file_pairs. induction named as [|[e n] named IH]; intros o D; simpl;
    [assumption|].
  apply IH. now apply NoDup_keys_define.
Qed.

(** Filing names that are already keys moves no key. *)
Lemma keys_file_fixed (named : list (value * string)) :
  forall o,
  (forall n, n ∈ map snd named -> n <> "__proto__" -> n ∈ keys o) ->
  keys (file_pairs o named) = keys o.
Proof.
  unfold file_pairs. induction named as [|[e n] named IH]; intros o A; simpl;
    [reflexivity|].
  assert (K : keys (define n (record_of e) o) = keys o).
  { destruct (has_own o n) eqn:O; [now apply keys_define_old|].
    destruct (decide (n = "__proto__")) as [->|N]; [now rewrite keys_define_proto|].
    assert (I : n ∈ keys o) by (apply A; [now left|assumption]).
    apply has_own_keys in I. congruence. }
  rewrite IH; [exact K|].
  intros m I N. rewrite K. apply A; [now right|assumption].
Qed.

(** Mappings without repeated keys are equal when they list the same
    keys in the same order with the same values. *)
Lemma own_extensional (a : list (string * value)) :
  forall b,
  NoDup (keys a) -> keys a = keys b -> (forall k, own a k = own b k) -> a = b.
Proof.
  induction a as [|[k v] a IH]; intros [|[k' v'] b] D K O; simpl in K; try discriminate.
  - reflexivity.
  - injection K as <- K. apply NoDup_cons in D as [Dk D].
    pose proof (O k) as Ok'. simpl in Ok'. rewrite String.eqb_refl in Ok'.
    injection Ok' as <-. f_equal. apply IH; [assumption|assumption|].
    intros x. pose proof (O x) as Ox. simpl in Ox.
    destruct (String.eqb k x) eqn:E; [|assumption].
    apply String.eqb_eq in E. subst x.
    assert (Ha : has_own a k = false).
    { destruct (has_own a k) eqn:F; [|reflexivity]. apply has_own_keys in F. contradiction. }
    assert (Hb : has_own b k = false).
    { destruct (has_own b k) eqn:F; [|reflexivity]. apply has_own_keys in F.
      rewrite <- K in F. contradiction. }
    apply has_own_none in Ha, Hb. congruence.
Qed.

(** Filing the same descriptors a second time changes nothing. *)
Lemma file_pairs_idempotent (named : list (value * string)) (o : list (string * value)) :
  NoDup (keys o) ->
  file_pairs (file_pairs o named) named = file_pairs o named.
Proof.
  intros D. apply own_extensional.
  - now apply NoDup_keys_file, NoDup_keys_file.
  - apply keys_file_fixed. intros n I N. apply elem_keys_file. now right.
  - apply own_file_idempotent.
Qed.

(** A name filed by several descriptors holds the record of the last. *)
Lemma file_pairs_last_write (before after : list (value * string)) (e : value)
    (n : string) (o : list (string * value)) :
  n <> "__proto__" -> n ∉ map snd after ->
  own (file_pairs o (before ++ (e, n) :: after)) n = Some (record_of e).
Proof.
  intros N A. unfold file_pairs. rewrite fold_left_app. simpl.
  fold (file_pairs o before).
  fold (file_pairs (define n (record_of e) (file_pairs o before)) after).
  rewrite own_file_unwritten by now left.
  apply own_define_same. now left.
Qed.

(** *** Writing the graph and reading it back *)

Lemma document_props_defined (o : list (string * value)) :
  defined o -> document_props o = map document_pair o.
Proof.
  unfold document_props. simpl.
  induction 1 as [|[k v] o Hv D IH]; simpl; [reflexivity|].
  simpl in Hv. rewrite <- IH. destruct v; try reflexivity. contradiction.
Qed.

Lemma document_graph (entities : list (string * value)) :
  JSON_document (graph_with entities) = graph_with (document_props entities).
Proof. reflexivity. Qed.

Lemma defined_document (o : list (string * value)) :
  defined o -> defined (map document_pair o).
Proof.
  induction 1 as [|[k v] o Hv D IH]; simpl; constructor; auto.
  simpl in *. now apply JSON_document_defined.
Qed.

Lemma document_pair_idempotent (o : list (string * value)) :
  map document_pair (map document_pair o) = map document_pair o.
Proof.
  rewrite map_map. apply map_ext. intros [k v]. unfold document_pair. simpl.
  now rewrite JSON_document_idempotent.
Qed.

Lemma has_own_document (o : list (string * value)) (k : string) :
  has_own (map document_pair o) k = has_own o k.
Proof.
  unfold has_own. induction o as [|[k' v] o IH]; simpl; [reflexivity|].
  destruct (String.eqb k' k); [reflexivity|assumption].
Qed.

Lemma define_document (k : string) (v : value) (o : list (string * value)) :
  define k (JSON_document v) (map document_pair o) = map document_pair (define k v o).
Proof.
  unfold define. rewrite has_own_document.
  destruct (has_own o k).
  - induction o as [|[k' v'] o IH]; simpl; [reflexivity|].
    destruct (String.eqb k' k); simpl; [reflexivity|]. now rewrite IH.
  - destruct (String.eqb k "__proto__"); [reflexivity|].
    destruct (array_index k) as [i|].
    + induction o as [|[k' v'] o IH]; simpl; [reflexivity|].
      destruct (array_index k') as [j|]; [destruct (N.ltb j i)|]; simpl;
        rewrite ?IH; reflexivity.
    + now rewrite map_app.
Qed.

Lemma file_pairs_document (named : list (value * string)) :
  forall o1 o2,
  map document_pair o1 = map document_pair o2 ->
  map document_pair (file_pairs o1 named) = map document_pair (file_pairs o2 named).
Proof.
  unfold file_pairs. induction named as [|[e n] named IH]; intros o1 o2 E; simpl;
    [assumption|].
  apply IH. now rewrite <- !define_document, E.
Qed.

Lemma file_pairs_defined (named : list (value * string)) :
  forall o, defined o -> defined (file_pairs o named).
Proof.
  unfold file_pairs. induction named as [|[e n] named IH]; intros o D; simpl; auto.
  apply IH. apply define_defined; [discriminate|assumption].
Qed.

(** What one run of the branch does to a stored graph made of an entity
    mapping and no relation. *)
Lemma create_entities_run `{Runtime} (key : string) (args : value) (items : list value)
    (names : list string) (w : World) (s : gmap string value)
    (entities : list (string * value)) :
  MEMORY_KV w = Some s ->
  or_else (default VNull (s !! key)) Memory.empty_graph = graph_with entities ->
  get args "entities" = Ok (VArr items) ->
  map entity_name items = map Some names ->
  Memory.create_entities key args w =
    (Ok (text_result ("Created " +:+ pretty (Z.of_nat (length items)) +:+ " entities")),
     set_kv MEMORY
       (<[key := JSON_document (graph_with (file_all entities items names))]> s) w).
Proof.
  intros K S G E.
  unfold Memory.create_entities, KV_get, KV_put.
  with_strategy opaque [JSON_document] run.
  rewrite K, S, G. with_strategy opaque [JSON_document] simpl.
  rewrite (store_entities_named items names E).
  with_strategy opaque [JSON_document] simpl.
  rewrite K. reflexivity.
Qed.

(** Run twice on the same descriptors against an empty or absent graph,
    the branch leaves the namespace as the first run left it, and gives
    the same answer. *)
Lemma create_entities_branch_idempotent `{Runtime} (key : string) (args : value)
    (items : list value) (names : list string) (w : World) (s : gmap string value) :
  MEMORY_KV w = Some s ->
  s !! key = None \/ s !! key = Some Memory.empty_graph ->
  get args "entities" = Ok (VArr items) ->
  map entity_name items = map Some names ->
  MEMORY_KV (filed key args (filed key args w)) = MEMORY_KV (filed key args w) /\
  fst (Memory.create_entities key args (filed key args w)) =
  fst (Memory.create_entities key args w).
Proof.
  intros K S G E.
  assert (Start : or_else (default VNull (s !! key)) Memory.empty_graph = graph_with []).
  { destruct S as [-> | ->]; reflexivity. }
  set (named := combine items names).
  set (first := file_all [] items names).
  assert (D1 : defined first) by (apply file_pairs_defined; constructor).
  pose proof (create_entities_run key args items names w s [] K Start G E) as R1.
  fold first in R1.
  unfold filed. rewrite R1. cbn [fst snd].
  set (s1 := <[key := JSON_document (graph_with first)]> s).
  assert (K1 : MEMORY_KV (set_kv MEMORY s1 w) = Some s1) by reflexivity.
  assert (S1 : or_else (default VNull (s1 !! key)) Memory.empty_graph
               = graph_with (document_props first)).
  { subst s1. rewrite lookup_insert_eq. reflexivity. }
  rewrite (create_entities_run key args items names _ s1 _ K1 S1 G E).
  cbn [fst snd]. split; [|reflexivity].
  change (MEMORY_KV (set_kv MEMORY ?a ?b)) with (Some a).
  f_equal. subst s1. rewrite insert_insert_eq. f_equal.
  rewrite !document_graph. f_equal.
  rewrite (document_props_defined first D1).
  unfold file_all. fold named.
  rewrite document_props_defined
    by (apply file_pairs_defined; now apply defined_document).
  rewrite (file_pairs_document named (map document_pair first) first)
    by apply document_pair_idempotent.
  unfold first, file_all. fold named.
  rewrite file_pairs_idempotent by constructor. reflexivity.
Qed.

Lemma names_of_combine (items : list value) (names : list string) :
  length items = length names -> map snd (combine items names) = names.
Proof.
  revert names. induction items as [|e items IH]; intros [|n names] L; simpl in *;
    try discriminate; [reflexivity|].
  f_equal. apply IH. now injection L.
Qed.

(** After one run against an empty or absent graph the stored mapping
    has one key for each distinct name other than "__proto__". *)
Lemma create_entities_branch_one_key_per_name `{Runtime} (key : string) (args : value)
    (items : list value) (names : list string) (w : World) (s : gmap string value) :
  MEMORY_KV w = Some s ->
  s !! key = None \/ s !! key = Some Memory.empty_graph ->
  get args "entities" = Ok (VArr items) ->
  map entity_name items = map Some names ->
  exists ks,
    stored_entity_keys key (filed key args w) = Some ks /\
    NoDup ks /\
    forall k, k ∈ ks <-> k ∈ names /\ k <> "__proto__".
Proof.
  intros K S G E.
  assert (Start : or_else (default VNull (s !! key)) Memory.empty_graph = graph_with []).
  { destruct S as [-> | ->]; reflexivity. }
  assert (L : length items = length names).
  { apply (f_equal (@length _)) in E. now rewrite !length_map in E. }
  exists (keys (file_all [] items names)).
  unfold filed. rewrite (create_entities_run key args items names w s [] K Start G E).
  unfold stored_entity_keys, stored. simpl. rewrite lookup_insert_eq.
  split; [|split].
  - apply entity_keys_document. apply file_pairs_defined. constructor.
  - apply NoDup_keys_file. constructor.
  - intros k. unfold file_all. rewrite elem_keys_file.
    rewrite names_of_combine by assumption. simpl. rewrite elem_of_nil. tauto.
Qed.

(** ** What the two defective wrappers can still do *)

(** A boundary around a dispatcher that changes nothing changes nothing. *)
Lemma boundary_changes_nothing `{Runtime} (dispatch : value -> Env -> M value)
    (request : Request) (env : Env) (w : World) :
  (forall body, snd (dispatch body env w) = w) ->
  snd (boundary dispatch request env w) = w.
Proof.
  intros P. run. destruct (req_json request) as [body|]; simpl; [|reflexivity].
  destruct (get body "jsonrpc") as [m|e]; simpl; [|reflexivity].
  destruct (negb (truthy m) || negb (is_str m "2.0"))%bool; simpl.
  - destruct (get body "id"); reflexivity.
  - specialize (P body). destruct (dispatch body env w) as [[result|e] w']; simpl in *.
    + subst. destruct (get body "id"); reflexivity.
    + assumption.
Qed.

Lemma memory_dispatch_changes_nothing `{Runtime} (body : value) (env : Env) (w : World) :
  snd (Memory.handleMemoryRequest body env w) = w.
Proof.
  unfold Memory.handleMemoryRequest. run.
  destruct (destructure body "method") as [method|e]; simpl; [|reflexivity].
  destruct (get body "params") as [params|e]; simpl; [|reflexivity].
  destruct (is_str method "initialize"); [reflexivity|].
  destruct (is_str method "tools/list"); [reflexivity|].
  destruct (is_str method "tools/call").
  - destruct (memory_tool_call_throws params env w) as [e E]. now rewrite E.
  - destruct (to_string method); reflexivity.
Qed.

Lemma thinking_dispatch_changes_nothing `{Runtime} (body : value) (env : Env) (w : World) :
  snd (Thinking.handleThinkingRequest body env w) = w.
Proof.
  unfold Thinking.handleThinkingRequest. run.
  destruct (destructure body "method") as [method|e]; simpl; [|reflexivity].
  destruct (get body "params") as [params|e]; simpl; [|reflexivity].
  destruct (is_str method "initialize"); [reflexivity|].
  destruct (is_str method "tools/list"); [reflexivity|].
  destruct (is_str method "tools/call").
  - destruct (thinking_tool_call_throws params env w) as [e E]. now rewrite E.
  - destruct (to_string method); reflexivity.
Qed.

(** No request whatsoever makes the memory or the thinking wrapper
    write to its namespace, read the clock or call out. *)
Lemma memory_fetch_changes_nothing `{Runtime} (request : Request) (env : Env) (w : World) :
  snd (Memory.fetch request env w) = w.
Proof.
  unfold Memory.fetch.
  repeat match goal with
         | |- context [if ?c then _ else _] => destruct c
         end; try reflexivity.
  rewrite memory_serve. apply boundary_changes_nothing.
  intros body. apply memory_dispatch_changes_nothing.
Qed.

Lemma thinking_fetch_changes_nothing `{Runtime} (request : Request) (env : Env) (w : World) :
  snd (Thinking.fetch request env w) = w.
Proof.
  unfold Thinking.fetch.
  repeat match goal with
         | |- context [if ?c then _ else _] => destruct c
         end; try reflexivity.
  rewrite thinking_serve. apply boundary_changes_nothing.
  intros body. apply thinking_dispatch_changes_nothing.
Qed.

Lemma memory_serve_all_changes_nothing `{Runtime} (calls : list (Request * Env)) (w : World) :
  serve_all MemoryServer calls w = w.
Proof.
  induction calls as [|[request env] calls IH]; simpl; [reflexivity|].
  now rewrite memory_fetch_changes_nothing.
Qed.

Lemma thinking_serve_all_changes_nothing `{Runtime} (calls : list (Request * Env))
    (w : World) :
  serve_all ThinkingServer calls w = w.
Proof.
  induction calls as [|[request env] calls IH]; simpl; [reflexivity|].
  now rewrite thinking_fetch_changes_nothing.
Qed.

(** ** Discord: the soft error at the RPC level *)

(** The failed [send_message] call travels back as the [result] of a
    200 answer. *)
Lemma send_message_failure_answered_200 `{Runtime} (authorization user : option string)
    (body : value) (env : Env) (w : World) (req : UpRequest) (r : UpResponse) :
  Discord.unauthorized (post authorization user body) env = false ->
  is_str (field body "jsonrpc") "2.0" = true ->
  is_str (field body "method") "tools/call" = true ->
  is_str (field (field body "params") "name") "send_message" = true ->
  sent (snd (Discord.fetch (post authorization user body) env w)) = sent w ++ [req] ->
  discord w req = Ok r ->
  up_ok r = false ->
  exists response text,
    fst (Discord.fetch (post authorization user body) env w) = Ok response /\
    status response = 200 /\
    response_result response = Some (error_result text) /\
    error_member response "code" = None /\
    contains (pretty (up_status r)) text.
Proof.
  intros U J C Name. apply field_get in J. apply field_get in C.
  pose proof (fetch_post DiscordServer authorization user body env U) as F.
  simpl in F. rewrite F, discord_serve. clear F.
  pose proof (tool_call_send_message (field body "params") env w Name) as T.
  simpl in T.
  destruct (String.eqb _ "") eqn:Token.
  - rewrite (boundary_throws _ _ _ _ _ _ _ w J)
      by (rewrite discord_dispatch_call; eassumption).
    simpl. intros S. now apply no_request_sent in S.
  - destruct (Discord.sendMessage _ _ w) as [outcome w'] eqn:Sm.
    destruct outcome as [result|e].
    + rewrite (boundary_returns _ _ _ _ _ _ result w' J)
        by (rewrite discord_dispatch_call; eassumption).
      simpl. intros S R O.
      match type of Sm with
      | Discord.sendMessage ?a ?t w = _ =>
          pose proof (sendMessage_upstream_failure a t w req r) as Q
      end.
      rewrite Sm in Q. simpl in Q. specialize (Q S R O). injection Q as ->.
      eexists _, _. split; [reflexivity|]. split; [reflexivity|].
      split; [|split; [|apply status_in_text]]; destruct (field body "id"); reflexivity.
    + rewrite (boundary_throws _ _ _ _ _ _ e w' J)
        by (rewrite discord_dispatch_call; eassumption).
      simpl. intros S R O.
      match type of Sm with
      | Discord.sendMessage ?a ?t w = _ =>
          pose proof (sendMessage_upstream_failure a t w req r) as Q
      end.
      rewrite Sm in Q. simpl in Q. specialize (Q S R O). discriminate.
Qed.

(** * Further properties of the wrappers *)

Import Cover.

(** ** A small calculus for [returns] and [total] *)

Lemma returns_ret {A} (P : A -> Prop) (a : A) : P a -> returns P (ret a).
Proof. intros Pa w a' w' E. injection E as <- _. exact Pa. Qed.

Lemma returns_throw {A} (P : A -> Prop) (e : exn) : returns P (throw e).
Proof. intros w a w' E. discriminate. Qed.

Lemma returns_bind {A B} (P : B -> Prop) (m : M A) (k : A -> M B) :
  (forall x, returns P (k x)) -> returns P (bind m k).
Proof.
  intros K w b w' E. unfold bind in E.
  destruct (m w) as [[a|e] w1]; [|discriminate]. eapply K; eassumption.
Qed.

Lemma returns_try {A} (P : A -> Prop) (m : M A) (handler : exn -> M A) :
  returns P m -> (forall e, returns P (handler e)) -> returns P (try_catch m handler).
Proof.
  intros Pm Ph w a w' E. unfold try_catch in E.
  destruct (m w) as [[x|e] w1] eqn:Em.
  - injection E as <- _. eapply Pm; eassumption.
  - eapply Ph; eassumption.
Qed.

Lemma total_try {A} (m : M A) (handler : exn -> M A) :
  (forall e, total (handler e)) -> total (try_catch m handler).
Proof.
  intros Th w. unfold try_catch. destruct (m w) as [[x|e] w1]; [eauto|apply Th].
Qed.

Lemma total_ret {A} (a : A) : total (ret a).
Proof. intros w. unfold ret. eauto. Qed.

Lemma returns_weaken {A} (P Q : A -> Prop) (m : M A) :
  (forall a, P a -> Q a) -> returns P m -> returns Q m.
Proof. intros PQ Pm w a w' E. apply PQ. eapply Pm; eassumption. Qed.

Ltac returns_steps :=
  repeat lazymatch goal with
         | |- returns _ (bind _ _) => apply returns_bind; intros ?
         | |- returns _ (if ?c then _ else _) => destruct c
         | |- returns _ (throw _) => apply returns_throw
         end.

Lemma tool_result_defined (v : value) : tool_result v -> v <> VUndef.
Proof. intros [text [-> | ->]]; discriminate. Qed.

(** ** What the Discord tools return *)

Lemma sendMessage_returns `{Runtime} (args : value) (token : string) :
  returns tool_result (Discord.sendMessage args token).
Proof.
  unfold Discord.sendMessage. apply returns_try.
  - returns_steps. apply returns_ret. eexists. left. reflexivity.
  - intros e. apply returns_ret. eexists. right. reflexivity.
Qed.

Lemma getChannelInfo_returns `{Runtime} (args : value) (token : string) :
  returns tool_result (Discord.getChannelInfo args token).
Proof.
  unfold Discord.getChannelInfo. apply returns_try.
  - returns_steps. apply returns_ret. eexists. left. reflexivity.
  - intros e. apply returns_ret. eexists. right. reflexivity.
Qed.

Lemma getGuildInfo_returns `{Runtime} (args : value) (token : string) :
  returns tool_result (Discord.getGuildInfo args token).
Proof.
  unfold Discord.getGuildInfo. apply returns_try.
  - returns_steps. apply returns_ret. eexists. left. reflexivity.
  - intros e. apply returns_ret. eexists. right. reflexivity.
Qed.

Lemma sendMessage_total `{Runtime} (args : value) (token : string) :
  total (Discord.sendMessage args token).
Proof. apply total_try. intros e. apply total_ret. Qed.

Lemma getChannelInfo_total `{Runtime} (args : value) (token : string) :
  total (Discord.getChannelInfo args token).
Proof. apply total_try. intros e. apply total_ret. Qed.

Lemma getGuildInfo_total `{Runtime} (args : value) (token : string) :
  total (Discord.getGuildInfo args token).
Proof. apply total_try. intros e. apply total_ret. Qed.

Lemma handleToolCall_returns `{Runtime} (params : value) (env : Env) :
  returns tool_result (Discord.handleToolCall params env).
Proof.
  unfold Discord.handleToolCall. returns_steps;
    auto using sendMessage_returns, getChannelInfo_returns, getGuildInfo_returns.
Qed.

(** ** What the dispatchers return *)

Lemma dispatcher_returns_defined `{Runtime} (s : server) (body : value) (env : Env) :
  returns (fun v => v <> VUndef) (dispatcher_of s body env).
Proof.
  destruct s; simpl;
    unfold Memory.handleMemoryRequest, Thinking.handleThinkingRequest,
      Discord.handleMCPRequest, Filesystem.handleFilesystemRequest;
    returns_steps; try (apply returns_ret; discriminate).
  - intros w a w' E.
    match type of E with
    | Memory.handleMemoryToolCall ?p _ _ = _ =>
        destruct (memory_tool_call_throws p env w) as [e T]
    end. congruence.
  - intros w a w' E.
    match type of E with
    | Thinking.handleThinkingToolCall ?p _ _ = _ =>
        destruct (thinking_tool_call_throws p env w) as [e T]
    end. congruence.
  - eapply returns_weaken; [apply tool_result_defined|apply handleToolCall_returns].
  - unfold Filesystem.handleFilesystemToolCall.
    returns_steps; apply returns_ret; discriminate.
Qed.

(** ** The answers of [fetch] *)

Lemma error_envelope_is_failure (code : Z) (text : string) (data id : value) :
  failure code (json_response (http_status code) (rpc_error code text data id)).
Proof.
  unfold failure, envelope, response_result, error_member, member.
  destruct id, data; simpl; repeat split; eauto.
Qed.

Lemma internal_error_is_failure `{Runtime} (e : exn) : failure (-32603) (internal_error e).
Proof. apply (error_envelope_is_failure (-32603)). Qed.

Lemma integration_pending_is_failure (id : value) : failure (-32603) (integration_pending id).
Proof. apply (error_envelope_is_failure (-32603)). Qed.

Lemma result_is_success (v id : value) :
  v <> VUndef -> success (json_response 200 (rpc_result v id)).
Proof.
  intros V. unfold success, envelope, response_result, member.
  destruct v; try contradiction; destruct id; simpl; repeat split; eauto.
Qed.

Lemma boundary_answer `{Runtime} (dispatch : value -> Env -> M value)
    (request : Request) (env : Env) (w : World) :
  (forall body, returns (fun v => v <> VUndef) (dispatch body env)) ->
  exists response w',
    boundary dispatch request env w = (Ok response, w') /\ rpc_answer response.
Proof.
  intros D. unfold rpc_answer. run.
  destruct (req_json request) as [body|]; simpl.
  2:{ eexists _, _. split; [reflexivity|]. right. right.
      apply (error_envelope_is_failure (-32603)). }
  destruct (get body "jsonrpc") as [m|e]; simpl.
  2:{ eexists _, _. split; [reflexivity|]. right. right.
      apply (error_envelope_is_failure (-32603)). }
  destruct (negb (truthy m) || negb (is_str m "2.0"))%bool; simpl.
  - destruct (get body "id") as [id|e]; simpl; eexists _, _; (split; [reflexivity|]).
    + right. left. apply (error_envelope_is_failure (-32600)).
    + right. right. apply (error_envelope_is_failure (-32603)).
  - destruct (dispatch body env w) as [[v|e] w1] eqn:E; simpl.
    + destruct (get body "id") as [id|e]; simpl; eexists _, _; (split; [reflexivity|]).
      * left. apply result_is_success. eapply D; eassumption.
      * right. right. apply (error_envelope_is_failure (-32603)).
    + eexists _, _. split; [reflexivity|]. right. right.
      apply (error_envelope_is_failure (-32603)).
Qed.

Lemma filesystem_serve_answer `{Runtime} (request : Request) (env : Env) (w : World) :
  exists response w',
    Filesystem.serve request env w = (Ok response, w') /\ rpc_answer response.
Proof.
  unfold rpc_answer, Filesystem.serve, Filesystem.import_dist. run.
  destruct (req_json request) as [body|]; simpl.
  2:{ eexists _, _. split; [reflexivity|]. right. right.
      apply (error_envelope_is_failure (-32603)). }
  destruct (get body "jsonrpc") as [m|e]; simpl.
  2:{ eexists _, _. split; [reflexivity|]. right. right.
      apply (error_envelope_is_failure (-32603)). }
  destruct (get body "id") as [id|e'] eqn:G; simpl;
    destruct (negb (truthy m) || negb (is_str m "2.0"))%bool; simpl;
    try (eexists _, _; split; [reflexivity|]; right;
         first [ left; apply (error_envelope_is_failure (-32600))
               | right; apply (error_envelope_is_failure (-32603)) ]);
    destruct (dist_importable env); simpl;
    try (eexists _, _; split; [reflexivity|]; right; right;
         apply (error_envelope_is_failure (-32603)));
    destruct (Filesystem.handleFilesystemRequest body env w) as [[v|e] w1] eqn:E; simpl;
    try (eexists _, _; split; [reflexivity|]; right; right;
         apply (error_envelope_is_failure (-32603))).
  eexists _, _. split; [reflexivity|]. left. apply result_is_success.
  eapply (dispatcher_returns_defined FilesystemServer); eassumption.
Qed.

Lemma serve_answer `{Runtime} (s : server) (request : Request) (env : Env) (w : World) :
  exists response w', serve_of s request env w = (Ok response, w') /\ rpc_answer response.
Proof.
  destruct s; simpl.
  - rewrite memory_serve. apply boundary_answer.
    intros body. apply (dispatcher_returns_defined MemoryServer).
  - rewrite thinking_serve. apply boundary_answer.
    intros body. apply (dispatcher_returns_defined ThinkingServer).
  - rewrite discord_serve. apply boundary_answer.
    intros body. apply (dispatcher_returns_defined DiscordServer).
  - apply filesystem_serve_answer.
Qed.

(** How [fetch] routes a request, wrapper by wrapper. *)
Lemma fetch_routes `{Runtime} (s : server) (request : Request) (env : Env) (w : World) :
  (req_method request = "OPTIONS" /\
   fetch_of s request env w =
     (Ok {| status := 200; headers := corsHeaders; body := NoBody |}, w)) \/
  (req_method request <> "OPTIONS" /\ unauthorized_of s request env = true /\
   exists text,
     fetch_of s request env w =
       (Ok (json_response 401 (rpc_error (-32001) text VUndef VNull)), w)) \/
  (req_method request <> "OPTIONS" /\ unauthorized_of s request env = false /\
   req_pathname request = "/health" /\
   exists service,
     fetch_of s request env w =
       (Ok (json_response 200
              (VObj [("status", VStr "ok"); ("service", VStr service);
                     ("version", VStr "1.0.0")])), w)) \/
  (req_method request = "POST" /\ unauthorized_of s request env = false /\
   req_pathname request = "/" /\
   fetch_of s request env w = serve_of s request env w) \/
  (req_method request <> "OPTIONS" /\ unauthorized_of s request env = false /\
   req_pathname request <> "/health" /\
   ~ (req_method request = "POST" /\ req_pathname request = "/") /\
   fetch_of s request env w =
     (Ok (text_response 404 "Not Found"), w)).
Proof.
  destruct (String.eqb (req_method request) "OPTIONS") eqn:O.
  { left. apply String.eqb_eq in O. split; [assumption|].
    destruct s; simpl;
      unfold Memory.fetch, Thinking.fetch, Discord.fetch, Filesystem.fetch;
      now rewrite (proj2 (String.eqb_eq _ _) O). }
  right. pose proof O as O'. apply String.eqb_neq in O'.
  destruct (unauthorized_of s request env) eqn:U.
  { left. split; [assumption|]. split; [reflexivity|].
    destruct s; simpl in *; eexists;
      unfold Memory.fetch, Thinking.fetch, Discord.fetch, Filesystem.fetch;
      rewrite O, U; reflexivity. }
  right.
  destruct (String.eqb (req_pathname request) "/health") eqn:Hp.
  { left. apply String.eqb_eq in Hp. split; [assumption|]. split; [reflexivity|].
    split; [assumption|].
    destruct s; simpl in *; eexists;
      unfold Memory.fetch, Thinking.fetch, Discord.fetch, Filesystem.fetch;
      rewrite O, U, Hp; simpl; rewrite ?Bool.andb_false_r; reflexivity. }
  right. pose proof Hp as Hp'. apply String.eqb_neq in Hp'.
  destruct (String.eqb (req_method request) "POST" &&
            String.eqb (req_pathname request) "/")%bool eqn:P.
  { left. apply andb_prop in P as [Pm Pp].
    pose proof Pm as Pm'. pose proof Pp as Pp'.
    apply String.eqb_eq in Pm'. apply String.eqb_eq in Pp'.
    split; [assumption|]. split; [reflexivity|]. split; [assumption|].
    destruct s; simpl in *;
      unfold Memory.fetch, Thinking.fetch, Discord.fetch, Filesystem.fetch;
      rewrite O, U, ?Hp, Pm, Pp; reflexivity. }
  right. split; [assumption|]. split; [reflexivity|]. split; [assumption|]. split.
  { intros [Pm Pp]. apply String.eqb_eq in Pm. apply String.eqb_eq in Pp.
    rewrite Pm, Pp in P. discriminate. }
  destruct s; simpl in *;
    unfold Memory.fetch, Thinking.fetch, Discord.fetch, Filesystem.fetch;
    rewrite O, U, Hp, P; reflexivity.
Qed.

Lemma rpc_answer_status (r : Response) :
  rpc_answer r -> status r = 200 \/ status r = 400 \/ status r = 500.
Proof.
  intros [S|[F|F]].
  - left. apply S.
  - right. left. apply F.
  - right. right. apply F.
Qed.

(** X1.  Whatever the request, the environment and the world, the
    [fetch] handler of each of the four wrappers returns a response (no
    exception escapes it), and the response is of one of five kinds: a
    plain answer with status 200 or 404; a JSON-RPC success with status
    200, a [result] and no [error]; or a JSON-RPC failure without
    [result] whose code and status are -32600 with 400, -32001 with
    401, or -32603 with 500. *)
Theorem fetch_always_answers `{Runtime} (s : server) (request : Request) (env : Env)
    (w : World) :
  exists response w',
    fetch_of s request env w = (Ok response, w') /\ answer response.
Proof.
  unfold answer.
  destruct (fetch_routes s request env w)
    as [[_ E]|[(_ & _ & text & E)|[(_ & _ & _ & service & E)|[(_ & _ & _ & E)|(_ & _ & _ & _ & E)]]]];
    rewrite E.
  - eexists _, _. split; [reflexivity|]. left. split; [reflexivity|now left].
  - eexists _, _. split; [reflexivity|]. right. right. right. left.
    apply (error_envelope_is_failure (-32001)).
  - eexists _, _. split; [reflexivity|]. left. split; [reflexivity|now left].
  - destruct (serve_answer s request env w) as (response & w' & Es & A).
    exists response, w'. split; [assumption|]. destruct A as [A|[A|A]]; tauto.
  - eexists _, _. split; [reflexivity|]. left. split; [reflexivity|now right].
Qed.

(** The status of the answer, read off the routing. *)
Lemma status_by_route `{Runtime} (s : server) (request : Request) (env : Env)
    (w w' : World) (response : Response) :
  fetch_of s request env w = (Ok response, w') ->
  (req_method request = "OPTIONS" /\ status response = 200) \/
  (req_method request <> "OPTIONS" /\ unauthorized_of s request env = true /\
   status response = 401) \/
  (req_method request <> "OPTIONS" /\ unauthorized_of s request env = false /\
   req_pathname request = "/health" /\ status response = 200) \/
  (req_method request = "POST" /\ unauthorized_of s request env = false /\
   req_pathname request = "/" /\
   (status response = 200 \/ status response = 400 \/ status response = 500)) \/
  (req_method request <> "OPTIONS" /\ unauthorized_of s request env = false /\
   req_pathname request <> "/health" /\
   ~ (req_method request = "POST" /\ req_pathname request = "/") /\
   status response = 404).
Proof.
  intros F.
  destruct (fetch_routes s request env w)
    as [[O E]|[(O & U & text & E)|[(O & U & P & service & E)|[(O & U & P & E)|(O & U & P & N & E)]]]];
    rewrite E in F.
  - injection F as <- _. now left.
  - injection F as <- _. right. left. auto.
  - injection F as <- _. right. right. left. auto.
  - right. right. right. left. repeat split; try assumption.
    destruct (serve_answer s request env w) as (r & w1 & Es & A).
    rewrite Es in F. injection F as <- _. now apply rpc_answer_status.
  - injection F as <- _. right. right. right. right. auto.
Qed.

(** X2.  For each of the four wrappers, the answer has status 401
    exactly when the request is not a preflight and fails the bearer
    check, and status 404 exactly when it is not a preflight, passes the
    check, and is neither for /health nor a POST to /; statuses 400 and
    500 only answer an authorized POST to /. *)
Theorem status_follows_route `{Runtime} (s : server) (request : Request) (env : Env)
    (w w' : World) (response : Response) :
  fetch_of s request env w = (Ok response, w') ->
  (status response = 401 <->
   req_method request <> "OPTIONS" /\ unauthorized_of s request env = true) /\
  (status response = 404 <->
   req_method request <> "OPTIONS" /\ unauthorized_of s request env = false /\
   req_pathname request <> "/health" /\
   ~ (req_method request = "POST" /\ req_pathname request = "/")) /\
  (status response = 400 \/ status response = 500 ->
   req_method request = "POST" /\ req_pathname request = "/" /\
   unauthorized_of s request env = false).
Proof.
  intros F.
  assert (PO : "POST" <> "OPTIONS") by discriminate.
  assert (HR : "/health" <> "/") by discriminate.
  destruct (status_by_route s request env w w' response F)
    as [[O S]|[(O & U & S)|[(O & U & P & S)|[(O & U & P & S)|(O & U & P & N & S)]]]];
    rewrite ?S; repeat split; intros; try lia; try tauto; try congruence;
    repeat match goal with
           | H : _ /\ _ |- _ => destruct H
           | H : _ \/ _ |- _ => destruct H
           end; try lia; try congruence; try tauto.
Qed.

Lemma status_follows_route_witness :
  let request := {| req_method := "GET"; req_pathname := "/tools"; req_authorization := None;
                    req_user_id := None; req_json := None |} in
  let w := world None None offline in
  let response := text_response 404 "Not Found" in
  @fetch_of plain_runtime DiscordServer request open_env w = (Ok response, w) /\
  (status response = 401 <->
   req_method request <> "OPTIONS" /\ unauthorized_of DiscordServer request open_env = true) /\
  (status response = 404 <->
   req_method request <> "OPTIONS" /\ unauthorized_of DiscordServer request open_env = false /\
   req_pathname request <> "/health" /\
   ~ (req_method request = "POST" /\ req_pathname request = "/")) /\
  (status response = 400 \/ status response = 500 ->
   req_method request = "POST" /\ req_pathname request = "/" /\
   unauthorized_of DiscordServer request open_env = false).
Proof.
  split; [reflexivity|].
  apply (@status_follows_route plain_runtime DiscordServer _ open_env
           (world None None offline) (world None None offline)).
  reflexivity.
Defined.

(** ** The two bearer checks *)

(** X3.  In the memory, thinking and filesystem wrappers a request whose
    Authorization header is "Bearer mcp_jwt_" followed by anything at
    all passes the bearer check, whatever secret is configured, and is
    never answered 401; the secret itself is not compared with the
    token. *)
Theorem any_prefixed_token_passes `{Runtime} (s : server) (request : Request) (env : Env)
    (suffix : string) (w w' : World) (response : Response) :
  s <> DiscordServer ->
  req_authorization request = Some ("Bearer mcp_jwt_" +:+ suffix) ->
  fetch_of s request env w = (Ok response, w') ->
  Memory.unauthorized request env = false /\ status response <> 401.
Proof.
  intros S A F.
  assert (U : Memory.unauthorized request env = false).
  { unfold Memory.unauthorized. rewrite A.
    destruct (configured (JWT_SECRET env)), suffix; reflexivity. }
  split; [assumption|].
  assert (Us : unauthorized_of s request env = false) by (destruct s; tauto).
  destruct (status_by_route s request env w w' response F)
    as [[O St]|[(O & Ut & St)|[(O & Ut & P & St)|[(O & Ut & P & St)|(O & Ut & P & N & St)]]]];
    try lia; congruence.
Qed.

Lemma any_prefixed_token_passes_witness :
  let env := {| JWT_SECRET := Some "a secret nobody guessed"; API_KEY := None;
                SERVICE_KEY := None; DISCORD_TOKEN := None; dist_importable := false |} in
  let request := post (Some ("Bearer mcp_jwt_" +:+ "forged")) None
                   (rpc "initialize" VUndef (VNum 1)) in
  let w := world None None offline in
  let response := json_response 200 (rpc_result Memory.initialize (VNum 1)) in
  MemoryServer <> DiscordServer /\
  req_authorization request = Some ("Bearer mcp_jwt_" +:+ "forged") /\
  @fetch_of plain_runtime MemoryServer request env w = (Ok response, w) /\
  Memory.unauthorized request env = false /\ status response <> 401.
Proof.
  split; [discriminate|]. split; [reflexivity|]. split; [reflexivity|].
  apply (@any_prefixed_token_passes plain_runtime MemoryServer
           (post (Some ("Bearer mcp_jwt_" +:+ "forged")) None
              (rpc "initialize" VUndef (VNum 1)))
           _ "forged" (world None None offline) (world None None offline));
    [discriminate|reflexivity|reflexivity].
Defined.

(** X4.  When the Discord wrapper has an API key or a service key
    configured, a request passes its check exactly when the
    Authorization header, with its first "Bearer " removed, is one of
    the configured keys. *)
Theorem discord_accepts_configured_keys_only (request : Request) (env : Env) :
  (configured (API_KEY env) || configured (SERVICE_KEY env))%bool = true ->
  (Discord.unauthorized request env = false <->
   exists header key,
     req_authorization request = Some header /\
     replace_first "Bearer " "" header = key /\
     key <> "" /\
     (API_KEY env = Some key \/ SERVICE_KEY env = Some key)).
Proof.
  intros C. unfold Discord.unauthorized. rewrite C.
  destruct (req_authorization request) as [header|].
  2:{ split; [discriminate|]. intros (h & k & E & _). discriminate. }
  set (provided := replace_first "Bearer " "" header).
  split.
  - intros U. apply Bool.orb_false_elim in U as [E X].
    apply String.eqb_neq in E. apply Bool.negb_false_iff in X.
    exists header, provided. repeat split; try assumption.
    apply existsb_exists in X as (k & I & Ek). apply String.eqb_eq in Ek. subst k.
    apply in_app_or in I as [I|I].
    + left. unfold configured in I. destruct (API_KEY env) as [k|]; [|contradiction].
      destruct (negb (String.eqb k "")); [|contradiction].
      simpl in I. destruct I as [<-|[]]. reflexivity.
    + right. unfold configured in I. destruct (SERVICE_KEY env) as [k|]; [|contradiction].
      destruct (negb (String.eqb k "")); [|contradiction].
      simpl in I. destruct I as [<-|[]]. reflexivity.
  - intros (h & k & Eh & Ek & N & K). injection Eh as <-. fold provided in Ek. subst k.
    apply Bool.orb_false_intro.
    + now apply String.eqb_neq.
    + apply Bool.negb_false_iff. apply existsb_exists. exists provided.
      split; [|apply String.eqb_refl]. apply in_or_app.
      apply String.eqb_neq in N.
      destruct K as [K|K]; [left|right]; rewrite K; simpl; rewrite N; simpl; now left.
Qed.

Lemma discord_accepts_configured_keys_only_witness :
  let env := {| JWT_SECRET := None; API_KEY := Some "k1"; SERVICE_KEY := Some "k2";
                DISCORD_TOKEN := None; dist_importable := false |} in
  let request := post (Some "Bearer k2") None VNull in
  (configured (API_KEY env) || configured (SERVICE_KEY env))%bool = true /\
  (Discord.unauthorized request env = false <->
   exists header key,
     req_authorization request = Some header /\
     replace_first "Bearer " "" header = key /\
     key <> "" /\
     (API_KEY env = Some key \/ SERVICE_KEY env = Some key)).
Proof.
  split; [reflexivity|].
  apply discord_accepts_configured_keys_only. reflexivity.
Defined.


(** ** Stateless wrappers *)

Lemma filesystem_dispatch_changes_nothing (body : value) (env : Env) (w : World) :
  snd (Filesystem.handleFilesystemRequest body env w) = w.
Proof.
  unfold Filesystem.handleFilesystemRequest, Filesystem.handleFilesystemToolCall. run.
  repeat match goal with
         | |- context [match ?x with _ => _ end] => destruct x; simpl
         end; reflexivity.
Qed.

Lemma filesystem_fetch_changes_nothing `{Runtime} (request : Request) (env : Env)
    (w : World) :
  snd (Filesystem.fetch request env w) = w.
Proof.
  unfold Filesystem.fetch.
  repeat match goal with
         | |- context [if ?c then _ else _] => destruct c
         end; try reflexivity.
  unfold Filesystem.serve, Filesystem.import_dist. run.
  destruct (req_json request) as [body|]; simpl; [|reflexivity].
  destruct (get body "jsonrpc") as [m|e]; simpl; [|reflexivity].
  destruct (negb (truthy m) || negb (is_str m "2.0"))%bool; simpl.
  - destruct (get body "id"); reflexivity.
  - destruct (dist_importable env); simpl.
    + pose proof (filesystem_dispatch_changes_nothing body env w) as P.
      destruct (Filesystem.handleFilesystemRequest body env w) as [[result|e] w']; simpl in *;
        subst; destruct (get body "id"); reflexivity.
    + destruct (get body "id"); reflexivity.
Qed.

(** X5.  The memory, thinking and filesystem wrappers are stateless as
    deployed: whatever requests are served, in whatever order, the
    world afterwards (both KV namespaces, the clock readings, the
    requests sent upstream) is the world before. *)
Theorem stateless_wrappers `{Runtime} (s : server) (calls : list (Request * Env))
    (w : World) :
  s <> DiscordServer -> serve_all s calls w = w.
Proof.
  intros S. revert w. induction calls as [|[request env] calls IH]; intros w; simpl;
    [reflexivity|].
  replace (snd (fetch_of s request env w)) with w; [apply IH|].
  destruct s; simpl; try contradiction; symmetry.
  - apply memory_fetch_changes_nothing.
  - apply thinking_fetch_changes_nothing.
  - apply filesystem_fetch_changes_nothing.
Qed.

Lemma stateless_wrappers_witness :
  let call := rpc "tools/call"
                (tool_call "create_entities" (VObj [("entities", VArr [entity "ada" "person"])]))
                (VNum 1) in
  let calls := [(post None None call, open_env); (post_garbage, open_env)] in
  let w := world (Some ∅) (Some ∅) offline in
  MemoryServer <> DiscordServer /\
  @serve_all plain_runtime MemoryServer calls w = w.
Proof.
  split; [discriminate|].
  apply (@stateless_wrappers plain_runtime MemoryServer). discriminate.
Defined.


(** ** The Discord tools *)



Local Opaque Discord.pick Discord.makeDiscordRequest.





Local Transparent Discord.pick Discord.makeDiscordRequest.

Lemma configured_token (env : Env) :
  configured (DISCORD_TOKEN env) = true ->
  exists token, DISCORD_TOKEN env = Some token /\ token <> "" /\
                String.eqb token "" = false.
Proof.
  unfold configured. destruct (DISCORD_TOKEN env) as [token|]; [|discriminate].
  intros C. apply Bool.negb_true_iff in C. exists token.
  split; [reflexivity|]. split; [now apply String.eqb_neq|assumption].
Qed.




(** The id is not looked at before it goes into the URL. *)
Example unescaped_channel_id :
  let args := VObj [("channel_id", VStr "1/../../../users/@me?x="); ("message", VStr "hi")] in
  map up_url (sent (snd (@Discord.sendMessage plain_runtime args "bot-token"
                           (world None None offline))))
  = ["https://discord.com/api/v10/channels/1/../../../users/@me?x=/messages"].
Proof. reflexivity. Qed.


(** The three tools inside [handleToolCall], once a token is configured. *)
Lemma handleToolCall_known `{Runtime} (params : value) (env : Env) (token : string)
    (w : World) :
  DISCORD_TOKEN env = Some token -> token <> "" ->
  nullish params = false ->
  Discord.handleToolCall params env w =
    let name := field params "name" in
    let args := field params "arguments" in
    if is_str name "send_message" then Discord.sendMessage args token w
    else if is_str name "get_channel_info" then Discord.getChannelInfo args token w
    else if is_str name "get_guild_info" then Discord.getGuildInfo args token w
    else match to_string name with
         | Ok shown => (Throw (UserError ("Unknown tool: " +:+ shown)), w)
         | Throw e => (Throw e, w)
         end.
Proof.
  intros E T N. unfold Discord.handleToolCall. run.
  rewrite destructure_get, (get_total params "name"), (get_total params "arguments")
    by assumption.
  unfold configured. rewrite E. simpl.
  apply String.eqb_neq in T. rewrite T. simpl. rewrite T.
  repeat match goal with
         | |- context [if ?c then _ else _] => destruct c
         end; reflexivity.
Qed.

Lemma known_tool_params (s : server) (params : value) :
  known_tool s (field params "name") = true -> nullish params = false.
Proof.
  destruct params; try reflexivity; unfold known_tool, field; simpl;
    intros K; apply existsb_exists in K as (n & _ & K); discriminate.
Qed.

(** X6.  With a token configured, a [tools/call] of the Discord wrapper
    for one of its three tools is always answered 200 with a tool
    result (one text item, with or without [isError]) under the id of
    the request: bad arguments, a network failure, a refusal upstream
    or an unreadable answer never become a JSON-RPC error. *)
Theorem discord_tool_failures_are_soft `{Runtime} (authorization user : option string)
    (body : value) (env : Env) (w : World) :
  Discord.unauthorized (post authorization user body) env = false ->
  is_str (field body "jsonrpc") "2.0" = true ->
  is_str (field body "method") "tools/call" = true ->
  known_tool DiscordServer (field (field body "params") "name") = true ->
  configured (DISCORD_TOKEN env) = true ->
  exists result w',
    Discord.fetch (post authorization user body) env w =
      (Ok (json_response 200 (rpc_result result (field body "id"))), w') /\
    tool_result result.
Proof.
  intros U J M K C. apply field_get in J, M.
  destruct (configured_token env C) as (token & E & T & _).
  pose proof (known_tool_params _ _ K) as N.
  assert (R : exists result w',
             Discord.handleToolCall (field body "params") env w = (Ok result, w')).
  { rewrite (handleToolCall_known _ env token w E T N). simpl.
    unfold known_tool in K. simpl in K.
    destruct (is_str _ "send_message"); [apply sendMessage_total|].
    destruct (is_str _ "get_channel_info"); [apply getChannelInfo_total|].
    destruct (is_str _ "get_guild_info"); [apply getGuildInfo_total|discriminate]. }
  destruct R as (result & w' & R). exists result, w'. split.
  - pose proof (fetch_post DiscordServer authorization user body env U) as F.
    simpl in F. rewrite F, discord_serve.
    apply boundary_returns; [assumption|].
    now rewrite discord_dispatch_call.
  - eapply handleToolCall_returns. eassumption.
Qed.

Lemma discord_tool_failures_are_soft_witness :
  let body := rpc "tools/call" (tool_call "get_guild_info" VNull) (VNum 5) in
  let w := world None None offline in
  Discord.unauthorized (post None None body) discord_env = false /\
  is_str (field body "jsonrpc") "2.0" = true /\
  is_str (field body "method") "tools/call" = true /\
  known_tool DiscordServer (field (field body "params") "name") = true /\
  configured (DISCORD_TOKEN discord_env) = true /\
  exists result w',
    @Discord.fetch plain_runtime (post None None body) discord_env w =
      (Ok (json_response 200 (rpc_result result (field body "id"))), w') /\
    tool_result result.
Proof.
  split; [reflexivity|]. split; [reflexivity|]. split; [reflexivity|].
  split; [reflexivity|]. split; [reflexivity|].
  apply (@discord_tool_failures_are_soft plain_runtime None None
           (rpc "tools/call" (tool_call "get_guild_info" VNull) (VNum 5)) discord_env);
    reflexivity.
Defined.

(** X8.  Without a DISCORD_TOKEN (unset or empty), every [tools/call]
    of the Discord wrapper with readable params is answered 500 with
    the -32603 envelope whose data is "DISCORD_TOKEN is required",
    whatever the tool name, and nothing is sent upstream: the token is
    checked before the tool name. *)
Theorem discord_tool_call_needs_token `{Runtime} (authorization user : option string)
    (body : value) (env : Env) (w : World) :
  Discord.unauthorized (post authorization user body) env = false ->
  is_str (field body "jsonrpc") "2.0" = true ->
  is_str (field body "method") "tools/call" = true ->
  nullish (field body "params") = false ->
  configured (DISCORD_TOKEN env) = false ->
  Discord.fetch (post authorization user body) env w =
    (Ok (internal_error (UserError "DISCORD_TOKEN is required")), w) /\
  error_member (internal_error (UserError "DISCORD_TOKEN is required")) "data" =
    Some (VStr "DISCORD_TOKEN is required").
Proof.
  intros U J M N C. apply field_get in J, M. split; [|reflexivity].
  pose proof (fetch_post DiscordServer authorization user body env U) as F.
  simpl in F. rewrite F, discord_serve.
  apply boundary_throws; [assumption|].
  rewrite discord_dispatch_call by assumption.
  unfold Discord.handleToolCall. run.
  rewrite destructure_get, (get_total _ "name"), (get_total _ "arguments") by assumption.
  now rewrite C.
Qed.

Lemma discord_tool_call_needs_token_witness :
  let body := rpc "tools/call" (tool_call "no_such_tool" VUndef) (VNum 2) in
  let w := world None None (Ok forbidden) in
  let e := UserError "DISCORD_TOKEN is required" in
  Discord.unauthorized (post None None body) open_env = false /\
  is_str (field body "jsonrpc") "2.0" = true /\
  is_str (field body "method") "tools/call" = true /\
  nullish (field body "params") = false /\
  configured (DISCORD_TOKEN open_env) = false /\
  @Discord.fetch plain_runtime (post None None body) open_env w =
    (Ok (@internal_error plain_runtime e), w) /\
  error_member (@internal_error plain_runtime e) "data" =
    Some (VStr "DISCORD_TOKEN is required").
Proof.
  split; [reflexivity|]. split; [reflexivity|]. split; [reflexivity|].
  split; [reflexivity|]. split; [reflexivity|].
  apply (@discord_tool_call_needs_token plain_runtime None None
           (rpc "tools/call" (tool_call "no_such_tool" VUndef) (VNum 2)) open_env);
    reflexivity.
Defined.

Local Opaque Discord.pick Discord.makeDiscordRequest.





Local Transparent Discord.pick Discord.makeDiscordRequest.






Local Opaque Discord.pick Discord.makeDiscordRequest.



Local Transparent Discord.pick Discord.makeDiscordRequest.


(** ** The filesystem wrapper and the compiled server *)

(** X12.  When the compiled server cannot be imported, the filesystem
    wrapper answers every POST to / that carries the protocol marker,
    [initialize] and [tools/list] included, with status 500 and the
    -32603 envelope "Server integration in progress"; the id is
    [body.id || null], and the world is unchanged. *)
Theorem filesystem_needs_compiled_server `{Runtime} (authorization user : option string)
    (body : value) (env : Env) (w : World) :
  Memory.unauthorized (post authorization user body) env = false ->
  is_str (field body "jsonrpc") "2.0" = true ->
  dist_importable env = false ->
  Filesystem.fetch (post authorization user body) env w =
    (Ok (integration_pending (or_else (field body "id") VNull)), w) /\
  failure (-32603) (integration_pending (or_else (field body "id") VNull)).
Proof.
  intros U J D. apply field_get in J. split.
  - pose proof (fetch_post FilesystemServer authorization user body env U) as F.
    simpl in F. rewrite F.
    unfold Filesystem.serve, Filesystem.import_dist. run.
    rewrite J, D. simpl.
    rewrite (get_total body "id") by (eapply get_not_nullish; eauto).
    reflexivity.
  - apply integration_pending_is_failure.
Qed.

Lemma filesystem_needs_compiled_server_witness :
  let body := rpc "tools/list" VUndef (VNum 0) in
  let w := world None None offline in
  Memory.unauthorized (post None None body) open_env = false /\
  is_str (field body "jsonrpc") "2.0" = true /\
  dist_importable open_env = false /\
  @Filesystem.fetch plain_runtime (post None None body) open_env w =
    (Ok (integration_pending (or_else (field body "id") VNull)), w) /\
  failure (-32603) (integration_pending (or_else (field body "id") VNull)).
Proof.
  split; [reflexivity|]. split; [reflexivity|]. split; [reflexivity|].
  apply (@filesystem_needs_compiled_server plain_runtime None None
           (rpc "tools/list" VUndef (VNum 0)) open_env);
    reflexivity.
Defined.

(** X13.  When the compiled server can be imported, a [tools/call] of
    the filesystem wrapper for [read_file] or [write_file] is answered
    200 with one of two fixed texts, whatever the arguments, under the
    id of the request, and the world is unchanged: no file is read or
    written. *)
Theorem filesystem_tools_are_placeholders `{Runtime} (authorization user : option string)
    (body : value) (env : Env) (w : World) :
  Memory.unauthorized (post authorization user body) env = false ->
  is_str (field body "jsonrpc") "2.0" = true ->
  is_str (field body "method") "tools/call" = true ->
  known_tool FilesystemServer (field (field body "params") "name") = true ->
  dist_importable env = true ->
  exists text,
    Filesystem.fetch (post authorization user body) env w =
      (Ok (json_response 200 (rpc_result (text_result text) (field body "id"))), w) /\
    (text = "File operations in Workers require adaptation to cloud storage APIs" \/
     text = "File write operations in Workers require adaptation to cloud storage APIs").
Proof.
  intros U J M K D. apply field_get in J, M.
  pose proof (known_tool_params _ _ K) as N.
  pose proof (fetch_post FilesystemServer authorization user body env U) as F.
  simpl in F. rewrite F.
  unfold Filesystem.serve, Filesystem.import_dist. run.
  rewrite J, D. simpl.
  rewrite (filesystem_dispatch_call body env w M).
  unfold Filesystem.handleFilesystemToolCall. run.
  rewrite destructure_get, (get_total _ "name"), (get_total _ "arguments") by assumption.
  rewrite (get_total body "id") by (eapply get_not_nullish; eauto).
  unfold known_tool in K. simpl in K.
  destruct (is_str _ "read_file"); simpl; [eauto|].
  destruct (is_str _ "write_file"); simpl; [eauto|discriminate].
Qed.

Lemma filesystem_tools_are_placeholders_witness :
  let body := rpc "tools/call"
                (tool_call "write_file"
                   (VObj [("path", VStr "/etc/motd"); ("content", VStr "hello")]))
                (VNum 4) in
  let env := {| JWT_SECRET := None; API_KEY := None; SERVICE_KEY := None;
                DISCORD_TOKEN := None; dist_importable := true |} in
  let w := world None None offline in
  Memory.unauthorized (post None None body) env = false /\
  is_str (field body "jsonrpc") "2.0" = true /\
  is_str (field body "method") "tools/call" = true /\
  known_tool FilesystemServer (field (field body "params") "name") = true /\
  dist_importable env = true /\
  exists text,
    @Filesystem.fetch plain_runtime (post None None body) env w =
      (Ok (json_response 200 (rpc_result (text_result text) (field body "id"))), w) /\
    (text = "File operations in Workers require adaptation to cloud storage APIs" \/
     text = "File write operations in Workers require adaptation to cloud storage APIs").
Proof.
  split; [reflexivity|]. split; [reflexivity|]. split; [reflexivity|].
  split; [reflexivity|]. split; [reflexivity|].
  apply (@filesystem_tools_are_placeholders plain_runtime None None
           (rpc "tools/call"
              (tool_call "write_file"
                 (VObj [("path", VStr "/etc/motd"); ("content", VStr "hello")]))
              (VNum 4)));
    reflexivity.
Defined.


(** ** The branches of the memory tool handler *)

Lemma truthy_document (v : value) : truthy (JSON_document v) = truthy v.
Proof. destruct v; reflexivity. Qed.

Lemma store_entity_truthy (graph entity graph' : value) :
  Memory.store_entity graph entity = Ok graph' -> truthy graph = true -> truthy graph' = true.
Proof.
  unfold Memory.store_entity, Memory.with_entities.
  destruct (get graph "entities"); simpl; [|discriminate].
  destruct (get entity "name"); simpl; [|discriminate].
  destruct (get entity "entityType"); simpl; [|discriminate].
  destruct (get entity "observations"); simpl; [|discriminate].
  destruct (assign _ _ _); simpl; [|discriminate].
  intros E. injection E as <-. now destruct graph.
Qed.

Lemma store_entities_truthy (items : list value) :
  forall graph graph',
  Memory.store_entities graph items = Ok graph' -> truthy graph = true ->
  truthy graph' = true.
Proof.
  induction items as [|e items IH]; intros graph graph'; simpl.
  - now intros [= <-].
  - destruct (Memory.store_entity graph e) as [g|x] eqn:E; simpl; [|discriminate].
    intros S T. eapply IH; [eassumption|]. eapply store_entity_truthy; eassumption.
Qed.

Lemma truthy_or_else (v : value) : truthy (or_else v Memory.empty_graph) = true.
Proof. unfold or_else. destruct (truthy v) eqn:T; [assumption|reflexivity]. Qed.

(** The two ways the [create_entities] branch ends. *)
Lemma create_entities_cases `{Runtime} (key : string) (args : value) (w : World) :
  (exists text, Memory.create_entities key args w = (Ok (error_result text), w)) \/
  (exists s graph n,
     MEMORY_KV w = Some s /\ truthy graph = true /\
     Memory.create_entities key args w =
       (Ok (text_result ("Created " +:+ n +:+ " entities")),
        set_kv MEMORY (<[key := JSON_document graph]> s) w)).
Proof.
  unfold Memory.create_entities, KV_get, KV_put.
  with_strategy opaque [JSON_document] run.
  destruct (MEMORY_KV w) as [s|] eqn:K; with_strategy opaque [JSON_document] simpl;
    [|left; eauto].
  destruct (get args "entities") as [entities|e];
    with_strategy opaque [JSON_document] simpl; [|left; eauto].
  destruct (iterate entities) as [items|e] eqn:I;
    with_strategy opaque [JSON_document] simpl; [|left; eauto].
  destruct (Memory.store_entities _ items) as [graph|e] eqn:S;
    with_strategy opaque [JSON_document] simpl; [|left; eauto].
  rewrite K. with_strategy opaque [JSON_document] simpl.
  right. exists s, graph.
  assert (T : truthy graph = true).
  { eapply store_entities_truthy; [eassumption|apply truthy_or_else]. }
  destruct entities; try discriminate; with_strategy opaque [JSON_document] simpl; eauto.
Qed.

Lemma only_graph_refl (key : string) (w : World) : only_graph key w w.
Proof. unfold only_graph. repeat split. now destruct (MEMORY_KV w). Qed.

(** X14.  The [create_entities] branch never throws and stores all or
    nothing: it returns either an error result, and then the world is
    unchanged, or "Created <n> entities", and then only the entry of
    the memory namespace under the storage key was replaced, by a
    graph that is a JSON document.  The other keys, the other
    namespace, the clock and the outbound requests are as before. *)
Theorem create_entities_all_or_nothing `{Runtime} (key : string) (args : value) (w : World) :
  exists v w',
    Memory.create_entities key args w = (Ok v, w') /\
    only_graph key w w' /\
    ((exists text, v = error_result text) /\ w' = w \/
     (exists n, v = text_result ("Created " +:+ n +:+ " entities")) /\
     exists graph,
       stored MEMORY key w' = Some graph /\ JSON_document graph = graph).
Proof.
  destruct (create_entities_cases key args w) as [[text E]|(s & graph & n & K & T & E)];
    rewrite E.
  - eexists _, _. split; [reflexivity|]. split; [apply only_graph_refl|]. left. eauto.
  - eexists _, _. split; [reflexivity|]. split.
    + unfold only_graph. rewrite K. simpl. repeat split.
      intros k N. now apply lookup_insert_ne.
    + right. split; [eauto|]. exists (JSON_document graph).
      unfold stored. simpl. rewrite lookup_insert_eq.
      split; [reflexivity|apply JSON_document_idempotent].
Qed.

(** X15.  Read after write: once the [create_entities] branch has
    answered without error, the [read_graph] branch for the same key
    answers with the indented JSON text of exactly the graph that is
    stored under the key, and changes nothing. *)
Theorem read_graph_after_create_entities `{Runtime} (key : string) (args : value)
    (w : World) (text : string) :
  fst (Memory.create_entities key args w) = Ok (text_result text) ->
  exists graph,
    stored MEMORY key (filed key args w) = Some graph /\
    Memory.read_graph key (filed key args w) =
      (Ok (text_result (JSON_stringify_indented graph)), filed key args w).
Proof.
  unfold filed.
  destruct (create_entities_cases key args w) as [[t E]|(s & graph & n & K & T & E)];
    rewrite E; cbn [fst snd].
  - discriminate.
  - intros _. exists (JSON_document graph).
    unfold stored, Memory.read_graph, KV_get.
    with_strategy opaque [JSON_document] run.
    rewrite lookup_insert_eq. split; [reflexivity|].
    with_strategy opaque [JSON_document] simpl.
    unfold or_else. now rewrite truthy_document, T.
Qed.

Lemma read_graph_after_create_entities_witness :
  let args := VObj [("entities", VArr [entity "ada" "person"])] in
  let w := world (Some ∅) None offline in
  fst (@Memory.create_entities plain_runtime "memory:default" args w) =
    Ok (text_result "Created 1 entities") /\
  exists graph,
    stored MEMORY "memory:default" (@filed plain_runtime "memory:default" args w) = Some graph /\
    @Memory.read_graph plain_runtime "memory:default"
      (@filed plain_runtime "memory:default" args w) =
      (Ok (text_result (@JSON_stringify_indented plain_runtime graph)),
       @filed plain_runtime "memory:default" args w).
Proof.
  split; [reflexivity|].
  apply (@read_graph_after_create_entities plain_runtime "memory:default"
           (VObj [("entities", VArr [entity "ada" "person"])])
           (world (Some ∅) None offline) "Created 1 entities").
  reflexivity.
Defined.

Lemma own_document (o : list (string * value)) (k : string) :
  own (map document_pair o) k = JSON_document <$> own o k.
Proof.
  induction o as [|[k' v] o IH]; simpl; [reflexivity|].
  destruct (String.eqb k' k); [reflexivity|assumption].
Qed.

Lemma combine_split (items1 items2 : list value) (names1 names2 : list string)
    (e : value) (n : string) :
  length items1 = length names1 ->
  combine (items1 ++ e :: items2) (names1 ++ n :: names2) =
  combine items1 names1 ++ (e, n) :: combine items2 names2.
Proof.
  revert names1. induction items1 as [|x items1 IH]; intros [|y names1] L;
    simpl in *; try discriminate; [reflexivity|].
  f_equal. apply IH. now injection L.
Qed.

(** X16.  The [create_entities] branch upserts: on a stored graph made
    of an entity mapping (empty when nothing is stored), after the run
    an entity whose name no descriptor carries is as it was, a name
    carried by descriptors holds the record of the last of them, and a
    descriptor named "__proto__" leaves no entry. *)
Theorem create_entities_upserts `{Runtime} (key : string) (args : value)
    (items : list value) (names : list string) (w : World) (s : gmap string value)
    (entities : list (string * value)) :
  MEMORY_KV w = Some s ->
  or_else (default VNull (s !! key)) Memory.empty_graph = graph_with entities ->
  defined entities ->
  get args "entities" = Ok (VArr items) ->
  map entity_name items = map Some names ->
  exists entities',
    stored MEMORY key (filed key args w) = Some (graph_with entities') /\
    (forall k, k ∉ names -> own entities' k = JSON_document <$> own entities k) /\
    (forall items1 items2 names1 names2 e n,
       items = items1 ++ e :: items2 -> names = names1 ++ n :: names2 ->
       length items1 = length names1 ->
       n <> "__proto__" -> n ∉ names2 ->
       own entities' n = Some (JSON_document (record_of e))) /\
    (has_own entities "__proto__" = false -> own entities' "__proto__" = None).
Proof.
  intros K S D G E.
  assert (L : length items = length names).
  { apply (f_equal (@length _)) in E. now rewrite !length_map in E. }
  set (filed_entities := file_all entities items names).
  assert (Df : defined filed_entities) by now apply file_pairs_defined.
  exists (map document_pair filed_entities).
  unfold filed. rewrite (create_entities_run key args items names w s entities K S G E).
  fold filed_entities. split; [|split; [|split]].
  - unfold stored. simpl. rewrite lookup_insert_eq.
    rewrite <- (document_props_defined _ Df). reflexivity.
  - intros k N. rewrite own_document. f_equal.
    apply own_file_unwritten. left. now rewrite names_of_combine.
  - intros items1 items2 names1 names2 e n -> -> L1 P N.
    rewrite own_document. unfold filed_entities, file_all.
    rewrite combine_split by assumption.
    rewrite file_pairs_last_write; [reflexivity|assumption|].
    rewrite names_of_combine; [assumption|].
    rewrite !length_app in L. simpl in L. lia.
  - intros P. rewrite own_document.
    unfold filed_entities, file_all.
    rewrite own_file_unwritten by (right; auto).
    apply has_own_none in P. now rewrite P.
Qed.

Lemma create_entities_upserts_witness :
  let items := [entity "ada" "person"; entity "__proto__" "x"; entity "ada" "pioneer"] in
  let names := ["ada"; "__proto__"; "ada"] in
  let args := VObj [("entities", VArr items)] in
  let entities := [("bob", record_of (entity "bob" "person"))] in
  let s : gmap string value := {["memory:default" := graph_with entities]} in
  let w := world (Some s) None offline in
  MEMORY_KV w = Some s /\
  or_else (default VNull (s !! "memory:default")) Memory.empty_graph = graph_with entities /\
  defined entities /\
  get args "entities" = Ok (VArr items) /\
  map entity_name items = map Some names /\
  exists entities',
    stored MEMORY "memory:default" (@filed plain_runtime "memory:default" args w)
      = Some (graph_with entities') /\
    (forall k, k ∉ names -> own entities' k = JSON_document <$> own entities k) /\
    (forall items1 items2 names1 names2 e n,
       items = items1 ++ e :: items2 -> names = names1 ++ n :: names2 ->
       length items1 = length names1 ->
       n <> "__proto__" -> n ∉ names2 ->
       own entities' n = Some (JSON_document (record_of e))) /\
    (has_own entities "__proto__" = false -> own entities' "__proto__" = None).
Proof.
  split; [reflexivity|]. split; [reflexivity|].
  assert (D : defined [("bob", record_of (entity "bob" "person"))]).
  { constructor; [discriminate|constructor]. }
  split; [exact D|]. split; [reflexivity|]. split; [reflexivity|].
  apply (@create_entities_upserts plain_runtime "memory:default" _ _ _ _
           {["memory:default" := graph_with [("bob", record_of (entity "bob" "person"))]]});
    try reflexivity.
  exact D.
Defined.

(** X17.  The [create_entities] branch is idempotent on any stored
    graph made of an entity mapping with distinct keys: run a second
    time with the same arguments, it leaves the world as the first run
    left it and gives the same answer. *)
Theorem create_entities_is_idempotent `{Runtime} (key : string) (args : value)
    (items : list value) (names : list string) (w : World) (s : gmap string value)
    (entities : list (string * value)) :
  MEMORY_KV w = Some s ->
  or_else (default VNull (s !! key)) Memory.empty_graph = graph_with entities ->
  defined entities ->
  NoDup (keys entities) ->
  get args "entities" = Ok (VArr items) ->
  map entity_name items = map Some names ->
  filed key args (filed key args w) = filed key args w /\
  fst (Memory.create_entities key args (filed key args w)) =
  fst (Memory.create_entities key args w).
Proof.
  intros K S D N G E.
  set (named := combine items names).
  set (first := file_all entities items names).
  assert (D1 : defined first) by now apply file_pairs_defined.
  pose proof (create_entities_run key args items names w s entities K S G E) as R1.
  fold first in R1.
  unfold filed. rewrite R1. cbn [fst snd].
  set (s1 := <[key := JSON_document (graph_with first)]> s).
  assert (K1 : MEMORY_KV (set_kv MEMORY s1 w) = Some s1) by reflexivity.
  assert (S1 : or_else (default VNull (s1 !! key)) Memory.empty_graph
               = graph_with (document_props first)).
  { subst s1. rewrite lookup_insert_eq. reflexivity. }
  rewrite (create_entities_run key args items names _ s1 _ K1 S1 G E).
  cbn [fst snd]. split; [|reflexivity].
  unfold set_kv. simpl. f_equal.
  f_equal. subst s1. rewrite insert_insert_eq. f_equal.
  rewrite !document_graph. f_equal.
  rewrite (document_props_defined first D1).
  unfold file_all. fold named.
  rewrite document_props_defined
    by (apply file_pairs_defined; now apply defined_document).
  rewrite (file_pairs_document named (map document_pair first) first)
    by apply document_pair_idempotent.
  unfold first, file_all. fold named.
  rewrite file_pairs_idempotent by assumption. reflexivity.
Qed.

Lemma create_entities_is_idempotent_witness :
  let items := [entity "ada" "person"; entity "7" "number"; entity "ada" "pioneer"] in
  let names := ["ada"; "7"; "ada"] in
  let args := VObj [("entities", VArr items)] in
  let entities := [("bob", record_of (entity "bob" "person"))] in
  let s : gmap string value := {["memory:default" := graph_with entities]} in
  let w := world (Some s) None offline in
  MEMORY_KV w = Some s /\
  or_else (default VNull (s !! "memory:default")) Memory.empty_graph = graph_with entities /\
  defined entities /\
  NoDup (keys entities) /\
  get args "entities" = Ok (VArr items) /\
  map entity_name items = map Some names /\
  @filed plain_runtime "memory:default" args (@filed plain_runtime "memory:default" args w)
    = @filed plain_runtime "memory:default" args w /\
  fst (@Memory.create_entities plain_runtime "memory:default" args
         (@filed plain_runtime "memory:default" args w)) =
  fst (@Memory.create_entities plain_runtime "memory:default" args w).
Proof.
  assert (D : defined [("bob", record_of (entity "bob" "person"))]).
  { constructor; [discriminate|constructor]. }
  assert (N : NoDup (keys [("bob", record_of (entity "bob" "person"))])) by compute_done.
  split; [reflexivity|]. split; [reflexivity|]. split; [exact D|]. split; [exact N|].
  split; [reflexivity|]. split; [reflexivity|].
  apply (@create_entities_is_idempotent plain_runtime "memory:default"
           (VObj [("entities",
                   VArr [entity "ada" "person"; entity "7" "number"; entity "ada" "pioneer"])])
           [entity "ada" "person"; entity "7" "number"; entity "ada" "pioneer"]
           ["ada"; "7"; "ada"]
           (world (Some {["memory:default" :=
                            graph_with [("bob", record_of (entity "bob" "person"))]]})
              None offline)
           {["memory:default" := graph_with [("bob", record_of (entity "bob" "person"))]]}
           [("bob", record_of (entity "bob" "person"))]);
    try reflexivity; assumption.
Defined.


(** ** The branches of the thinking tool handler *)

Ltac thinking_steps :=
  repeat match goal with
         | |- context [match get ?v ?k with _ => _ end] =>
             destruct (get v k) eqn:?; with_strategy opaque [JSON_document] simpl
         | |- context [if truthy ?v then _ else _] =>
             destruct (truthy v) eqn:?; with_strategy opaque [JSON_document] simpl
         | |- context [match to_string ?v with _ => _ end] =>
             destruct (to_string v) eqn:?; with_strategy opaque [JSON_document] simpl
         | |- context [match plus_one ?v with _ => _ end] =>
             destruct (plus_one v) eqn:?; with_strategy opaque [JSON_document] simpl
         | |- context [match push ?v ?e ?x with _ => _ end] =>
             destruct (push v e x) eqn:?; with_strategy opaque [JSON_document] simpl
         | K : THINKING_KV ?w = _ |- context [match THINKING_KV ?w with _ => _ end] =>
             rewrite K; with_strategy opaque [JSON_document] simpl
         end.

Lemma only_session_here (key : string) (w w' : World) :
  MEMORY_KV w' = MEMORY_KV w -> clock w' = clock w -> discord w' = discord w ->
  sent w' = sent w -> (reads w <= reads w')%nat ->
  THINKING_KV w' = THINKING_KV w \/
  (exists s doc, THINKING_KV w = Some s /\ THINKING_KV w' = Some (<[key := doc]> s)) ->
  only_session key w w'.
Proof.
  intros M C D S R T. unfold only_session. repeat split; try assumption.
  destruct T as [-> | (s & doc & -> & ->)].
  - now destruct (THINKING_KV w).
  - intros k N. now apply lookup_insert_ne.
Qed.

(** X18.  The [sequential_thinking] branch never throws: it returns a
    tool result, with or without [isError].  It leaves the memory
    namespace, the clock function and the outbound requests alone,
    reads the clock, and writes at most one key of the thinking
    namespace; when it returns an error result, it has written
    nothing. *)
Theorem sequential_thinking_is_contained `{Runtime} (userId args : value) (w : World) :
  exists v w',
    Thinking.sequential_thinking userId args w = (Ok v, w') /\
    tool_result v /\
    (exists key, only_session key w w') /\
    ((exists text, v = error_result text) -> THINKING_KV w' = THINKING_KV w).
Proof.
  unfold Thinking.sequential_thinking, KV_get_optional, KV_put_optional, now.
  with_strategy opaque [JSON_document] run.
  destruct (THINKING_KV w) as [s|] eqn:K; with_strategy opaque [JSON_document] simpl;
    thinking_steps;
    (eexists _, _; split; [reflexivity|]; split;
     [eexists; first [left; reflexivity | right; reflexivity]|]; split;
     [first [ exists ""; apply only_session_here; simpl; rewrite ?K;
              try reflexivity; try lia; left; reflexivity
            | eexists; apply only_session_here; simpl; rewrite ?K;
              try reflexivity; try lia; right; eauto ]
     |first [reflexivity | simpl; now rewrite K | intros [? ?]; discriminate]]).
Qed.

(** The first call for a session that is not stored yet creates it with
    one step. *)
Lemma sequential_thinking_first `{Runtime} (userId args : value) (user sid : string)
    (w : World) (s : gmap string value) :
  let key := "thinking:" +:+ user +:+ ":" +:+ sid in
  let w' := snd (Thinking.sequential_thinking userId args w) in
  THINKING_KV w = Some s ->
  to_string userId = Ok user ->
  sid <> "" ->
  continues sid args ->
  s !! key = None ->
  exists s' session' step,
    THINKING_KV w' = Some s' /\
    s' !! key = Some (VObj session') /\
    own session' "id" = Some (VStr sid) /\
    own session' "steps" = Some (VArr [step]) /\
    JSON_document (VArr [step]) = VArr [step] /\
    field step "id" = VStr "step_1" /\
    field step "thinking" = analysis args /\
    reads w' = (reads w + 3)%nat.
Proof.
  intros key w' K U S [G [q Q]] L.
  assert (N : nullish args = false) by (eapply get_not_nullish; eauto).
  assert (T : truthy (VStr sid) = true).
  { simpl. destruct sid; [contradiction|reflexivity]. }
  subst w'. unfold Thinking.sequential_thinking, KV_get_optional, KV_put_optional, now.
  with_strategy opaque [JSON_document] run.
  rewrite G. with_strategy opaque [JSON_document] simpl.
  rewrite T. with_strategy opaque [JSON_document] simpl.
  rewrite U. with_strategy opaque [JSON_document] simpl.
  fold key. rewrite K, L. with_strategy opaque [JSON_document] simpl.
  rewrite (get_total args "query") by assumption.
  with_strategy opaque [JSON_document] simpl.
  rewrite Q. with_strategy opaque [JSON_document] simpl.
  rewrite K. with_strategy opaque [JSON_document] simpl.
  match goal with
  | |- context [<[key := JSON_document (VObj ?o)]> s] => set (session1 := o)
  end.
  match goal with
  | _ := context [VArr [?x]] |- _ => set (step := x) in *
  end.
  assert (O1 : own session1 "steps" = Some (VArr [step])) by reflexivity.
  assert (O2 : own session1 "id" = Some (VStr sid)) by reflexivity.
  pose proof (get_document session1 "steps" _ O1 ltac:(discriminate)) as G1.
  pose proof (get_document session1 "id" _ O2 ltac:(discriminate)) as G2.
  change (JSON_document (VArr [step])) with (VArr [JSON_document step]) in G1.
  change (JSON_document (VStr sid)) with (VStr sid) in G2.
  destruct (document_object session1) as [session' J]. rewrite J in *.
  exists (<[key := VObj session']> s), session', (JSON_document step).
  split; [reflexivity|]. split; [apply lookup_insert_eq|].
  simpl in G1, G2. injection G1 as G1. injection G2 as G2.
  destruct (own session' "steps") as [x|] eqn:X; simpl in G1; [|discriminate].
  destruct (own session' "id") as [y|] eqn:Y; simpl in G2; [|discriminate].
  subst x y. split; [reflexivity|]. split; [reflexivity|]. split; [|split; [|split]].
  - change (VArr [JSON_document step]) with (JSON_document (VArr [step])).
    apply JSON_document_idempotent.
  - reflexivity.
  - unfold analysis. rewrite Q. subst step. clear.
    destruct (field args "query"); reflexivity.
  - simpl. lia.
Qed.

(** X19.  Calls of the [sequential_thinking] branch for a session id
    under which nothing is stored yet create the session with the
    first call and number the steps from step_1 in the order of the
    calls, one step per call, each step recording what its call is
    about. *)
Theorem new_session_counts_from_one `{Runtime} (userId : value) (user sid : string)
    (first : value) (rest : list value) (w : World) (s : gmap string value) :
  let key := "thinking:" +:+ user +:+ ":" +:+ sid in
  THINKING_KV w = Some s ->
  s !! key = None ->
  to_string userId = Ok user ->
  sid <> "" ->
  Forall (continues sid) (first :: rest) ->
  exists steps,
    stored_steps key (think_all userId (first :: rest) w) = Some steps /\
    length steps = length (first :: rest) /\
    forall (i : nat) (args : value),
      (first :: rest) !! i = Some args ->
      exists step,
        steps !! i = Some step /\
        field step "id" = VStr ("step_" +:+ pretty (Z.of_nat i + 1)) /\
        field step "thinking" = analysis args.
Proof.
  intros key K L U S C. apply Forall_cons in C as [C1 C].
  destruct (sequential_thinking_first userId first user sid w s K U S C1 L)
    as (s' & session' & step & K' & L' & _ & O' & D' & I & A & _).
  destruct (sequential_thinking_appends_in_order userId user sid rest U S C _ _ _ _
              K' L' O' D') as (added & E & N & P).
  exists (step :: added). simpl. split; [exact E|]. split; [now rewrite N|].
  intros [|i] a Ei; simpl in Ei.
  - injection Ei as <-. exists step. auto.
  - destruct (P i a Ei) as (x & X & Ix & Ax). exists x. repeat split; assumption.
Qed.

Lemma new_session_counts_from_one_witness :
  let call q := VObj [("session_id", VStr "s1"); ("query", VStr q)] in
  let w := world None (Some ∅) offline in
  let key := "thinking:" +:+ "default" +:+ ":" +:+ "s1" in
  THINKING_KV w = Some ∅ /\
  (∅ : gmap string value) !! key = None /\
  to_string (VStr "default") = Ok "default" /\
  "s1" <> "" /\
  Forall (continues "s1") [call "why"; call "how"] /\
  exists steps,
    stored_steps key (@think_all plain_runtime (VStr "default") [call "why"; call "how"] w)
      = Some steps /\
    length steps = length [call "why"; call "how"] /\
    forall (i : nat) (args : value),
      [call "why"; call "how"] !! i = Some args ->
      exists step,
        steps !! i = Some step /\
        field step "id" = VStr ("step_" +:+ pretty (Z.of_nat i + 1)) /\
        field step "thinking" = analysis args.
Proof.
  assert (C : Forall (continues "s1")
                [VObj [("session_id", VStr "s1"); ("query", VStr "why")];
                 VObj [("session_id", VStr "s1"); ("query", VStr "how")]]).
  { repeat constructor; eexists; reflexivity. }
  split; [reflexivity|]. split; [reflexivity|]. split; [reflexivity|].
  split; [discriminate|]. split; [exact C|].
  apply (@new_session_counts_from_one plain_runtime (VStr "default") "default" "s1"
           _ _ (world None (Some ∅) offline) ∅);
    try reflexivity; [discriminate|exact C].
Defined.

(** X20.  A call of the [sequential_thinking] branch without a session
    id (absent or falsy) names the session after the clock:
    "session_<Date.now()>".  The session is stored under
    thinking:<user>:session_<t> with that id, the answer reports step_1
    and the same id, and the clock was read four times. *)
Theorem session_id_defaults_to_clock `{Runtime} (userId args : value) (user q : string)
    (w : World) (s : gmap string value) :
  let sid := "session_" +:+ pretty (clock w (reads w)) in
  let key := "thinking:" +:+ user +:+ ":" +:+ sid in
  let w' := snd (Thinking.sequential_thinking userId args w) in
  THINKING_KV w = Some s ->
  s !! key = None ->
  to_string userId = Ok user ->
  nullish args = false ->
  truthy (field args "session_id") = false ->
  to_string (field args "query") = Ok q ->
  fst (Thinking.sequential_thinking userId args w) =
    Ok (text_result (report "step_1" q sid)) /\
  reads w' = (reads w + 4)%nat /\
  exists session,
    stored THINKING key w' = Some (VObj session) /\
    own session "id" = Some (VStr sid).
Proof.
  intros sid key w' K L U N T Q.
  subst w'. unfold Thinking.sequential_thinking, KV_get_optional, KV_put_optional, now.
  with_strategy opaque [JSON_document] run.
  rewrite (get_total args "session_id") by assumption.
  with_strategy opaque [JSON_document] simpl.
  rewrite T. with_strategy opaque [JSON_document] simpl.
  rewrite U. with_strategy opaque [JSON_document] simpl.
  fold sid. fold key. rewrite K, L. with_strategy opaque [JSON_document] simpl.
  rewrite (get_total args "query") by assumption.
  with_strategy opaque [JSON_document] simpl.
  rewrite Q. with_strategy opaque [JSON_document] simpl.
  rewrite ?K. with_strategy opaque [JSON_document] simpl.
  split; [reflexivity|]. split; [lia|].
  match goal with
  | |- context [<[key := JSON_document (VObj ?o)]> s] => set (session1 := o)
  end.
  assert (O2 : own session1 "id" = Some (VStr sid)) by reflexivity.
  pose proof (get_document session1 "id" _ O2 ltac:(discriminate)) as G2.
  change (JSON_document (VStr sid)) with (VStr sid) in G2.
  destruct (document_object session1) as [session' J]. rewrite J in *.
  exists session'. unfold stored. simpl. rewrite lookup_insert_eq.
  split; [reflexivity|].
  simpl in G2. injection G2 as G2.
  destruct (own session' "id") as [y|] eqn:Y; simpl in G2; [|discriminate].
  now subst y.
Qed.

Lemma session_id_defaults_to_clock_witness :
  let args := VObj [("query", VStr "why")] in
  let w := world None (Some ∅) offline in
  let sid := "session_" +:+ pretty (clock w (reads w)) in
  let key := "thinking:" +:+ "default" +:+ ":" +:+ sid in
  let w' := snd (@Thinking.sequential_thinking plain_runtime (VStr "default") args w) in
  THINKING_KV w = Some ∅ /\
  (∅ : gmap string value) !! key = None /\
  to_string (VStr "default") = Ok "default" /\
  nullish args = false /\
  truthy (field args "session_id") = false /\
  to_string (field args "query") = Ok "why" /\
  fst (@Thinking.sequential_thinking plain_runtime (VStr "default") args w) =
    Ok (text_result (report "step_1" "why" sid)) /\
  reads w' = (reads w + 4)%nat /\
  exists session,
    stored THINKING key w' = Some (VObj session) /\
    own session "id" = Some (VStr sid).
Proof.
  split; [reflexivity|]. split; [reflexivity|]. split; [reflexivity|].
  split; [reflexivity|]. split; [reflexivity|]. split; [reflexivity|].
  apply (@session_id_defaults_to_clock plain_runtime (VStr "default")
           (VObj [("query", VStr "why")]) "default" "why"
           (world None (Some ∅) offline) ∅);
    reflexivity.
Defined.

(** X21.  Without a THINKING_KV binding the [sequential_thinking]
    branch still answers without error: it reports step_1 for the
    given session, whatever was asked before, reads the clock three
    times and stores nothing. *)
Theorem thinking_without_namespace `{Runtime} (userId args : value) (user sid q : string)
    (w : World) :
  THINKING_KV w = None ->
  to_string userId = Ok user ->
  sid <> "" ->
  get args "session_id" = Ok (VStr sid) ->
  to_string (field args "query") = Ok q ->
  Thinking.sequential_thinking userId args w =
    (Ok (text_result (report "step_1" q sid)), after_reading 3 w).
Proof.
  intros K U S G Q.
  assert (N : nullish args = false) by (eapply get_not_nullish; eauto).
  assert (T : truthy (VStr sid) = true).
  { simpl. destruct sid; [contradiction|reflexivity]. }
  unfold Thinking.sequential_thinking, KV_get_optional, KV_put_optional, now, after_reading.
  with_strategy opaque [JSON_document] run.
  rewrite G. with_strategy opaque [JSON_document] simpl.
  rewrite T. with_strategy opaque [JSON_document] simpl.
  rewrite U. with_strategy opaque [JSON_document] simpl.
  rewrite K. with_strategy opaque [JSON_document] simpl.
  rewrite (get_total args "query") by assumption.
  with_strategy opaque [JSON_document] simpl.
  rewrite Q. with_strategy opaque [JSON_document] simpl.
  rewrite ?K. with_strategy opaque [JSON_document] simpl.
  do 2 f_equal. f_equal; lia.
Qed.

Lemma thinking_without_namespace_witness :
  let args := VObj [("session_id", VStr "s1"); ("query", VStr "why")] in
  let w := world None None offline in
  THINKING_KV w = None /\
  to_string (VStr "default") = Ok "default" /\
  "s1" <> "" /\
  get args "session_id" = Ok (VStr "s1") /\
  to_string (field args "query") = Ok "why" /\
  @Thinking.sequential_thinking plain_runtime (VStr "default") args w =
    (Ok (text_result (report "step_1" "why" "s1")), after_reading 3 w).
Proof.
  split; [reflexivity|]. split; [reflexivity|]. split; [discriminate|].
  split; [reflexivity|]. split; [reflexivity|].
  apply (@thinking_without_namespace plain_runtime (VStr "default")
           (VObj [("session_id", VStr "s1"); ("query", VStr "why")]) "default" "s1" "why");
    try reflexivity.
  discriminate.
Defined.


(** ** The "everything" proxy *)

Ltac names :=
  unfold Everything.same_name in *;
  repeat match goal with
         | H : String.eqb _ _ = true |- _ => apply String.eqb_eq in H
         | H : String.eqb _ _ = false |- _ => apply String.eqb_neq in H
         end;
  congruence.

Lemma named_header_set (n k v : string) (hs : list (string * string)) :
  named n (Everything.header_set k v hs) =
  if Everything.same_name k n then [(k, v)] else named n hs.
Proof.
  unfold named, Everything.header_set. rewrite List.filter_app. simpl.
  destruct (Everything.same_name k n) eqn:E.
  - rewrite <- (app_nil_l [(k, v)]) at 2. f_equal.
    induction hs as [|[a b] hs IH]; simpl; [reflexivity|].
    destruct (Everything.same_name a k) eqn:A; simpl; [assumption|].
    destruct (Everything.same_name a n) eqn:X; [exfalso; names|assumption].
  - rewrite app_nil_r.
    induction hs as [|[a b] hs IH]; simpl; [reflexivity|].
    destruct (Everything.same_name a k) eqn:A; simpl.
    + destruct (Everything.same_name a n) eqn:X; [exfalso; names|assumption].
    + now rewrite IH.
Qed.

Lemma is_cors_same (a b : string) :
  Everything.same_name a b = true -> is_cors a = is_cors b.
Proof.
  intros E. unfold is_cors. induction corsHeaders as [|[c v] l IH]; simpl; [reflexivity|].
  rewrite IH. f_equal.
  destruct (Everything.same_name a c) eqn:A, (Everything.same_name b c) eqn:B;
    try reflexivity; exfalso; names.
Qed.

Lemma other_header_set (k v : string) (hs : list (string * string)) :
  is_cors k = true ->
  other_headers (Everything.header_set k v hs) = other_headers hs.
Proof.
  intros C. unfold other_headers, Everything.header_set.
  rewrite List.filter_app. simpl. rewrite C. simpl. rewrite app_nil_r.
  induction hs as [|[a b] hs IH]; simpl; [reflexivity|].
  destruct (Everything.same_name a k) eqn:A; simpl.
  - rewrite (is_cors_same a k A), C. simpl. assumption.
  - now rewrite IH.
Qed.

Lemma with_cors_named (hs : list (string * string)) (name value : string) :
  In (name, value) corsHeaders -> named name (Everything.with_cors hs) = [(name, value)].
Proof.
  unfold Everything.with_cors, corsHeaders. simpl.
  intros [E|[E|[E|[E|[]]]]]; injection E as <- <-;
    repeat (rewrite named_header_set; simpl); reflexivity.
Qed.

Lemma with_cors_others (hs : list (string * string)) :
  other_headers (Everything.with_cors hs) = other_headers hs.
Proof.
  unfold Everything.with_cors, corsHeaders. simpl.
  now rewrite !other_header_set by reflexivity.
Qed.

(** X22.  When [handleRequest] of the compiled server returns a
    response that the [Response] constructor accepts, the "everything"
    proxy answers with its status and its body; each of the four CORS
    headers is present exactly once with the wrapper's value
    (Content-Type becomes application/json whatever the body is), the
    name compared without regard to case, and the other headers are
    those of the original response. *)
Theorem proxied_answer_gets_cors_headers
    (handleRequest : Request -> Env -> M (option Response))
    (request : Request) (env : Env) (w w' : World) (r : Response) :
  req_method request <> "OPTIONS" ->
  Memory.unauthorized request env = false ->
  req_pathname request <> "/health" ->
  handleRequest request env w = (Ok (Some r), w') ->
  Everything.accepted r = true ->
  exists response,
    Everything.fetch (Everything.WithHandler handleRequest) request env w
      = (Ok response, w') /\
    status response = status r /\
    body response = body r /\
    (forall name value,
       In (name, value) corsHeaders -> named name (headers response) = [(name, value)]) /\
    other_headers (headers response) = other_headers (headers r).
Proof.
  intros O U P E A. apply String.eqb_neq in O, P.
  unfold Everything.fetch, Everything.proxy. rewrite O, U, P, E, A.
  eexists. split; [reflexivity|]. simpl. repeat split.
  - intros name value. apply with_cors_named.
  - apply with_cors_others.
Qed.

Lemma proxied_answer_gets_cors_headers_witness :
  let r := {| status := 404;
              headers := [("content-type", "text/html"); ("X-Trace", "1")];
              body := Text "no such page" |} in
  let handleRequest := fun (_ : Request) (_ : Env) => ret (Some r) in
  let request := {| req_method := "GET"; req_pathname := "/sse"; req_authorization := None;
                    req_user_id := None; req_json := None |} in
  let w := world None None offline in
  req_method request <> "OPTIONS" /\
  Memory.unauthorized request open_env = false /\
  req_pathname request <> "/health" /\
  handleRequest request open_env w = (Ok (Some r), w) /\
  Everything.accepted r = true /\
  exists response,
    Everything.fetch (Everything.WithHandler handleRequest) request open_env w
      = (Ok response, w) /\
    status response = status r /\
    body response = body r /\
    (forall name value,
       In (name, value) corsHeaders -> named name (headers response) = [(name, value)]) /\
    other_headers (headers response) = other_headers (headers r).
Proof.
  split; [discriminate|]. split; [reflexivity|]. split; [discriminate|].
  split; [reflexivity|]. split; [reflexivity|].
  apply (proxied_answer_gets_cors_headers
           (fun (_ : Request) (_ : Env) =>
              ret (Some {| status := 404;
                           headers := [("content-type", "text/html"); ("X-Trace", "1")];
                           body := Text "no such page" |})));
    try reflexivity; discriminate.
Defined.

(** X23.  For a request that is not a preflight, passes the bearer
    check and is not for /health, whatever its method and path, the
    "everything" proxy never throws: unless [handleRequest] returned a
    response the [Response] constructor accepts, the answer is the
    fixed 500 / -32603 envelope with id null, whose data is a fixed
    text and not the message of the exception.  What a failed
    [handleRequest] did to the world stays done. *)
Theorem everything_proxies_or_falls_back (original : Everything.Dist)
    (request : Request) (env : Env) (w : World) :
  req_method request <> "OPTIONS" ->
  Memory.unauthorized request env = false ->
  req_pathname request <> "/health" ->
  (exists handleRequest r w',
     original = Everything.WithHandler handleRequest /\
     handleRequest request env w = (Ok (Some r), w') /\
     Everything.accepted r = true) \/
  (fst (Everything.fetch original request env w) = Ok Everything.fallback /\
   failure (-32603) Everything.fallback /\
   response_id Everything.fallback = Some VNull /\
   error_member Everything.fallback "data" =
     Some (VStr "Original server integration pending proper build setup") /\
   match original with
   | Everything.WithHandler handleRequest =>
       snd (Everything.fetch original request env w) = snd (handleRequest request env w)
   | _ => snd (Everything.fetch original request env w) = w
   end).
Proof.
  intros O U P. apply String.eqb_neq in O, P.
  assert (F : failure (-32603) Everything.fallback)
    by apply (error_envelope_is_failure (-32603)).
  unfold Everything.fetch, Everything.proxy. rewrite O, U, P.
  destruct original as [| |h]; try (right; repeat split; solve [reflexivity|apply F]).
  destruct (h request env w) as [[[r|]|e] w'] eqn:E; simpl;
    try (right; repeat split; solve [reflexivity|apply F]).
  destruct (Everything.accepted r) eqn:A.
  - left. exists h, r, w'. auto.
  - right. repeat split; solve [reflexivity|apply F].
Qed.

Lemma everything_proxies_or_falls_back_witness :
  let original := Everything.NotFound in
  let request := post None None (rpc "tools/list" VUndef (VNum 1)) in
  let w := world None None offline in
  req_method request <> "OPTIONS" /\
  Memory.unauthorized request open_env = false /\
  req_pathname request <> "/health" /\
  ((exists handleRequest r w',
      original = Everything.WithHandler handleRequest /\
      handleRequest request open_env w = (Ok (Some r), w') /\
      Everything.accepted r = true) \/
   (fst (Everything.fetch original request open_env w) = Ok Everything.fallback /\
    failure (-32603) Everything.fallback /\
    response_id Everything.fallback = Some VNull /\
    error_member Everything.fallback "data" =
      Some (VStr "Original server integration pending proper build setup") /\
    match original with
    | Everything.WithHandler handleRequest =>
        snd (Everything.fetch original request open_env w)
          = snd (handleRequest request open_env w)
    | _ => snd (Everything.fetch original request open_env w) = w
    end)).
Proof.
  split; [discriminate|]. split; [reflexivity|]. split; [discriminate|].
  apply (everything_proxies_or_falls_back Everything.NotFound
           (post None None (rpc "tools/list" VUndef (VNum 1))) open_env
           (world None None offline));
    try reflexivity; discriminate.
Defined.


(** ** The id and the headers of an answer *)

(** The answers the JSON-RPC layer of a wrapper can give to a body. *)
Lemma serve_shapes `{Runtime} (s : server) (request : Request) (body : value) (env : Env)
    (w w' : World) (response : Response) :
  req_json request = Some body ->
  serve_of s request env w = (Ok response, w') ->
  status response = 400 \/ status response = 500 \/
  exists result, response = json_response 200 (rpc_result result (field body "id")).
Proof.
  intros B.
  assert (P : forall dispatch,
    boundary dispatch request env w = (Ok response, w') ->
    status response = 400 \/ status response = 500 \/
    exists result, response = json_response 200 (rpc_result result (field body "id"))).
  { intros dispatch. run. rewrite B. simpl.
    destruct (get body "jsonrpc") as [m|e] eqn:G; simpl.
    2:{ intros [= <- _]. auto. }
    pose proof (get_not_nullish _ _ _ G) as N.
    rewrite (get_total body "id") by assumption.
    destruct (negb (truthy m) || negb (is_str m "2.0"))%bool; simpl.
    - intros [= <- _]. auto.
    - destruct (dispatch body env w) as [[result|e] w1]; simpl; intros [= <- _]; eauto. }
  destruct s; simpl; rewrite ?memory_serve, ?thinking_serve, ?discord_serve; try apply P.
  unfold Filesystem.serve, Filesystem.import_dist. run. rewrite B. simpl.
  destruct (get body "jsonrpc") as [m|e] eqn:G; simpl.
  2:{ intros [= <- _]. auto. }
  pose proof (get_not_nullish _ _ _ G) as N.
  rewrite (get_total body "id") by assumption.
  destruct (negb (truthy m) || negb (is_str m "2.0"))%bool; simpl.
  - intros [= <- _]. auto.
  - destruct (dist_importable env); simpl.
    + destruct (Filesystem.handleFilesystemRequest body env w) as [[result|e] w1]; simpl;
        intros [= <- _]; eauto.
    + intros [= <- _]. auto.
Qed.

(** X24.  Whenever one of the four wrappers answers a request with a
    JSON-RPC success, the id of the answer is the id of the request
    body as it is (0, the empty string and null included), and the
    answer has no id when the body has none. *)
Theorem success_echoes_id `{Runtime} (s : server) (request : Request) (body : value)
    (env : Env) (w w' : World) (response : Response) :
  req_json request = Some body ->
  fetch_of s request env w = (Ok response, w') ->
  success response ->
  response_id response =
    match field body "id" with
    | VUndef => None
    | id => Some (JSON_document id)
    end.
Proof.
  intros B F S.
  destruct (fetch_routes s request env w)
    as [[_ E]|[(_ & _ & text & E)|[(_ & _ & _ & service & E)|[(_ & _ & _ & E)|(_ & _ & _ & _ & E)]]]];
    rewrite E in F.
  - injection F as <- _. destruct S as ([J _] & _). discriminate.
  - injection F as <- _. destruct S as (_ & St & _). discriminate.
  - injection F as <- _. destruct S as ([J _] & _). discriminate.
  - destruct (serve_shapes s request body env w w' response B F) as [St|[St|[result ->]]].
    + destruct S as (_ & S2 & _). lia.
    + destruct S as (_ & S2 & _). lia.
    + unfold response_id, member. with_strategy opaque [JSON_document] simpl.
      destruct result, (field body "id"); reflexivity.
  - injection F as <- _. destruct S as ([J _] & _). discriminate.
Qed.

Lemma success_echoes_id_witness :
  let body := rpc "initialize" VUndef (VNum 0) in
  let request := post None None body in
  let w := world None None offline in
  let response := json_response 200 (rpc_result Discord.initialize (VNum 0)) in
  req_json request = Some body /\
  @fetch_of plain_runtime DiscordServer request open_env w = (Ok response, w) /\
  success response /\
  response_id response =
    match field body "id" with
    | VUndef => None
    | id => Some (JSON_document id)
    end.
Proof.
  assert (S : success (json_response 200 (rpc_result Discord.initialize (VNum 0)))).
  { apply result_is_success. discriminate. }
  split; [reflexivity|]. split; [reflexivity|]. split; [exact S|].
  apply (@success_echoes_id plain_runtime DiscordServer
           (post None None (rpc "initialize" VUndef (VNum 0)))
           (rpc "initialize" VUndef (VNum 0)) open_env
           (world None None offline) (world None None offline));
    [reflexivity|reflexivity|exact S].
Defined.

(** X25.  Every answer of the four wrappers other than the 404 carries
    exactly the CORS headers of the wrapper.  The 404 answer is the text
    "Not Found" with the default content type of a text body,
    text/plain;charset=UTF-8, as its only header: it has none of the
    three Access-Control headers, and its content type is not the
    application/json of the other answers. *)
Theorem cors_headers_except_not_found `{Runtime} (s : server) (request : Request)
    (env : Env) (w w' : World) (response : Response) :
  fetch_of s request env w = (Ok response, w') ->
  (response = text_response 404 "Not Found" /\
   headers response = [("content-type", "text/plain;charset=UTF-8")] /\
   (forall name,
      In name ["Access-Control-Allow-Origin"; "Access-Control-Allow-Methods";
               "Access-Control-Allow-Headers"] ->
      named name (headers response) = [])) \/
  (status response <> 404 /\ headers response = corsHeaders).
Proof.
  intros F.
  destruct (fetch_routes s request env w)
    as [[_ E]|[(_ & _ & text & E)|[(_ & _ & _ & service & E)|[(_ & _ & _ & E)|(_ & _ & _ & _ & E)]]]];
    rewrite E in F.
  - injection F as <- _. right. split; [simpl; lia|reflexivity].
  - injection F as <- _. right. split; [simpl; lia|reflexivity].
  - injection F as <- _. right. split; [simpl; lia|reflexivity].
  - destruct (serve_answer s request env w) as (r & w1 & Es & A).
    rewrite Es in F. injection F as <- _.
    pose proof (rpc_answer_status r A) as St.
    right. split; [lia|].
    destruct A as [A|[A|A]]; apply A.
  - injection F as <- _. left. split; [reflexivity|]. split; [reflexivity|].
    intros name [<-|[<-|[<-|[]]]]; reflexivity.
Qed.

Lemma cors_headers_except_not_found_witness :
  let request := {| req_method := "DELETE"; req_pathname := "/"; req_authorization := None;
                    req_user_id := None; req_json := None |} in
  let w := world None None offline in
  let response := text_response 404 "Not Found" in
  @fetch_of plain_runtime ThinkingServer request open_env w = (Ok response, w) /\
  ((response = text_response 404 "Not Found" /\
    headers response = [("content-type", "text/plain;charset=UTF-8")] /\
    (forall name,
       In name ["Access-Control-Allow-Origin"; "Access-Control-Allow-Methods";
                "Access-Control-Allow-Headers"] ->
       named name (headers response) = [])) \/
   (status response <> 404 /\ headers response = corsHeaders)).
Proof.
  split; [reflexivity|].
  apply (@cors_headers_except_not_found plain_runtime ThinkingServer
           {| req_method := "DELETE"; req_pathname := "/"; req_authorization := None;
              req_user_id := None; req_json := None |}
           open_env (world None None offline) (world None None offline)).
  reflexivity.
Defined.
